(** * SWANSIM: the simulation engine of the Black Swan economy model

    A shallow embedding of the Python simulation core
    (agents, markets, social graph, shocks, orchestrator) and the
    properties of its specification.

    Numbers.  Python [int] is [Z].  Python and numpy floats are idealised
    as exact rationals [Q]: rounding, overflow and non-finite values are
    outside the model, except where a division by zero decides what the
    code does (Python raises, numpy yields an infinity that the following
    clip absorbs).  Where the rounding of the doubles decides a property,
    the function is modelled again on IEEE 754 binary64
    ([InequalityMetrics64], [Scenario1.Binary64]).  The transcendental
    functions [tanh] and [log] and all random draws are inputs of the
    model. *)

From Stdlib Require Import ZArith QArith Qround Qabs Lqa Lia.
From Stdlib Require Floats.SpecFloat.
From stdpp Require Import gmap strings list.

Local Open Scope Q_scope.

(** ** Python and numpy primitives *)

Module Py.

(** The exceptions the modelled code can raise. *)
Inductive exn : Type :=
| AttributeError (obj attr : string)
| TypeError (msg : string)
| ZeroDivisionError
| KeyError (key : nat).

(** A method that mutates its receiver of type [S]: it returns the
    receiver as the call leaves it, also when it raises, with either the
    exception or the returned value. *)
Definition M (S A : Type) : Type := S -> S * (exn + A).

(** [max(a, b)] and [min(a, b)] of Python: the first argument wins ties. *)
Definition max (a b : Q) : Q := if Qlt_le_dec a b then b else a.
Definition min (a b : Q) : Q := if Qlt_le_dec b a then b else a.

(** [a < b] as a Python truth value. *)
Definition ltb (a b : Q) : bool := if Qlt_le_dec a b then true else false.

(** [int(x)]: truncation toward zero. *)
Definition int (x : Q) : Z := Z.quot (Qnum x) (Zpos (Qden x)).

(** [a / b] on Python numbers.  (Where the dividend is a numpy scalar a
    zero divisor gives an infinity or nan instead; in [FirmAgent.step],
    the one place where that can happen, the next operation is [int],
    which raises on both.) *)
Definition div (a b : Q) : exn + Q :=
  if Qeq_bool b 0 then inl ZeroDivisionError else inr (a / b).

(** [np.clip(x, lo, hi)] is [minimum(maximum(x, lo), hi)]. *)
Definition clip (x lo hi : Q) : Q :=
  let y := if Qlt_le_dec x lo then lo else x in
  if Qlt_le_dec hi y then hi else y.

(** [sum(...)] and [np.mean(...)]; in exact arithmetic the order of the
    additions does not matter.  The length is not zero where the code
    takes a mean (numpy would answer nan). *)
Definition sum (l : list Q) : Q := foldr Qplus 0 l.
Definition sumZ (l : list Z) : Z := foldr Z.add 0%Z l.
Definition mean (l : list Q) : Q := sum l / inject_Z (Z.of_nat (length l)).

(** [for x in xs: body(x)], each element mutated in place; the loop
    stops at the first exception. *)
Fixpoint for_each {A} (body : M A unit) (l : list A) : list A * (exn + unit) :=
  match l with
  | [] => ([], inr tt)
  | x :: xs =>
      match body x with
      | (x', inl e) => (x' :: xs, inl e)
      | (x', inr _) =>
          let (xs', r) := for_each body xs in (x' :: xs', r)
      end
  end.

(** The number of elements of [xs[:stop]] for a list of length [n]: a
    negative [stop] counts from the end. *)
Definition slice_len (n : nat) (stop : Z) : nat :=
  if (0 <=? stop)%Z then Nat.min (Z.to_nat stop) n
  else (n - Z.to_nat (- stop))%nat.

(** [x[i], x[j] = x[j], x[i]]. *)
Definition swap {A} (i j : nat) (l : list A) : list A :=
  match l !! i, l !! j with
  | Some a, Some b => <[j := a]> (<[i := b]> l)
  | _, _ => l
  end.

(** [np.random.shuffle(x)] on a list: for [i] from [len(x) - 1] down to
    1, element [i] is exchanged with element [j], a draw of [0..i].
    [interval i] is that draw, reduced modulo [i + 1]. *)
Fixpoint shuffle_from {A} (interval : nat -> nat) (i : nat) (l : list A) : list A :=
  match i with
  | O => l
  | S i' => shuffle_from interval i' (swap i (interval i mod (S i)) l)
  end.
Definition shuffle {A} (interval : nat -> nat) (l : list A) : list A :=
  shuffle_from interval (length l - 1) l.

End Py.

(** ** Firm agent (simulation/agents/firms.py) *)

Module FirmAgent.

Inductive Archetype := startup | sme | mnc.

(** The attributes of a firm object.  [desired_labor], [revenue],
    [wage_bill] and [debt] are not assigned by [__init__]: [None] is an
    attribute the object does not have yet. *)
Record t := mk {
  id : nat;
  archetype : Archetype;
  capital : Q;
  employees : Z;
  production : Q;
  price : Q;
  alive : bool;
  productivity : Q;
  pricing_power : Q;
  credit_cost : Q;
  desired_labor : option Z;
  revenue : option Q;
  wage_bill : option Q;
  debt : option Q
}.

Definition set_capital (v : Q) (f : t) : t :=
  mk (id f) (archetype f) v (employees f) (production f) (price f) (alive f)
     (productivity f) (pricing_power f) (credit_cost f)
     (desired_labor f) (revenue f) (wage_bill f) (debt f).
Definition set_employees (v : Z) (f : t) : t :=
  mk (id f) (archetype f) (capital f) v (production f) (price f) (alive f)
     (productivity f) (pricing_power f) (credit_cost f)
     (desired_labor f) (revenue f) (wage_bill f) (debt f).
Definition set_production (v : Q) (f : t) : t :=
  mk (id f) (archetype f) (capital f) (employees f) v (price f) (alive f)
     (productivity f) (pricing_power f) (credit_cost f)
     (desired_labor f) (revenue f) (wage_bill f) (debt f).
Definition set_price (v : Q) (f : t) : t :=
  mk (id f) (archetype f) (capital f) (employees f) (production f) v (alive f)
     (productivity f) (pricing_power f) (credit_cost f)
     (desired_labor f) (revenue f) (wage_bill f) (debt f).
Definition set_alive (v : bool) (f : t) : t :=
  mk (id f) (archetype f) (capital f) (employees f) (production f) (price f) v
     (productivity f) (pricing_power f) (credit_cost f)
     (desired_labor f) (revenue f) (wage_bill f) (debt f).
Definition set_productivity (v : Q) (f : t) : t :=
  mk (id f) (archetype f) (capital f) (employees f) (production f) (price f)
     (alive f) v (pricing_power f) (credit_cost f)
     (desired_labor f) (revenue f) (wage_bill f) (debt f).
Definition set_desired_labor (v : Z) (f : t) : t :=
  mk (id f) (archetype f) (capital f) (employees f) (production f) (price f)
     (alive f) (productivity f) (pricing_power f) (credit_cost f)
     (Some v) (revenue f) (wage_bill f) (debt f).
Definition set_revenue (v : Q) (f : t) : t :=
  mk (id f) (archetype f) (capital f) (employees f) (production f) (price f)
     (alive f) (productivity f) (pricing_power f) (credit_cost f)
     (desired_labor f) (Some v) (wage_bill f) (debt f).
Definition set_wage_bill (v : Q) (f : t) : t :=
  mk (id f) (archetype f) (capital f) (employees f) (production f) (price f)
     (alive f) (productivity f) (pricing_power f) (credit_cost f)
     (desired_labor f) (revenue f) (Some v) (debt f).
Definition set_debt (v : Q) (f : t) : t :=
  mk (id f) (archetype f) (capital f) (employees f) (production f) (price f)
     (alive f) (productivity f) (pricing_power f) (credit_cost f)
     (desired_labor f) (revenue f) (wage_bill f) (Some v).

(** [self.attr] on an attribute that may be missing. *)
Definition getattr {A} (attr : string) (v : option A) : Py.exn + A :=
  match v with
  | Some a => inr a
  | None => inl (Py.AttributeError "FirmAgent" attr)
  end.

(** [FirmAgent.__init__(id, archetype, config)]. *)
Definition init (i : nat) (a : Archetype) : t :=
  {| id := i;
     archetype := a;
     capital := match a with startup => 1000 | sme => 10000 | mnc => 100000 end;
     employees := 0;
     production := 0;
     price := 10;
     alive := true;
     productivity := match a with startup => 8 # 10 | sme => 1 | mnc => 13 # 10 end;
     pricing_power := match a with startup => 9 # 10 | sme => 1 | mnc => 12 # 10 end;
     credit_cost := match a with startup => 10 # 100 | sme => 6 # 100 | mnc => 3 # 100 end;
     desired_labor := None;
     revenue := None;
     wage_bill := None;
     debt := None |}.

(** The [market_conditions] dictionary; ["shock_multiplier"] is read with
    [.get(..., 1.0)] and may be missing. *)
Record MarketConditions := mkMC {
  demand : Q;
  wage : Q;
  inflation : Q;
  shock_multiplier : option Q
}.

(** The local [expected_demand] and [labor_required] of [step]. *)
Definition expected_demand (mc : MarketConditions) (f : t) : Q :=
  let shock := default 1 (shock_multiplier mc) in
  let effective_demand := Py.max (demand mc) 100 in
  effective_demand * shock * productivity f.

Definition labor_required (mc : MarketConditions) (f : t) : Py.exn + Z :=
  match Py.div (expected_demand mc f) (productivity f) with
  | inl e => inl e
  | inr q => inr (Py.int q)
  end.

(** [FirmAgent.step(market_conditions)]. *)
Definition step (mc : MarketConditions) : Py.M t unit :=
  fun f =>
    if negb (alive f) then
      (set_production 0 (set_desired_labor 0 f), inr tt)
    else
      match labor_required mc f with
      | inl e => (f, inl e)
      | inr lr =>
          let max_labor_budget := capital f / Py.max (wage mc) 1 in
          let f := set_desired_labor (Z.min lr (Py.int max_labor_budget)) f in
          let f := set_price (price f * (1 + inflation mc * (5 # 10) * pricing_power f)) f in
          let f := set_revenue 0 f in
          let f := set_wage_bill 0 f in
          (f, inr tt)
      end.

(** [FirmAgent.produce()]. *)
Definition produce : Py.M t unit :=
  fun f => (set_production (inject_Z (employees f) * productivity f) f, inr tt).

(** [FirmAgent.post_market_step()]. *)
Definition post_market_step : Py.M t unit :=
  fun f =>
    if negb (alive f) then (f, inr tt)
    else
      let capital_cost := capital f * credit_cost f in
      match getattr "revenue" (revenue f) with
      | inl e => (f, inl e)
      | inr rev =>
          match getattr "wage_bill" (wage_bill f) with
          | inl e => (f, inl e)
          | inr wb =>
              let profit := rev - wb - capital_cost in
              let f := set_capital (capital f + profit) f in
              if Qlt_le_dec (capital f) 0 then
                (set_production 0 (set_employees 0 (set_alive false f)), inr tt)
              else (f, inr tt)
          end
      end.

End FirmAgent.

(** ** Reward functions (rl/rewards.py) *)

Module RewardFunctions.

Section WithLog.
(** [np.log]. *)
Variable log : Q -> Q.

(** [household_reward(consumption, inflation, unemployment_risk,
    unrest_exposure, alpha, beta, gamma)]. *)
Definition household_reward
    (consumption inflation unemployment_risk unrest_exposure
     alpha beta gamma : Q) : Q :=
  let consumption := Py.max consumption (1 # 1000000) in
  let inflation := Py.clip inflation 0 1 in
  let unemployment_risk := Py.clip unemployment_risk 0 1 in
  let unrest_exposure := Py.clip unrest_exposure 0 1 in
  let utility := log consumption in
  let penalty :=
    alpha * inflation + beta * unemployment_risk
    + gamma * (unrest_exposure * unrest_exposure) in
  let reward := utility - penalty in
  Py.clip reward (-5) 5.

(** [utility_consumption(consumption)]. *)
Definition utility_consumption (consumption : Q) : Q :=
  log (Py.max consumption (1 # 1000000)).

(** The parameter list of [household_reward] with its defaults. *)
Definition household_reward_params : list (string * option Q) :=
  [("consumption", None); ("inflation", None);
   ("unemployment_risk", None); ("unrest_exposure", None);
   ("alpha", Some 1); ("beta", Some (12 # 10)); ("gamma", Some (15 # 10))].

(** Binding of a call made with keyword arguments only: a keyword that
    names no parameter is refused, then every parameter takes its
    keyword's value or else its default. *)
Definition unexpected_keyword (fname : string)
    (params : list (string * option Q)) (kwargs : list (string * Q))
    : option Py.exn :=
  match List.find (fun kw => negb (existsb (String.eqb (fst kw)) (map fst params))) kwargs with
  | Some kw =>
      Some (Py.TypeError
              (fname ++ "() got an unexpected keyword argument '" ++ fst kw ++ "'"))
  | None => None
  end.

Fixpoint bind_params (fname : string) (params : list (string * option Q))
    (kwargs : list (string * Q)) : Py.exn + list Q :=
  match params with
  | [] => inr []
  | (name, dflt) :: ps =>
      let given := List.find (fun kw => String.eqb (fst kw) name) kwargs in
      match (if given is Some kw then Some (snd kw) else dflt) with
      | None =>
          inl (Py.TypeError
                 (fname ++ "() missing 1 required positional argument: '" ++ name ++ "'"))
      | Some v =>
          match bind_params fname ps kwargs with
          | inl e => inl e
          | inr vs => inr (v :: vs)
          end
      end
  end.

Definition bind_kwargs (fname : string) (params : list (string * option Q))
    (kwargs : list (string * Q)) : Py.exn + list Q :=
  match unexpected_keyword fname params kwargs with
  | Some e => inl e
  | None => bind_params fname params kwargs
  end.

(** A call of [RewardFunctions.household_reward] by keywords. *)
Definition call_household_reward (kwargs : list (string * Q)) : Py.exn + Q :=
  match bind_kwargs "household_reward" household_reward_params kwargs with
  | inl e => inl e
  | inr [c; i; u; x; a; b; g] => inr (household_reward c i u x a b g)
  | inr _ => inl (Py.TypeError "household_reward")
  end.
End WithLog.

(** [government_reward(gdp_growth, inflation, unemployment, unrest,
    inequality, alpha, beta, gamma, delta)]. *)
Definition government_reward
    (gdp_growth inflation unemployment unrest inequality
     alpha beta gamma delta : Q) : Q :=
  let gdp_growth := Py.clip gdp_growth (-(25 # 100)) (25 # 100) in
  let inflation := Py.clip inflation 0 1 in
  let unemployment := Py.clip unemployment 0 1 in
  let unrest := Py.clip unrest 0 1 in
  let inequality := Py.clip inequality 0 1 in
  let reward :=
    gdp_growth - alpha * inflation - beta * unemployment
    - gamma * (unrest * unrest) - delta * inequality in
  let reward :=
    if Py.ltb (85 # 100) unrest && Py.ltb (6 # 10) inequality
    then reward - 2 else reward in
  Py.clip reward (-5) 5.

(** The call with the default weights. *)
Definition government_reward_default
    (gdp_growth inflation unemployment unrest inequality : Q) : Q :=
  government_reward gdp_growth inflation unemployment unrest inequality
                    (8 # 10) (12 # 10) 2 1.

End RewardFunctions.

(** ** Simulation state (simulation/state.py) *)

Module EconomicState.

Inductive Regime := stable | collapsed.

(** [regime_stability] is not a declared field: the coup shock creates
    it on first use. *)
Record t := mk {
  gdp : Q;
  gdp_last : Q;
  gdp_growth : Q;
  inflation : Q;
  unemployment : Q;
  interest_rate : Q;
  tax_rate : Q;
  gini_coeff : Q;
  wage_index : Q;
  price_index : Q;
  avg_unrest : Q;
  top1_wealth_share : Q;
  welfare_spending : Q;
  capital_controls : Q;
  regime : Regime;
  regime_stability : option Q
}.

(** The dataclass defaults. *)
Definition default : t :=
  mk 0 0 0 0 0 (5 # 100) (2 # 10) 0 1 1 0 0 0 0 stable None.

Definition set_gdp v (e : t) : t :=
  mk v (gdp_last e) (gdp_growth e) (inflation e) (unemployment e)
     (interest_rate e) (tax_rate e) (gini_coeff e) (wage_index e)
     (price_index e) (avg_unrest e) (top1_wealth_share e)
     (welfare_spending e) (capital_controls e) (regime e) (regime_stability e).
Definition set_gdp_last v (e : t) : t :=
  mk (gdp e) v (gdp_growth e) (inflation e) (unemployment e)
     (interest_rate e) (tax_rate e) (gini_coeff e) (wage_index e)
     (price_index e) (avg_unrest e) (top1_wealth_share e)
     (welfare_spending e) (capital_controls e) (regime e) (regime_stability e).
Definition set_gdp_growth v (e : t) : t :=
  mk (gdp e) (gdp_last e) v (inflation e) (unemployment e)
     (interest_rate e) (tax_rate e) (gini_coeff e) (wage_index e)
     (price_index e) (avg_unrest e) (top1_wealth_share e)
     (welfare_spending e) (capital_controls e) (regime e) (regime_stability e).
Definition set_inflation v (e : t) : t :=
  mk (gdp e) (gdp_last e) (gdp_growth e) v (unemployment e)
     (interest_rate e) (tax_rate e) (gini_coeff e) (wage_index e)
     (price_index e) (avg_unrest e) (top1_wealth_share e)
     (welfare_spending e) (capital_controls e) (regime e) (regime_stability e).
Definition set_unemployment v (e : t) : t :=
  mk (gdp e) (gdp_last e) (gdp_growth e) (inflation e) v
     (interest_rate e) (tax_rate e) (gini_coeff e) (wage_index e)
     (price_index e) (avg_unrest e) (top1_wealth_share e)
     (welfare_spending e) (capital_controls e) (regime e) (regime_stability e).
Definition set_gini_coeff v (e : t) : t :=
  mk (gdp e) (gdp_last e) (gdp_growth e) (inflation e) (unemployment e)
     (interest_rate e) (tax_rate e) v (wage_index e)
     (price_index e) (avg_unrest e) (top1_wealth_share e)
     (welfare_spending e) (capital_controls e) (regime e) (regime_stability e).
Definition set_wage_index v (e : t) : t :=
  mk (gdp e) (gdp_last e) (gdp_growth e) (inflation e) (unemployment e)
     (interest_rate e) (tax_rate e) (gini_coeff e) v
     (price_index e) (avg_unrest e) (top1_wealth_share e)
     (welfare_spending e) (capital_controls e) (regime e) (regime_stability e).
Definition set_price_index v (e : t) : t :=
  mk (gdp e) (gdp_last e) (gdp_growth e) (inflation e) (unemployment e)
     (interest_rate e) (tax_rate e) (gini_coeff e) (wage_index e)
     v (avg_unrest e) (top1_wealth_share e)
     (welfare_spending e) (capital_controls e) (regime e) (regime_stability e).
Definition set_avg_unrest v (e : t) : t :=
  mk (gdp e) (gdp_last e) (gdp_growth e) (inflation e) (unemployment e)
     (interest_rate e) (tax_rate e) (gini_coeff e) (wage_index e)
     (price_index e) v (top1_wealth_share e)
     (welfare_spending e) (capital_controls e) (regime e) (regime_stability e).
Definition set_top1_wealth_share v (e : t) : t :=
  mk (gdp e) (gdp_last e) (gdp_growth e) (inflation e) (unemployment e)
     (interest_rate e) (tax_rate e) (gini_coeff e) (wage_index e)
     (price_index e) (avg_unrest e) v
     (welfare_spending e) (capital_controls e) (regime e) (regime_stability e).
Definition set_regime v (e : t) : t :=
  mk (gdp e) (gdp_last e) (gdp_growth e) (inflation e) (unemployment e)
     (interest_rate e) (tax_rate e) (gini_coeff e) (wage_index e)
     (price_index e) (avg_unrest e) (top1_wealth_share e)
     (welfare_spending e) (capital_controls e) v (regime_stability e).
Definition set_regime_stability v (e : t) : t :=
  mk (gdp e) (gdp_last e) (gdp_growth e) (inflation e) (unemployment e)
     (interest_rate e) (tax_rate e) (gini_coeff e) (wage_index e)
     (price_index e) (avg_unrest e) (top1_wealth_share e)
     (welfare_spending e) (capital_controls e) (regime e) (Some v).

(** [update_growth()]. *)
Definition update_growth (e : t) : t :=
  let e :=
    if Qlt_le_dec 0 (gdp_last e)
    then set_gdp_growth ((gdp e - gdp_last e) / gdp_last e) e
    else set_gdp_growth 0 e in
  set_gdp_last (gdp e) e.

(** The government's action vector, of shape (4,). *)
Record Action := mkAction {
  a_interest_rate : Q;
  a_tax_rate : Q;
  a_welfare_spending : Q;
  a_capital_controls : Q
}.

(** [apply_policy(action)]. *)
Definition apply_policy (a : Action) (e : t) : t :=
  mk (gdp e) (gdp_last e) (gdp_growth e) (inflation e) (unemployment e)
     (a_interest_rate a) (a_tax_rate a) (gini_coeff e) (wage_index e)
     (price_index e) (avg_unrest e) (top1_wealth_share e)
     (a_welfare_spending a) (a_capital_controls a) (regime e)
     (regime_stability e).

End EconomicState.

(** ** Household agent (simulation/agents/households.py) *)

Module HouseholdAgent.

Inductive SocialClass := poor | working | middle | elite.

(** [SOCIAL_CLASS_PARAMS[c]["propensity_to_protest"]]. *)
Definition propensity_to_protest (c : SocialClass) : Q :=
  match c with
  | poor => 5 # 10
  | working => 3 # 10
  | middle => 2 # 10
  | elite => 5 # 100
  end.

(** [employed] is first assigned by the labor market. *)
Record t := mk {
  id : nat;
  social_class : SocialClass;
  wealth : Q;
  consumption : Q;
  savings : Q;
  unrest : Q;
  employed : option bool
}.

(** [HouseholdAgent.__init__]; [w] is the normal draw of the wealth. *)
Definition init (i : nat) (c : SocialClass) (w : Q) : t :=
  mk i c w 0 0 0 None.

Definition set_wealth v (h : t) : t :=
  mk (id h) (social_class h) v (consumption h) (savings h) (unrest h) (employed h).
Definition set_consumption v (h : t) : t :=
  mk (id h) (social_class h) (wealth h) v (savings h) (unrest h) (employed h).
Definition set_savings v (h : t) : t :=
  mk (id h) (social_class h) (wealth h) (consumption h) v (unrest h) (employed h).
Definition set_unrest v (h : t) : t :=
  mk (id h) (social_class h) (wealth h) (consumption h) (savings h) v (employed h).
Definition set_employed v (h : t) : t :=
  mk (id h) (social_class h) (wealth h) (consumption h) (savings h) (unrest h) (Some v).

(** The observation
    [inflation, unemployment, social_unrest, gdp_growth, personal_wealth]. *)
Record Observation := mkObs {
  o_inflation : Q;
  o_unemployment : Q;
  o_social_unrest : Q;
  o_gdp_growth : Q;
  o_personal_wealth : Q
}.

(** [act(observation, policy_network)]: the action vector is returned,
    the household updated. *)
Definition act (obs : Observation)
    (policy_network : option (Observation -> Q * Q * Q)) (h : t)
    : t * (Q * Q * Q) :=
  let action :=
    match policy_network with
    | Some net => net obs
    | None =>
        let base := propensity_to_protest (social_class h) in
        let consumption_pct := Py.clip ((5 # 10) + (2 # 10) * (1 - base)) 0 1 in
        let savings_pct := 1 - consumption_pct in
        let protest_pct := Py.clip (base * o_social_unrest obs) 0 1 in
        (consumption_pct, savings_pct, protest_pct)
    end in
  let '(a0, a1, a2) := action in
  let h := set_consumption (wealth h * a0) h in
  let h := set_savings (wealth h * a1) h in
  let h := set_unrest a2 h in
  let h := set_wealth (savings h) h in
  (h, action).

(** [compute_reward(global_state, local_exposure)]; of the global state
    only [economics] is read. *)
Definition compute_reward (log : Q -> Q) (h : t) (econ : EconomicState.t)
    (local_exposure : Q) : Py.exn + Q :=
  let inflation := EconomicState.inflation econ in
  let unemployment := EconomicState.unemployment econ in
  RewardFunctions.call_household_reward log
    [("consumption_utility", RewardFunctions.utility_consumption log (consumption h));
     ("inflation", inflation);
     ("unemployment", unemployment);
     ("unrest_exposure", local_exposure)].

End HouseholdAgent.

(** [GlobalState]: of its fields the modelled code reads [economics] and
    [households], the latter a dictionary keyed by strings that
    [GlobalState()] creates empty. *)
Module GlobalState.

Record t := mk {
  economics : EconomicState.t;
  households : gmap string HouseholdAgent.t
}.

(** [GlobalState()]. *)
Definition new : t := mk EconomicState.default ∅.

Definition set_economics (e : EconomicState.t) (g : t) : t :=
  mk e (households g).

End GlobalState.

(** ** Government agent (simulation/agents/government.py) *)

Module GovernmentAgent.

(** [prev_gdp] starts as Python's [None]; [current_interest_rate] is an
    attribute the orchestrator adds. *)
Record t := mk {
  prev_gdp : option Q;
  current_interest_rate : option Q
}.

(** [GovernmentAgent.__init__(config)]. *)
Definition init : t := mk None None.

Definition min_interest : Q := 0.
Definition max_interest : Q := 2 # 10.
Definition min_tax : Q := 0.
Definition max_tax : Q := 6 # 10.
Definition min_welfare : Q := 0.
Definition max_welfare : Q := 5 # 10.
Definition min_controls : Q := 0.
Definition max_controls : Q := 1.

(** [act(observation)] on
    [inflation, unemployment, unrest, inequality, gdp_level]. *)
Definition act (observation : Q * Q * Q * Q * Q) : EconomicState.Action :=
  let '(inflation, unemployment, unrest, inequality, _) := observation in
  let interest_rate :=
    Py.clip ((2 # 100) + (15 # 100) * inflation) min_interest max_interest in
  let tax_rate :=
    Py.clip ((15 # 100) + (4 # 10) * inequality * unrest) min_tax max_tax in
  let welfare_spending :=
    Py.clip ((1 # 10) + (5 # 10) * unrest) min_welfare max_welfare in
  let capital_controls :=
    Py.clip (unrest * unrest) min_controls max_controls in
  EconomicState.mkAction interest_rate tax_rate welfare_spending capital_controls.

(** Attribute access on a [str], the type of the dictionary's keys: it
    has neither [size] nor [unrest_level]. *)
Definition str_getattr (s attr : string) : Py.exn + Q :=
  inl (Py.AttributeError "str" attr).

(** The body of the loop of [_aggregate_unrest] on
    [(total_pop, weighted_unrest)]. *)
Definition aggregate_body (h : string) (acc : Q * Q) : Py.exn + (Q * Q) :=
  let '(total_pop, weighted_unrest) := acc in
  match str_getattr h "size" with
  | inl e => inl e
  | inr size =>
      let pop := Py.max size 1 in
      let total_pop := total_pop + pop in
      match str_getattr h "unrest_level" with
      | inl e => inl e
      | inr unrest_level => inr (total_pop, weighted_unrest + pop * unrest_level)
      end
  end.

Fixpoint aggregate_loop (hs : list string) (acc : Q * Q) : Py.exn + (Q * Q) :=
  match hs with
  | [] => inr acc
  | h :: hs' =>
      match aggregate_body h acc with
      | inl e => inl e
      | inr acc' => aggregate_loop hs' acc'
      end
  end.

(** [_aggregate_unrest(global_state)]; [for h in households] runs over
    the keys of the dictionary. *)
Definition _aggregate_unrest (gs : GlobalState.t) : Py.exn + Q :=
  let households := GlobalState.households gs in
  if (size households =? 0)%nat then inr 0
  else
    match aggregate_loop (map fst (map_to_list households)) (0, 0) with
    | inl e => inl e
    | inr (total_pop, weighted_unrest) =>
        inr (Py.clip (weighted_unrest / total_pop) 0 1)
    end.

(** The local [gdp_growth] of [compute_reward]. *)
Definition gdp_growth (g : t) (gs : GlobalState.t) : Q :=
  let current_gdp := EconomicState.gdp (GlobalState.economics gs) in
  match prev_gdp g with
  | None => 0
  | Some prev => (current_gdp - prev) / Py.max prev (1 # 1000000)
  end.

(** [compute_reward(global_state)]. *)
Definition compute_reward (gs : GlobalState.t) : Py.M t Q :=
  fun g =>
    let econ := GlobalState.economics gs in
    let growth := gdp_growth g gs in
    let g := mk (Some (EconomicState.gdp econ)) (current_interest_rate g) in
    let inflation := EconomicState.inflation econ in
    let unemployment := EconomicState.unemployment econ in
    let inequality := EconomicState.gini_coeff econ in
    match _aggregate_unrest gs with
    | inl e => (g, inl e)
    | inr unrest =>
        (g, inr (RewardFunctions.government_reward_default
                   growth inflation unemployment unrest inequality))
    end.

End GovernmentAgent.

(** ** Inequality metrics (simulation/economics/inequality.py) *)

Module InequalityMetrics.

(** [np.sort], ascending. *)
Fixpoint insert_sorted (x : Q) (l : list Q) : list Q :=
  match l with
  | [] => [x]
  | y :: l' => if Qle_bool x y then x :: l else y :: insert_sorted x l'
  end.
Definition np_sort (l : list Q) : list Q := foldr insert_sorted [] l.

(** [((2 * index - n - 1) * incomes).sum()] from position [i] on. *)
Fixpoint weighted_sum (n : Z) (i : Z) (incomes : list Q) : Q :=
  match incomes with
  | [] => 0
  | x :: l => inject_Z (2 * i - n - 1) * x + weighted_sum n (i + 1) l
  end.

(** [calculate_gini(incomes)].  When the sorted incomes sum to zero the
    numpy quotient is an infinity, positive since the numerator is
    (lemma [gini_numerator_pos]), and the clip returns 1. *)
Definition calculate_gini (incomes : list Q) : Q :=
  if (length incomes =? 0)%nat then 0
  else if forallb (fun x => Qeq_bool x 0) incomes then 0
  else
    let incomes := np_sort incomes in
    let n := Z.of_nat (length incomes) in
    let num := weighted_sum n 1 incomes in
    let den := inject_Z n * Py.sum incomes in
    if Qeq_bool den 0 then 1
    else Py.clip (num / den) 0 1.

(** [calculate_wealth_share(wealths, top_percentile)]. *)
Definition top_k (wealths : list Q) (top_percentile : Q) : Z :=
  Z.max 1 (Qceiling (inject_Z (Z.of_nat (length wealths)) * top_percentile)).

Definition calculate_wealth_share (wealths : list Q) (top_percentile : Q) : Q :=
  if (length wealths =? 0)%nat then 0
  else
    let total_wealth := Py.sum wealths in
    if Qlt_le_dec 0 total_wealth then
      let k := top_k wealths top_percentile in
      let sorted_wealths := rev (np_sort wealths) in
      let top_wealth := Py.sum (take (Z.to_nat k) sorted_wealths) in
      let share := top_wealth / total_wealth in
      Py.clip share 0 1
    else 0.

End InequalityMetrics.

(** ** Social graph (simulation/networks/social_graph.py) *)

Module SocialGraph.

(** The networkx graph as its adjacency, in the order of [graph.nodes]:
    each node with the list of its neighbours. *)
Record t := mk {
  graph : list (nat * list nat);
  influence_strength : Q;
  decay : Q;
  noise : Q
}.

Definition _clip (x : Q) : Q := Py.clip x 0 1.

(** [household_states[n]["unrest"]]. *)
Definition state_unrest (household_states : gmap nat Q) (n : nat) : Py.exn + Q :=
  match household_states !! n with
  | Some u => inr u
  | None => inl (Py.KeyError n)
  end.

Fixpoint neighbor_unrests (household_states : gmap nat Q) (neighbors : list nat)
    : Py.exn + list Q :=
  match neighbors with
  | [] => inr []
  | n :: ns =>
      match state_unrest household_states n with
      | inl e => inl e
      | inr u =>
          match neighbor_unrests household_states ns with
          | inl e => inl e
          | inr us => inr (u :: us)
          end
      end
  end.

(** The diffusion equation; [z] is the value of [np.random.normal(0, noise)]. *)
Definition propagated (g : t) (own_unrest neighbor_unrest z : Q) : Q :=
  own_unrest
  + influence_strength g * (neighbor_unrest - own_unrest)
  - decay g * own_unrest
  + z.

(** The loop of [spread_influence] over [graph.nodes]; [normal k] is the
    [k]-th normal draw of the call. *)
Fixpoint spread_loop (g : t) (household_states : gmap nat Q) (normal : nat -> Q)
    (nodes : list (nat * list nat)) (k : nat) (new_unrest : gmap nat Q)
    : Py.exn + gmap nat Q :=
  match nodes with
  | [] => inr new_unrest
  | (agent_id, neighbors) :: rest =>
      match state_unrest household_states agent_id with
      | inl e => inl e
      | inr own_unrest =>
          match neighbors with
          | [] =>
              spread_loop g household_states normal rest k
                (<[agent_id := _clip own_unrest]> new_unrest)
          | _ :: _ =>
              match neighbor_unrests household_states neighbors with
              | inl e => inl e
              | inr us =>
                  let neighbor_unrest := Py.mean us in
                  let p := propagated g own_unrest neighbor_unrest (normal k) in
                  spread_loop g household_states normal rest (S k)
                    (<[agent_id := _clip p]> new_unrest)
              end
          end
      end
  end.

(** [spread_influence(household_states)]. *)
Definition spread_influence (g : t) (household_states : gmap nat Q)
    (normal : nat -> Q) : Py.exn + gmap nat Q :=
  spread_loop g household_states normal (graph g) 0 ∅.

End SocialGraph.

(** ** Shocks (simulation/shocks) *)

Module ShockManager.

(** [ExogenousShock]. *)
Record Shock := mkShock {
  type : string;
  severity : Q;
  duration : Z;
  start_step : Z
}.

Record t := mk {
  active_shocks : list Shock;
  shock_probs : list (string * Q)
}.

(** The default probability table of [__init__]. *)
Definition default_shock_probs : list (string * Q) :=
  [("pandemic", 1 # 100); ("financial_crash", 2 # 100);
   ("supply_chain_collapse", 5 # 100)].

(** [add_shock(shock_type, severity)]. *)
Definition add_shock (shock_type : string) (sev : Q) (m : t) : t :=
  let duration := if negb (String.eqb shock_type "permanent") then 10%Z else 1000%Z in
  mk (active_shocks m ++ [mkShock shock_type sev duration 0]) (shock_probs m).

(** What a shock acts on. *)
Definition World : Type :=
  EconomicState.t * list HouseholdAgent.t * list FirmAgent.t.

(** [_apply_shock(shock, state, households, firms)]. *)
Definition _apply_shock (shock : Shock) (w : World) : World :=
  let '(econ, households, firms) := w in
  let sev := severity shock in
  if String.eqb (type shock) "pandemic" then
    (EconomicState.set_unemployment (EconomicState.unemployment econ + 5 * sev) econ,
     map (fun h => HouseholdAgent.set_consumption
                     (HouseholdAgent.consumption h * (1 - 2 * sev)) h) households,
     firms)
  else if String.eqb (type shock) "financial_crash" then
    (EconomicState.set_unemployment (EconomicState.unemployment econ + 40 * sev) econ,
     map (fun h => HouseholdAgent.set_wealth
                     (HouseholdAgent.wealth h * (1 - 7 * sev)) h) households,
     map (fun f => FirmAgent.set_capital
                     (FirmAgent.capital f * (1 - 8 * sev)) f) firms)
  else if String.eqb (type shock) "political_coup" then
    (EconomicState.set_regime_stability
       (match EconomicState.regime_stability econ with
        | Some rs => Py.max 0 (rs - 1 * sev)
        | None => 0
        end) econ,
     map (fun h => HouseholdAgent.set_unrest
                     (Py.clip (HouseholdAgent.unrest h + 20 * sev) 0 1) h) households,
     firms)
  else if String.eqb (type shock) "supply_chain_collapse" then
    (EconomicState.set_inflation (EconomicState.inflation econ + 50 * sev) econ,
     households,
     map (fun f => FirmAgent.set_productivity
                     (FirmAgent.productivity f * (1 - 6 * sev)) f) firms)
  else if String.eqb (type shock) "cyber_attack" then
    (econ,
     map (fun h => HouseholdAgent.set_unrest
                     (Py.clip (HouseholdAgent.unrest h + 3 * sev) 0 1) h) households,
     map (fun f => FirmAgent.set_capital
                     (FirmAgent.capital f * (1 - (1 # 10) * sev)) f) firms)
  else if String.eqb (type shock) "climate_catastrophe" then
    (EconomicState.set_unemployment
       (EconomicState.unemployment econ + 10 * sev)
       (EconomicState.set_inflation (EconomicState.inflation econ + 20 * sev) econ),
     map (fun h => HouseholdAgent.set_wealth
                     (HouseholdAgent.wealth h * (1 - 2 * sev)) h) households,
     map (fun f => FirmAgent.set_productivity
                     (FirmAgent.productivity f * (1 - 4 * sev)) f) firms)
  else w.

(** The random triggers of [maybe_trigger]; [random k] is the [k]-th
    uniform draw of the call. *)
Fixpoint trigger (probs : list (string * Q)) (random : nat -> Q) (k : nat) (m : t) : t :=
  match probs with
  | [] => m
  | (shock_type, prob) :: rest =>
      let m := if Qlt_le_dec (random k) prob
               then add_shock shock_type (5 # 10) m else m in
      trigger rest random (S k) m
  end.

(** The loop of [maybe_trigger] over the active shocks, collecting
    [alive_shocks]. *)
Fixpoint apply_active (shocks : list Shock) (w : World) : list Shock * World :=
  match shocks with
  | [] => ([], w)
  | shock :: rest =>
      let w := _apply_shock shock w in
      let shock := mkShock (type shock) (severity shock)
                           (duration shock - 1) (start_step shock) in
      let '(alive_shocks, w) := apply_active rest w in
      (if (0 <? duration shock)%Z then shock :: alive_shocks else alive_shocks, w)
  end.

(** [maybe_trigger(state, households, firms)]. *)
Definition maybe_trigger (random : nat -> Q) (m : t) (w : World) : t * World :=
  let m := trigger (shock_probs m) random 0 m in
  let '(alive_shocks, w) := apply_active (active_shocks m) w in
  (mk alive_shocks (shock_probs m), w).

End ShockManager.

(** ** Market mechanism (simulation/economics/markets.py) *)

Module MarketMechanism.

Record t := mk {
  base_wage : Q;
  price_adjustment : Q;
  wage_adjustment : Q;
  base_interest_rate : Q;
  max_leverage : Q
}.

(** The defaults of [__init__]. *)
Definition default : t := mk 50 (1 # 10) (1 # 10) (5 # 100) 3.

Section WithTanh.
(** [np.tanh]. *)
Variable tanh : Q -> Q.

(** [[f.desired_labor for f in firms]]. *)
Fixpoint desired_labors (firms : list FirmAgent.t) : Py.exn + list Z :=
  match firms with
  | [] => inr []
  | f :: fs =>
      match FirmAgent.getattr "desired_labor" (FirmAgent.desired_labor f) with
      | inl e => inl e
      | inr d =>
          match desired_labors fs with
          | inl e => inl e
          | inr ds => inr (d :: ds)
          end
      end
  end.

(** The two loop bodies on households and the one on firms. *)
Definition hire (wage : Q) (h : HouseholdAgent.t) : HouseholdAgent.t :=
  let h := HouseholdAgent.set_employed true h in
  HouseholdAgent.set_wealth (HouseholdAgent.wealth h + wage) h.

Definition staff (employed labor_demand : Z) (wage : Q) : Py.M FirmAgent.t unit :=
  fun f =>
    match FirmAgent.getattr "desired_labor" (FirmAgent.desired_labor f) with
    | inl e => (f, inl e)
    | inr d =>
        let f := FirmAgent.set_employees
                   (Py.int (inject_Z (d * employed)
                            / inject_Z (Z.max labor_demand 1))) f in
        (FirmAgent.set_wage_bill (inject_Z (FirmAgent.employees f) * wage) f, inr tt)
    end.

(** [clear_labor_market(households, firms)]: both lists are returned as
    the call leaves them, with [(wage, unemployment_rate)]. *)
Definition clear_labor_market (m : t) (interval : nat -> nat)
    (households : list HouseholdAgent.t) (firms : list FirmAgent.t)
    : (list HouseholdAgent.t * list FirmAgent.t) * (Py.exn + (Q * Q)) :=
  let labor_supply := Z.of_nat (length households) in
  match desired_labors firms with
  | inl e => ((households, firms), inl e)
  | inr ds =>
      let labor_demand := Py.sumZ ds in
      let excess_demand := (labor_demand - labor_supply)%Z in
      let wage :=
        base_wage m
        * (1 + wage_adjustment m
               * tanh (inject_Z excess_demand / inject_Z (Z.max labor_supply 1))) in
      let employed := Z.min labor_supply labor_demand in
      match Py.div (inject_Z employed) (inject_Z labor_supply) with
      | inl e => ((households, firms), inl e)
      | inr ratio =>
          let unemployment_rate := 1 - ratio in
          let households := Py.shuffle interval households in
          let k := Py.slice_len (length households) employed in
          let households := map (HouseholdAgent.set_employed false) households in
          let households := map (hire wage) (take k households) ++ drop k households in
          match Py.for_each (staff employed labor_demand wage) firms with
          | (firms, inl e) => ((households, firms), inl e)
          | (firms, inr _) => ((households, firms), inr (wage, unemployment_rate))
          end
      end
  end.

(** [clear_goods_market(households, firms)]: the firms as the call
    leaves them, with the price multiplier. *)
Definition clear_goods_market (m : t)
    (households : list HouseholdAgent.t) (firms : list FirmAgent.t)
    : list FirmAgent.t * Q :=
  let total_demand := Py.sum (map HouseholdAgent.consumption households) in
  let total_supply := Py.sum (map FirmAgent.production firms) in
  let excess_demand := total_demand - total_supply in
  let price_multiplier :=
    1 + price_adjustment m * tanh (excess_demand / Py.max total_supply 1) in
  let firms :=
    map (fun f => FirmAgent.set_price (FirmAgent.price f * price_multiplier) f) firms in
  let firms :=
    if Qlt_le_dec 0 total_supply then
      map (fun f =>
             let market_share := FirmAgent.production f / total_supply in
             FirmAgent.set_revenue
               (market_share * Py.min total_demand total_supply * FirmAgent.price f) f)
          firms
    else map (FirmAgent.set_revenue 0) firms in
  (firms, price_multiplier).
End WithTanh.

(** The body of the loop of [clear_credit_market]. *)
Definition lend (m : t) (interest_rate : Q) : Py.M FirmAgent.t unit :=
  fun f =>
    if Qlt_le_dec (FirmAgent.capital f) 0 then
      let desired_credit := Qabs (FirmAgent.capital f) in
      let max_credit :=
        max_leverage m * Py.max (FirmAgent.capital f + desired_credit) 1 in
      let granted_credit := Py.min desired_credit max_credit in
      let repayment := granted_credit * (1 + interest_rate) in
      let f := FirmAgent.set_capital (FirmAgent.capital f + granted_credit) f in
      match FirmAgent.getattr "debt" (FirmAgent.debt f) with
      | inl e => (f, inl e)
      | inr debt => (FirmAgent.set_debt (debt + repayment) f, inr tt)
      end
    else (f, inr tt).

(** [clear_credit_market(firms, government)]: the firms as the call
    leaves them, with the interest rate. *)
Definition clear_credit_market (m : t) (firms : list FirmAgent.t)
    (government : GovernmentAgent.t) : list FirmAgent.t * (Py.exn + Q) :=
  match GovernmentAgent.current_interest_rate government with
  | None => (firms, inl (Py.AttributeError "GovernmentAgent" "current_interest_rate"))
  | Some interest_rate =>
      match Py.for_each (lend m interest_rate) firms with
      | (firms, inl e) => (firms, inl e)
      | (firms, inr _) => (firms, inr interest_rate)
      end
  end.

End MarketMechanism.

(** ** Orchestrator (simulation/env.py) *)

Module BlackSwanEnv.

Record t := mk {
  max_steps : Z;
  state : GlobalState.t;
  timestep : Z;
  government : GovernmentAgent.t;
  households : list HouseholdAgent.t;
  firms : list FirmAgent.t;
  market : MarketMechanism.t;
  social_graph : SocialGraph.t;
  shocks : ShockManager.t
}.

(** The random draws of one [step], each family indexed in the order the
    calls are made. *)
Record Draws := mkDraws {
  random : nat -> Q;
  normal : nat -> Q;
  interval : nat -> nat;
  randn : Q
}.

(** What [step] returns (the empty [info] left out). *)
Record StepResult := mkResult {
  obs : list Q;
  reward : Q;
  terminated : bool;
  truncated : bool
}.

(** [BlackSwanEnv.__init__(config)]: [population] and [archetypes] are
    the draws of the agents, [graph] the drawn contact network. *)
Definition init (max_steps : Z) (market : MarketMechanism.t)
    (graph : SocialGraph.t) (shock_probs : list (string * Q))
    (population : list (HouseholdAgent.SocialClass * Q))
    (archetypes : list FirmAgent.Archetype) : t :=
  mk max_steps GlobalState.new 0 GovernmentAgent.init
     (imap (fun i cw => HouseholdAgent.init i (fst cw) (snd cw)) population)
     (imap FirmAgent.init archetypes)
     market graph (ShockManager.mk [] shock_probs).

(** [_get_obs()]. *)
Definition _get_obs (env : t) : list Q :=
  let econ := GlobalState.economics (state env) in
  [EconomicState.gdp econ; EconomicState.inflation econ;
   EconomicState.unemployment econ; EconomicState.gini_coeff econ;
   EconomicState.avg_unrest econ; EconomicState.top1_wealth_share econ;
   EconomicState.interest_rate econ; EconomicState.tax_rate econ;
   EconomicState.welfare_spending econ; EconomicState.capital_controls econ].

(** [_household_obs(h)]. *)
Definition _household_obs (econ : EconomicState.t) (h : HouseholdAgent.t)
    : HouseholdAgent.Observation :=
  HouseholdAgent.mkObs
    (EconomicState.inflation econ) (EconomicState.unemployment econ)
    (EconomicState.avg_unrest econ) (EconomicState.gdp_growth econ)
    (HouseholdAgent.wealth h).

(** [reset()]: the agents and the graph are kept. *)
Definition reset (env : t) : t * list Q :=
  let econ := EconomicState.default in
  let econ := EconomicState.set_gdp 10000 econ in
  let econ := EconomicState.set_gdp_last 10000 econ in
  let econ := EconomicState.set_wage_index 1 econ in
  let econ := EconomicState.set_price_index 1 econ in
  let env :=
    mk (max_steps env) (GlobalState.set_economics econ GlobalState.new) 0
       (GovernmentAgent.mk (Some 10000)
          (GovernmentAgent.current_interest_rate (government env)))
       (households env) (firms env) (market env) (social_graph env) (shocks env) in
  (env, _get_obs env).

(** [Simulator.add_shock]: [env.shocks.add_shock(shock_type, severity)]. *)
Definition add_shock (shock_type : string) (sev : Q) (env : t) : t :=
  mk (max_steps env) (state env) (timestep env) (government env)
     (households env) (firms env) (market env) (social_graph env)
     (ShockManager.add_shock shock_type sev (shocks env)).

(** [[f.revenue for f in firms]]. *)
Fixpoint revenues (firms : list FirmAgent.t) : Py.exn + list Q :=
  match firms with
  | [] => inr []
  | f :: fs =>
      match FirmAgent.getattr "revenue" (FirmAgent.revenue f) with
      | inl e => inl e
      | inr r =>
          match revenues fs with
          | inl e => inl e
          | inr rs => inr (r :: rs)
          end
      end
  end.

(** [_update_macros(unemployment)]; [z] is [np.random.randn()]. *)
Definition _update_macros (unemployment z : Q)
    (households : list HouseholdAgent.t) (firms : list FirmAgent.t)
    : Py.M EconomicState.t unit :=
  fun econ =>
    match revenues firms with
    | inl e => (econ, inl e)
    | inr rs =>
        let econ := EconomicState.set_gdp (Py.sum rs) econ in
        let econ :=
          EconomicState.set_inflation
            (Py.clip (EconomicState.inflation econ + (1 # 100) * z) 0 1) econ in
        let econ := EconomicState.set_unemployment unemployment econ in
        let wealths := map HouseholdAgent.wealth households in
        let econ :=
          EconomicState.set_gini_coeff (InequalityMetrics.calculate_gini wealths) econ in
        let econ :=
          EconomicState.set_top1_wealth_share
            (InequalityMetrics.calculate_wealth_share wealths (1 # 100)) econ in
        let econ :=
          EconomicState.set_avg_unrest
            (Py.mean (map HouseholdAgent.unrest households)) econ in
        (EconomicState.update_growth econ, inr tt)
    end.

(** [_check_collapse()]. *)
Definition _check_collapse (econ : EconomicState.t) : EconomicState.t * bool :=
  if Py.ltb (7 # 10) (EconomicState.avg_unrest econ)
     && Py.ltb (15 # 100) (EconomicState.unemployment econ)
  then (EconomicState.set_regime EconomicState.collapsed econ, true)
  else if Py.ltb (EconomicState.gdp econ) (1 # 1000)
  then (EconomicState.set_regime EconomicState.collapsed econ, true)
  else (econ, false).

(** [h.unrest = updated_unrest[h.id]]. *)
Definition take_unrest (updated_unrest : gmap nat Q) : Py.M HouseholdAgent.t unit :=
  fun h =>
    match updated_unrest !! HouseholdAgent.id h with
    | Some u => (HouseholdAgent.set_unrest u h, inr tt)
    | None => (h, inl (Py.KeyError (HouseholdAgent.id h)))
    end.

Definition set_world (env : t) (ts : Z) (econ : EconomicState.t)
    (gov : GovernmentAgent.t) (hs : list HouseholdAgent.t)
    (fs : list FirmAgent.t) (sh : ShockManager.t) : t :=
  mk (max_steps env) (GlobalState.set_economics econ (state env)) ts gov
     hs fs (market env) (social_graph env) sh.

(** The [market_conditions] dictionary of [step]. *)
Definition conditions (env : t) (econ : EconomicState.t) : FirmAgent.MarketConditions :=
  FirmAgent.mkMC (EconomicState.gdp econ)
    (MarketMechanism.base_wage (market env) * EconomicState.wage_index econ)
    (EconomicState.inflation econ) None.

(** The loop of [step] over the households: each acts on its observation
    and its unrest is recorded under its id. *)
Definition households_act (econ : EconomicState.t) (hs : list HouseholdAgent.t)
    : list HouseholdAgent.t :=
  map (fun h => fst (HouseholdAgent.act (_household_obs econ h) None h)) hs.

Definition household_states (hs : list HouseholdAgent.t) : gmap nat Q :=
  foldl (fun m h => <[HouseholdAgent.id h := HouseholdAgent.unrest h]> m) ∅ hs.

Section WithTanh.
Variable tanh : Q -> Q.

(** [step(action)]: the environment as the call leaves it, with the
    exception or the result. *)
Definition step (d : Draws) (action : EconomicState.Action) : Py.M t StepResult :=
  fun env =>
    let ts := (timestep env + 1)%Z in
    (* 1. shocks *)
    let '(sh, (econ, hs, fs)) :=
      ShockManager.maybe_trigger (random d) (shocks env)
        (GlobalState.economics (state env), households env, firms env) in
    (* 2. government action *)
    let econ := EconomicState.apply_policy action econ in
    let gov :=
      GovernmentAgent.mk (GovernmentAgent.prev_gdp (government env))
                         (Some (EconomicState.interest_rate econ)) in
    (* 3. firms decide *)
    match Py.for_each (FirmAgent.step (conditions env econ)) fs with
    | (fs, inl e) => (set_world env ts econ gov hs fs sh, inl e)
    | (fs, inr _) =>
    (* 4. households act *)
    let hs := households_act econ hs in
    (* 5. unrest diffusion *)
    match SocialGraph.spread_influence (social_graph env) (household_states hs) (normal d) with
    | inl e => (set_world env ts econ gov hs fs sh, inl e)
    | inr updated_unrest =>
    match Py.for_each (take_unrest updated_unrest) hs with
    | (hs, inl e) => (set_world env ts econ gov hs fs sh, inl e)
    | (hs, inr _) =>
    (* 6. market clearing *)
    match MarketMechanism.clear_labor_market tanh (market env) (interval d) hs fs with
    | ((hs, fs), inl e) => (set_world env ts econ gov hs fs sh, inl e)
    | ((hs, fs), inr (wage, unemployment)) =>
    let fs := map (fun f => fst (FirmAgent.produce f)) fs in
    let fs := fst (MarketMechanism.clear_goods_market tanh (market env) hs fs) in
    match MarketMechanism.clear_credit_market (market env) fs gov with
    | (fs, inl e) => (set_world env ts econ gov hs fs sh, inl e)
    | (fs, inr _) =>
    match Py.for_each FirmAgent.post_market_step fs with
    | (fs, inl e) => (set_world env ts econ gov hs fs sh, inl e)
    | (fs, inr _) =>
    (* 7. macro metrics *)
    match _update_macros unemployment (randn d) hs fs econ with
    | (econ, inl e) => (set_world env ts econ gov hs fs sh, inl e)
    | (econ, inr _) =>
    (* 8. reward *)
    match GovernmentAgent.compute_reward
            (GlobalState.set_economics econ (state env)) gov with
    | (gov, inl e) => (set_world env ts econ gov hs fs sh, inl e)
    | (gov, inr reward) =>
    (* 9. termination *)
    let '(econ, terminated) := _check_collapse econ in
    let truncated := (max_steps env <=? ts)%Z in
    let env := set_world env ts econ gov hs fs sh in
    (env, inr (mkResult (_get_obs env) reward terminated truncated))
    end end end end end end end end.
End WithTanh.

End BlackSwanEnv.

(** * Scenarios and inputs of the properties *)

(** Scenario 1: the labor decision of a startup. *)

Module Scenario1.

Definition firm : FirmAgent.t := FirmAgent.init 0 FirmAgent.startup.

Definition market_conditions : FirmAgent.MarketConditions :=
  FirmAgent.mkMC 100 50 0 (Some 1).

(** The same computation on IEEE binary64 numbers, as Python runs it. *)
Module Binary64.
Import SpecFloat.
Definition prec : Z := 53.
Definition emax : Z := 1024.
Definition of_pos (p : positive) : spec_float := S754_finite false p 0.
Definition mul := SFmul prec emax.
Definition div := SFdiv prec emax.
(** [0.8] is the double nearest to 8/10. *)
Definition productivity : spec_float := div (of_pos 8) (of_pos 10).
Definition expected_demand : spec_float :=
  mul (mul (of_pos 100) (of_pos 1)) productivity.
Definition labor_required_float : spec_float := div expected_demand productivity.
Definition max_labor_budget : spec_float := div (of_pos 1000) (of_pos 50).
End Binary64.

End Scenario1.

(** A fresh startup after one application of a financial crash of
    severity 0.5: its capital has gone from 1000 to 1000 * (1 - 8 * 0.5),
    which is -3000. *)
Definition crashed_startup : FirmAgent.t :=
  match ShockManager._apply_shock
          (ShockManager.mkShock "financial_crash" (5 # 10) 10 0)
          (EconomicState.default, [], [FirmAgent.init 0 FirmAgent.startup]) with
  | (_, _, f :: _) => f
  | _ => FirmAgent.init 0 FirmAgent.startup
  end.

(** The growth rate in the words of the specification of the government
    reward: (current - previous) / previous, and 0 without a prior GDP. *)
Definition spec_gdp_growth (prev : option Q) (current : Q) : Q :=
  match prev with
  | None => 0
  | Some p => (current - p) / p
  end.

(** A government that remembers a GDP of 5e-7 and a state whose GDP is
    6e-7, everything else at its default. *)
Definition tiny_gdp_government : GovernmentAgent.t :=
  GovernmentAgent.mk (Some (5 # 10000000)) None.

Definition tiny_gdp_state : GlobalState.t :=
  GlobalState.set_economics
    (EconomicState.set_gdp (6 # 10000000) EconomicState.default) GlobalState.new.

(** A small economy on which the orchestrator is run: four households on
    a star-shaped contact network, a startup and an SME, the default
    market, and a rational stand-in for [tanh]. *)
Module Demo.

Definition tanh_approx (x : Q) : Q := Qred (x / (1 + Qabs x)).

Definition graph : SocialGraph.t :=
  SocialGraph.mk
    [(0, [1; 2; 3]); (1, [0]); (2, [0]); (3, [0])]%nat
    (3 # 10) (5 # 100) (2 # 100).

Definition fresh : BlackSwanEnv.t :=
  BlackSwanEnv.init 500 MarketMechanism.default graph
    ShockManager.default_shock_probs
    [(HouseholdAgent.poor, 50); (HouseholdAgent.working, 100);
     (HouseholdAgent.middle, 300); (HouseholdAgent.elite, 1000)]
    [FirmAgent.startup; FirmAgent.sme].

Definition env : BlackSwanEnv.t := fst (BlackSwanEnv.reset fresh).

(** No shock is triggered: every uniform draw is 1. *)
Definition calm : BlackSwanEnv.Draws :=
  BlackSwanEnv.mkDraws (fun _ => 1) (fun _ => 1 # 100) (fun i => i) 0.

Definition action : EconomicState.Action :=
  EconomicState.mkAction (5 # 100) (2 # 10) 0 0.

Definition no_result : BlackSwanEnv.StepResult :=
  BlackSwanEnv.mkResult [] 0 false false.

Definition result_of (x : BlackSwanEnv.t * (Py.exn + BlackSwanEnv.StepResult))
    : BlackSwanEnv.StepResult :=
  match snd x with inr r => r | inl _ => no_result end.

(** One calm step. *)
Definition after_calm_step := BlackSwanEnv.step tanh_approx calm action env.

(** One step with a pandemic of severity 0.5 injected by hand: the shock
    adds 2.5 to the unemployment rate before the markets clear. *)
Definition pandemic_env : BlackSwanEnv.t := BlackSwanEnv.add_shock "pandemic" (5 # 10) env.
Definition after_pandemic_step :=
  BlackSwanEnv.step tanh_approx calm action pandemic_env.

(** One step with a financial crash of severity 0.5 injected by hand. *)
Definition crash_env : BlackSwanEnv.t :=
  BlackSwanEnv.add_shock "financial_crash" (5 # 10) env.
Definition after_crash_step := BlackSwanEnv.step tanh_approx calm action crash_env.

End Demo.

(** What one node's new unrest is made of: its own entry and its
    neighbours' entries of the snapshot [hs], and one normal draw [z]. *)
Definition node_update (g : SocialGraph.t) (hs : gmap nat Q)
    (own : Q) (neighbors : list nat) (z : Q) (v : Q) : Prop :=
  match neighbors with
  | [] => v = SocialGraph._clip own
  | _ :: _ =>
      exists us, SocialGraph.neighbor_unrests hs neighbors = inr us
                 /\ v = SocialGraph._clip (SocialGraph.propagated g own (Py.mean us) z)
  end.

(** The number of normal draws the loop has made before it reaches
    position [j] of the node list: one for each earlier node that has a
    neighbour. *)
Definition draws_before (nodes : list (nat * list nat)) (j : nat) : nat :=
  length (List.filter (fun node => match snd node with [] => false | _ :: _ => true end)
            (take j nodes)).

(** A snapshot that has an entry for every node and every neighbour. *)
Definition covers (hs : gmap nat Q) (nodes : list (nat * list nat)) : Prop :=
  forall i nbrs, (i, nbrs) ∈ nodes ->
    is_Some (hs !! i) /\ forall n, n ∈ nbrs -> is_Some (hs !! n).

(** A social graph with an isolated node, and a snapshot for it. *)
Definition small_graph : SocialGraph.t :=
  SocialGraph.mk [(0, [1]); (1, [0]); (2, [])]%nat (3 # 10) (5 # 100) (2 # 100).

Definition small_snapshot : gmap nat Q :=
  <[0%nat := 1]> (<[1%nat := 0]> (<[2%nat := 1 # 2]> ∅)).

(** Sorted lists, each element bounding all the later ones. *)
Fixpoint ascending (l : list Q) : Prop :=
  match l with
  | [] => True
  | x :: l' => Forall (fun y => x <= y) l' /\ ascending l'
  end.

Fixpoint descending (l : list Q) : Prop :=
  match l with
  | [] => True
  | x :: l' => Forall (fun y => y <= x) l' /\ descending l'
  end.

(** A labor market with negative demand: three households and a startup
    whose capital is -75 when it decides: its labor budget is
    int(-75 / 50) = -1, and so is its desired labor. *)
Module NegativeDemand.

Definition indebted_startup : FirmAgent.t :=
  FirmAgent.set_capital (-75) (FirmAgent.init 0 FirmAgent.startup).

Definition firm : FirmAgent.t :=
  fst (FirmAgent.step (FirmAgent.mkMC 100 50 0 None) indebted_startup).

Definition households : list HouseholdAgent.t :=
  [HouseholdAgent.init 0 HouseholdAgent.poor 50;
   HouseholdAgent.init 1 HouseholdAgent.working 100;
   HouseholdAgent.init 2 HouseholdAgent.middle 300].

(** The shuffle that draws [j = i] at every position and moves nothing. *)
Definition interval (i : nat) : nat := i.

End NegativeDemand.

(** What the labor market does to a household: hired, it is employed and
    paid the wage; otherwise it is unemployed and keeps its wealth. *)
Definition hired (wage : Q) (h : HouseholdAgent.t) : HouseholdAgent.t :=
  HouseholdAgent.mk (HouseholdAgent.id h) (HouseholdAgent.social_class h)
    (HouseholdAgent.wealth h + wage) (HouseholdAgent.consumption h)
    (HouseholdAgent.savings h) (HouseholdAgent.unrest h) (Some true).

Definition dismissed (h : HouseholdAgent.t) : HouseholdAgent.t :=
  HouseholdAgent.mk (HouseholdAgent.id h) (HouseholdAgent.social_class h)
    (HouseholdAgent.wealth h) (HouseholdAgent.consumption h)
    (HouseholdAgent.savings h) (HouseholdAgent.unrest h) (Some false).

(** The calls that touch the firms, as one may issue them in any order on
    the economy, the households and the firms. *)
Inductive Call : Type :=
| call_step (mc : FirmAgent.MarketConditions)
| call_produce
| call_post_market_step
| call_clear_labor_market (m : MarketMechanism.t) (interval : nat -> nat)
| call_clear_goods_market (m : MarketMechanism.t)
| call_clear_credit_market (m : MarketMechanism.t) (government : GovernmentAgent.t)
| call_apply_shock (shock : ShockManager.Shock).

(** The world as a call leaves it, whether it returns or raises. *)
Definition run_call (tanh : Q -> Q) (c : Call) (w : ShockManager.World)
    : ShockManager.World :=
  let '(econ, hs, fs) := w in
  match c with
  | call_step mc => (econ, hs, fst (Py.for_each (FirmAgent.step mc) fs))
  | call_produce => (econ, hs, map (fun f => fst (FirmAgent.produce f)) fs)
  | call_post_market_step => (econ, hs, fst (Py.for_each FirmAgent.post_market_step fs))
  | call_clear_labor_market m interval =>
      let '(hs, fs) := fst (MarketMechanism.clear_labor_market tanh m interval hs fs) in
      (econ, hs, fs)
  | call_clear_goods_market m =>
      (econ, hs, fst (MarketMechanism.clear_goods_market tanh m hs fs))
  | call_clear_credit_market m government =>
      (econ, hs, fst (MarketMechanism.clear_credit_market m fs government))
  | call_apply_shock shock => ShockManager._apply_shock shock w
  end.

Definition run_calls (tanh : Q -> Q) (cs : list Call) (w : ShockManager.World)
    : ShockManager.World :=
  foldl (fun w c => run_call tanh c w) w cs.

Definition firms_of (w : ShockManager.World) : list FirmAgent.t := snd w.

(** A bankrupt firm as [post_market_step] leaves it. *)
Definition bankrupt (f : FirmAgent.t) : Prop :=
  FirmAgent.alive f = false /\ FirmAgent.employees f = 0%Z /\ FirmAgent.production f == 0.

(** A bankruptcy made by the code: twenty households that consume nothing,
    a startup that wants twenty workers, hires them at the wage 50, sells
    nothing, and cannot pay wages and capital cost out of its capital. *)
Module Bankruptcy.

Definition households : list HouseholdAgent.t :=
  map (fun i => HouseholdAgent.init i HouseholdAgent.poor 50) (seq 0 20).

Definition start : ShockManager.World :=
  (EconomicState.default, households, [FirmAgent.init 0 FirmAgent.startup]).

Definition tick : list Call :=
  [call_step (FirmAgent.mkMC 10000 50 0 None);
   call_clear_labor_market MarketMechanism.default (fun i => i);
   call_produce;
   call_clear_goods_market MarketMechanism.default;
   call_post_market_step].

Definition after_tick : ShockManager.World := run_calls Demo.tanh_approx tick start.

(** The firm the tick has bankrupted. *)
Definition firm : FirmAgent.t :=
  match firms_of after_tick with
  | f :: _ => f
  | [] => FirmAgent.init 0 FirmAgent.startup
  end.

(** The next call is a labor clearing, before any [step]. *)
Definition labor_first : list Call :=
  [call_clear_labor_market MarketMechanism.default (fun i => i); call_produce].

(** The calls of a tick in the orchestrator's order. *)
Definition conditions : FirmAgent.MarketConditions := FirmAgent.mkMC 0 50 0 None.

Definition government : GovernmentAgent.t := GovernmentAgent.mk None (Some (5 # 100)).

Definition after_step : list Call :=
  [call_clear_labor_market MarketMechanism.default (fun i => i);
   call_produce;
   call_clear_goods_market MarketMechanism.default;
   call_clear_credit_market MarketMechanism.default government;
   call_post_market_step].

End Bankruptcy.

(** The irreversibility of a bankruptcy under a sequence of calls. *)
Definition stays_bankrupt (tanh : Q -> Q) (cs : list Call) (w : ShockManager.World)
    (i : nat) : Prop :=
  forall f, firms_of w !! i = Some f -> bankrupt f ->
    exists f', firms_of (run_calls tanh cs w) !! i = Some f' /\ bankrupt f'.

(** A property of a firm that every writer of firm attributes keeps. *)
Definition kept_by_all_calls (P : FirmAgent.t -> Prop) : Prop :=
  (forall mc f, P f -> P (fst (FirmAgent.step mc f)))
  /\ (forall f, P f -> P (fst (FirmAgent.produce f)))
  /\ (forall f, P f -> P (fst (FirmAgent.post_market_step f)))
  /\ (forall e d w f, P f -> P (fst (MarketMechanism.staff e d w f)))
  /\ (forall m r f, P f -> P (fst (MarketMechanism.lend m r f)))
  /\ (forall v f, P f -> P (FirmAgent.set_price v f))
  /\ (forall v f, P f -> P (FirmAgent.set_revenue v f))
  /\ (forall v f, P f -> P (FirmAgent.set_capital v f))
  /\ (forall v f, P f -> P (FirmAgent.set_productivity v f)).

(** A bankrupt firm whose [step] has run since: its labor demand is 0. *)
Definition idle (f : FirmAgent.t) : Prop :=
  bankrupt f /\ FirmAgent.desired_labor f = Some 0%Z.

(** The course of an environment from a state [env0]: [reset], a manual
    shock, and [step], returning or raising, each leave a later state. *)
Inductive follows (tanh : Q -> Q) (env0 : BlackSwanEnv.t) : BlackSwanEnv.t -> Prop :=
| follows_refl : follows tanh env0 env0
| follows_reset env :
    follows tanh env0 env -> follows tanh env0 (fst (BlackSwanEnv.reset env))
| follows_add_shock env shock_type sev :
    follows tanh env0 env ->
    follows tanh env0 (BlackSwanEnv.add_shock shock_type sev env)
| follows_step env d a :
    follows tanh env0 env ->
    follows tanh env0 (fst (BlackSwanEnv.step tanh d a env)).

(** The states of an environment that [__init__] has built. *)
Definition reachable (tanh : Q -> Q) (env : BlackSwanEnv.t) : Prop :=
  exists max_steps market graph shock_probs population archetypes,
    follows tanh
      (BlackSwanEnv.init max_steps market graph shock_probs population archetypes)
      env.

Definition in_unit_interval (x : Q) : Prop := 0 <= x <= 1.

(** The invariant of the economic state. *)
Definition indicators_bounded (econ : EconomicState.t) : Prop :=
  in_unit_interval (EconomicState.inflation econ)
  /\ in_unit_interval (EconomicState.unemployment econ)
  /\ in_unit_interval (EconomicState.gini_coeff econ)
  /\ in_unit_interval (EconomicState.avg_unrest econ)
  /\ in_unit_interval (EconomicState.top1_wealth_share econ).

(** [P] passes from each element of a list to the element at the same
    place of another. *)
Definition passes {A} (P Q : A -> Prop) (l l' : list A) : Prop :=
  Forall2 (fun x y => P x -> Q y) l l'.

(** Two states of a firm with the same capital and the same debt. *)
Definition same_books (f f' : FirmAgent.t) : Prop :=
  FirmAgent.capital f' = FirmAgent.capital f /\ FirmAgent.debt f' = FirmAgent.debt f.

(** The new unrest of node [i] with neighbours [nbrs] as a function of the
    snapshot and the draw, when the snapshot has the entries it needs. *)
Definition node_value (g : SocialGraph.t) (hs : gmap nat Q)
    (i : nat) (nbrs : list nat) (z : Q) : option Q :=
  match hs !! i with
  | None => None
  | Some own =>
      match nbrs with
      | [] => Some (SocialGraph._clip own)
      | _ :: _ =>
          match SocialGraph.neighbor_unrests hs nbrs with
          | inl _ => None
          | inr us => Some (SocialGraph._clip (SocialGraph.propagated g own (Py.mean us) z))
          end
      end
  end.

(** The same graph with its nodes visited in another order. *)
Definition with_nodes (g : SocialGraph.t) (nodes : list (nat * list nat)) : SocialGraph.t :=
  SocialGraph.mk nodes (SocialGraph.influence_strength g) (SocialGraph.decay g)
    (SocialGraph.noise g).

(** * Further notions *)

(** The households the labor market has marked employed. *)
Definition is_employed (h : HouseholdAgent.t) : bool :=
  match HouseholdAgent.employed h with
  | Some true => true
  | _ => false
  end.

(** A function with the range of [tanh]. *)
Definition bounded_by_one (tanh : Q -> Q) : Prop := forall x, -1 <= tanh x <= 1.

(** A labor market whose demand equals its supply: twenty households and
    the startup that has just decided with demand 10000 at wage 50. *)
Module FullStaffing.

Definition firm : FirmAgent.t :=
  fst (FirmAgent.step (FirmAgent.mkMC 10000 50 0 None)
         (FirmAgent.init 0 FirmAgent.startup)).

Definition cleared :=
  MarketMechanism.clear_labor_market Demo.tanh_approx MarketMechanism.default
    (fun i => i) Bankruptcy.households [firm].

(** The wage and the unemployment rate the call returns. *)
Definition outcome : Q * Q :=
  match snd cleared with
  | inr p => p
  | inl _ => (0, 0)
  end.

End FullStaffing.

(** A goods market: three households that have decided their consumption
    and a firm that has produced. *)
Module Goods.

Definition households : list HouseholdAgent.t :=
  map (HouseholdAgent.set_consumption 20) NegativeDemand.households.

Definition firm : FirmAgent.t :=
  FirmAgent.set_production 100 (FirmAgent.init 0 FirmAgent.startup).

Definition cleared : list FirmAgent.t * Q :=
  MarketMechanism.clear_goods_market Demo.tanh_approx MarketMechanism.default
    households [firm].

End Goods.

(** A firm that has been given the attribute [debt] by its user, and has
    lost its capital. *)
Definition indebted_firm : FirmAgent.t :=
  FirmAgent.set_debt 0 (FirmAgent.set_capital (-75) (FirmAgent.init 0 FirmAgent.startup)).

(** A startup after a tick in which it sold nothing: it decided, was
    staffed with twenty workers at wage 50, and earned no revenue. *)
Definition unsold_startup : FirmAgent.t :=
  FirmAgent.set_revenue 0
    (fst (MarketMechanism.staff 20 20 50 FullStaffing.firm)).


(** [n] successive calls of [maybe_trigger] on a manager and the world
    it acts on. *)
Definition triggered (random : nat -> Q) (n : nat)
    (mw : ShockManager.t * ShockManager.World) : ShockManager.t * ShockManager.World :=
  Nat.iter n (fun mw => ShockManager.maybe_trigger random (fst mw) (snd mw)) mw.

(** A shock after [n] calls: its duration has gone down by [n]. *)
Definition aged (n : nat) (s : ShockManager.Shock) : ShockManager.Shock :=
  ShockManager.mkShock (ShockManager.type s) (ShockManager.severity s)
    (ShockManager.duration s - Z.of_nat n) (ShockManager.start_step s).

(** Two economic states that differ at most in the unemployment rate,
    two households that differ at most in their consumption, and two
    worlds that differ at most in these. *)
Definition same_but_unemployment (e e' : EconomicState.t) : Prop :=
  e' = EconomicState.set_unemployment (EconomicState.unemployment e') e.

Definition same_but_consumption (h h' : HouseholdAgent.t) : Prop :=
  h' = HouseholdAgent.set_consumption (HouseholdAgent.consumption h') h.

Definition same_but_pandemic_effects (w w' : ShockManager.World) : Prop :=
  same_but_unemployment (fst (fst w)) (fst (fst w'))
  /\ Forall2 same_but_consumption (snd (fst w)) (snd (fst w'))
  /\ snd w' = snd w.

(** Two states of an environment that differ at most in the active
    shocks. *)
Definition same_but_shocks (env env' : BlackSwanEnv.t) : Prop :=
  BlackSwanEnv.max_steps env' = BlackSwanEnv.max_steps env
  /\ BlackSwanEnv.state env' = BlackSwanEnv.state env
  /\ BlackSwanEnv.timestep env' = BlackSwanEnv.timestep env
  /\ BlackSwanEnv.government env' = BlackSwanEnv.government env
  /\ BlackSwanEnv.households env' = BlackSwanEnv.households env
  /\ BlackSwanEnv.firms env' = BlackSwanEnv.firms env
  /\ BlackSwanEnv.market env' = BlackSwanEnv.market env
  /\ BlackSwanEnv.social_graph env' = BlackSwanEnv.social_graph env.

(** What identifies an agent: its id with its class or archetype. *)
Definition household_key (h : HouseholdAgent.t) : nat * HouseholdAgent.SocialClass :=
  (HouseholdAgent.id h, HouseholdAgent.social_class h).

Definition firm_key (f : FirmAgent.t) : nat * FirmAgent.Archetype :=
  (FirmAgent.id f, FirmAgent.archetype f).

(** * The wealth share in binary64

    [calculate_wealth_share] as numpy runs it, on IEEE 754 doubles:
    [wealths.sum()] adds the wealths in the order of the caller, the sum
    of the top [k] adds them in sorted order, and each addition rounds. *)
Module InequalityMetrics64.
Import SpecFloat.

Definition prec : Z := 53.
Definition emax : Z := 1024.
Definition add := SFadd prec emax.
Definition mul := SFmul prec emax.
Definition div := SFdiv prec emax.

(** The double of an integer, and the doubles 0.0 and 1.0. *)
Definition of_Z (n : Z) : spec_float := binary_normalize prec emax n 0 false.
Definition zero : spec_float := S754_zero false.
Definition one : spec_float := of_Z 1.

(** [ndarray.sum()] of a short array.  The order in which numpy adds the
    elements is taken as a parameter; these are the orders it can use on
    an array of fewer than eight elements. *)
Definition sum_left (l : list spec_float) : spec_float := fold_left add l zero.
Definition sum_right (l : list spec_float) : spec_float := fold_right add zero l.
Definition sum_first_then_rest (l : list spec_float) : spec_float :=
  match l with
  | [] => zero
  | x :: rest => add x (fold_left add rest zero)
  end.

(** [np.sort], ascending. *)
Fixpoint insert_sorted (x : spec_float) (l : list spec_float) : list spec_float :=
  match l with
  | [] => [x]
  | y :: l' => if SFleb x y then x :: l else y :: insert_sorted x l'
  end.
Definition np_sort (l : list spec_float) : list spec_float := foldr insert_sorted [] l.

(** The value of a finite double; [int()] raises on an infinity or a
    nan, which is [None]. *)
Definition to_Q (x : spec_float) : option Q :=
  match x with
  | S754_zero _ => Some 0
  | S754_finite s m e =>
      Some (inject_Z (if s then Z.neg m else Z.pos m) * Qpower 2 e)
  | _ => None
  end.

(** [max(1, int(np.ceil(len(wealths) * top_percentile)))]. *)
Definition top_k (wealths : list spec_float) (top_percentile : spec_float) : option Z :=
  match to_Q (mul (of_Z (Z.of_nat (length wealths))) top_percentile) with
  | Some q => Some (Z.max 1 (Qceiling q))
  | None => None
  end.

(** [np.clip(x, 0.0, 1.0)]. *)
Definition clip_unit (x : spec_float) : spec_float :=
  let y := if SFltb x zero then zero else x in
  if SFltb one y then one else y.

(** [calculate_wealth_share(wealths, top_percentile)]. *)
Definition calculate_wealth_share (sum : list spec_float -> spec_float)
    (wealths : list spec_float) (top_percentile : spec_float) : option spec_float :=
  if (length wealths =? 0)%nat then Some zero
  else
    let total_wealth := sum wealths in
    if SFleb total_wealth zero then Some zero
    else
      match top_k wealths top_percentile with
      | None => None
      | Some k =>
          let sorted_wealths := rev (np_sort wealths) in
          let top_wealth := sum (take (Z.to_nat k) sorted_wealths) in
          let share := div top_wealth total_wealth in
          Some (clip_unit share)
      end.

(** A distribution with a debt: [[5e-14, 3000.0, -3000.0, 5e-14]], and
    the percentiles 0.75 and 1.0. *)
Definition tiny : spec_float := div (of_Z 5) (of_Z (10 ^ 14)).
Definition indebted : list spec_float := [tiny; of_Z 3000; SFopp (of_Z 3000); tiny].
Definition three_quarters : spec_float := div (of_Z 3) (of_Z 4).

End InequalityMetrics64.
(** * Properties *)

(** ** Arithmetic of the primitives *)

Lemma clip_bounds (x lo hi : Q) : lo <= hi -> lo <= Py.clip x lo hi <= hi.
Proof.
  intros Hle. unfold Py.clip.
  destruct (Qlt_le_dec x lo) as [H1|H1];
    match goal with |- context [Qlt_le_dec ?a ?b] => destruct (Qlt_le_dec a b) end;
    split; lra.
Qed.

Lemma clip_mono (x y lo hi : Q) :
  lo <= hi -> x <= y -> Py.clip x lo hi <= Py.clip y lo hi.
Proof.
  intros Hle Hxy. unfold Py.clip.
  destruct (Qlt_le_dec x lo), (Qlt_le_dec y lo);
    repeat match goal with
           | |- context [Qlt_le_dec ?a ?b] => destruct (Qlt_le_dec a b)
           end; lra.
Qed.

Lemma clip_above (x lo hi : Q) : lo <= hi -> hi <= x -> Py.clip x lo hi == hi.
Proof.
  intros Hle Hx. unfold Py.clip.
  destruct (Qlt_le_dec x lo);
    match goal with |- context [Qlt_le_dec ?a ?b] => destruct (Qlt_le_dec a b) end;
    lra.
Qed.

Lemma clip_inside (x lo hi : Q) : lo <= x <= hi -> Py.clip x lo hi = x.
Proof.
  intros [H1 H2]. unfold Py.clip.
  destruct (Qlt_le_dec x lo); [lra|].
  destruct (Qlt_le_dec hi x); [lra|reflexivity].
Qed.

Lemma max_ge_l (a b : Q) : a <= Py.max a b.
Proof. unfold Py.max. destruct (Qlt_le_dec a b); lra. Qed.

Lemma max_ge_r (a b : Q) : b <= Py.max a b.
Proof. unfold Py.max. destruct (Qlt_le_dec a b); lra. Qed.

Lemma ltb_true (a b : Q) : Py.ltb a b = true <-> a < b.
Proof. unfold Py.ltb. destruct (Qlt_le_dec a b); split; intros; try lra; congruence. Qed.

Lemma ltb_false (a b : Q) : Py.ltb a b = false <-> b <= a.
Proof. unfold Py.ltb. destruct (Qlt_le_dec a b); split; intros; try lra; congruence. Qed.

Lemma int_nonneg (x : Q) : 0 <= x -> (0 <= Py.int x)%Z.
Proof.
  intros H. unfold Py.int. apply Z.quot_pos; [|lia].
  unfold Qle in H. simpl in H. lia.
Qed.

(** ** Scenario 1: the labor decision of a startup *)

(** C1, as the code computes it: with capital 1000, productivity 0.8,
    demand 100, wage 50, inflation 0 and shock multiplier 1 the expected
    demand is 100 * 1 * 0.8 = 80, so [labor_required] is int(80 / 0.8) = 100,
    the labor budget is int(1000 / 50) = 20, and [step] sets
    [desired_labor] to min(100, 20) = 20. *)
Theorem C1_startup_labor_decision :
  let f := Scenario1.firm in
  let mc := Scenario1.market_conditions in
  FirmAgent.capital f = 1000
  /\ FirmAgent.productivity f = 8 # 10
  /\ FirmAgent.alive f = true
  /\ FirmAgent.expected_demand mc f == 80
  /\ FirmAgent.labor_required mc f = inr 100%Z
  /\ Py.int (FirmAgent.capital f / Py.max (FirmAgent.wage mc) 1) = 20%Z
  /\ snd (FirmAgent.step mc f) = inr tt
  /\ FirmAgent.desired_labor (fst (FirmAgent.step mc f)) = Some 20%Z.
Proof. cbv zeta. repeat split. Qed.

(** C1 as stated fails: [labor_required] is not 125. *)
Lemma C1_labor_required_is_not_125 :
  FirmAgent.labor_required Scenario1.market_conditions Scenario1.firm <> inr 125%Z.
Proof. vm_compute. discriminate. Qed.

(** The binary64 computation agrees with the rational one: 80.0 / 0.8
    rounds to 100.0 and 1000.0 / 50.0 is 20.0. *)
Lemma scenario1_binary64 :
  Scenario1.Binary64.labor_required_float
  = SpecFloat.S754_finite false (100 * 2 ^ 46) (-46)
  /\ Scenario1.Binary64.max_labor_budget
     = SpecFloat.S754_finite false (20 * 2 ^ 48) (-48).
Proof. split; vm_compute; reflexivity. Qed.

(** ** The credit market and the missing [debt] attribute *)

Lemma for_each_raises {A} (body : Py.M A unit) (l : list A) (e : Py.exn) :
  Forall (fun x => snd (body x) = inr tt \/ snd (body x) = inl e) l ->
  Exists (fun x => snd (body x) = inl e) l ->
  snd (Py.for_each body l) = inl e.
Proof.
  induction l as [|x xs IH]; intros Hall Hex.
  - inversion Hex.
  - apply Forall_cons in Hall as [Hx Hxs]. simpl.
    destruct (body x) as [x' [e'|[]]] eqn:Hb; simpl in *.
    + destruct Hx as [Hx|Hx]; congruence.
    + apply Exists_cons in Hex as [Hex|Hex]; [rewrite Hb in Hex; discriminate|].
      specialize (IH Hxs Hex).
      destruct (Py.for_each body xs) as [xs' r]. exact IH.
Qed.

Lemma lend_without_debt (m : MarketMechanism.t) (r : Q) (f : FirmAgent.t) :
  FirmAgent.debt f = None ->
  (FirmAgent.capital f < 0 ->
     snd (MarketMechanism.lend m r f) = inl (Py.AttributeError "FirmAgent" "debt"))
  /\ (0 <= FirmAgent.capital f -> MarketMechanism.lend m r f = (f, inr tt)).
Proof.
  intros Hd. unfold MarketMechanism.lend.
  destruct (Qlt_le_dec (FirmAgent.capital f) 0) as [Hc|Hc]; split; intros H; try lra.
  - simpl. rewrite Hd. reflexivity.
  - reflexivity.
Qed.

(** What the loop body does for a firm that has the attribute: the credit
    is min(deficit, max_leverage * max(capital + deficit, 1)), it is added
    to the capital, and credit * (1 + rate) is added to the debt. *)
Lemma lend_with_debt (m : MarketMechanism.t) (r debt : Q) (f : FirmAgent.t) :
  FirmAgent.debt f = Some debt ->
  FirmAgent.capital f < 0 ->
  let deficit := Qabs (FirmAgent.capital f) in
  let granted :=
    Py.min deficit (MarketMechanism.max_leverage m * Py.max (FirmAgent.capital f + deficit) 1) in
  MarketMechanism.lend m r f
  = (FirmAgent.set_debt (debt + granted * (1 + r))
       (FirmAgent.set_capital (FirmAgent.capital f + granted) f), inr tt).
Proof.
  intros Hd Hc. unfold MarketMechanism.lend.
  destruct (Qlt_le_dec (FirmAgent.capital f) 0) as [_|Hge]; [|lra].
  simpl. rewrite Hd. reflexivity.
Qed.

(** No method of the firm, no market and no shock creates the attribute:
    [__init__] leaves it out and the other writers keep what they find. *)
Lemma init_has_no_debt (i : nat) (a : FirmAgent.Archetype) :
  FirmAgent.debt (FirmAgent.init i a) = None.
Proof. reflexivity. Qed.

Lemma step_keeps_debt (mc : FirmAgent.MarketConditions) (f : FirmAgent.t) :
  FirmAgent.debt (fst (FirmAgent.step mc f)) = FirmAgent.debt f.
Proof.
  unfold FirmAgent.step. destruct (negb (FirmAgent.alive f)); [reflexivity|].
  destruct (FirmAgent.labor_required mc f); reflexivity.
Qed.

Lemma post_market_step_keeps_debt (f : FirmAgent.t) :
  FirmAgent.debt (fst (FirmAgent.post_market_step f)) = FirmAgent.debt f.
Proof.
  unfold FirmAgent.post_market_step. destruct (negb (FirmAgent.alive f)); [reflexivity|].
  destruct (FirmAgent.getattr "revenue" (FirmAgent.revenue f)); [reflexivity|].
  destruct (FirmAgent.getattr "wage_bill" (FirmAgent.wage_bill f)); [reflexivity|].
  match goal with |- context [Qlt_le_dec ?a ?b] => destruct (Qlt_le_dec a b) end;
    reflexivity.
Qed.

(** C2, where the code departs from it: a firm keeps the attributes
    [__init__] gave it, [debt] is not among them, and
    [clear_credit_market] raises AttributeError at the first firm with
    negative capital instead of returning. *)
Theorem C2_credit_market_raises_on_negative_capital
    (m : MarketMechanism.t) (firms : list FirmAgent.t)
    (government : GovernmentAgent.t) (rate : Q) :
  GovernmentAgent.current_interest_rate government = Some rate ->
  Forall (fun f => FirmAgent.debt f = None) firms ->
  Exists (fun f => FirmAgent.capital f < 0) firms ->
  snd (MarketMechanism.clear_credit_market m firms government)
  = inl (Py.AttributeError "FirmAgent" "debt").
Proof.
  intros Hr Hnone Hneg.
  assert (Hloop : snd (Py.for_each (MarketMechanism.lend m rate) firms)
                  = inl (Py.AttributeError "FirmAgent" "debt")).
  { apply for_each_raises.
    - eapply Forall_impl; [exact Hnone|]. intros f Hd. simpl in Hd.
      destruct (lend_without_debt m rate f Hd) as [H1 H2].
      destruct (Qlt_le_dec (FirmAgent.capital f) 0) as [Hc|Hc].
      + right. auto.
      + left. rewrite (H2 Hc). reflexivity.
    - apply Exists_exists in Hneg as (f & Hin & Hc).
      apply Exists_exists. exists f. split; [exact Hin|].
      rewrite Forall_forall in Hnone.
      apply (lend_without_debt m rate f (Hnone f Hin)). exact Hc. }
  unfold MarketMechanism.clear_credit_market. rewrite Hr.
  destruct (Py.for_each (MarketMechanism.lend m rate) firms) as [fs' [e|[]]];
    simpl in Hloop; [injection Hloop as ->; reflexivity | discriminate].
Qed.

Lemma C2_credit_market_raises_witness :
  GovernmentAgent.current_interest_rate (GovernmentAgent.mk None (Some (5 # 100)))
  = Some (5 # 100)
  /\ snd (MarketMechanism.clear_credit_market MarketMechanism.default
            [crashed_startup] (GovernmentAgent.mk None (Some (5 # 100))))
     = inl (Py.AttributeError "FirmAgent" "debt").
Proof.
  split; [reflexivity|].
  apply (C2_credit_market_raises_on_negative_capital
           MarketMechanism.default [crashed_startup]
           (GovernmentAgent.mk None (Some (5 # 100))) (5 # 100)).
  - reflexivity.
  - repeat constructor.
  - constructor. vm_compute. reflexivity.
Defined.

(** When the exception is raised the credit has already been added to the
    capital: the firm is left with the capital raised and no debt
    recorded. *)
Lemma credit_market_state_at_failure :
  let r := MarketMechanism.clear_credit_market MarketMechanism.default
             [crashed_startup] (GovernmentAgent.mk None (Some (5 # 100))) in
  FirmAgent.capital crashed_startup == -3000
  /\ exists f, fst r = [f] /\ FirmAgent.capital f == -3000 + 3 /\ FirmAgent.debt f = None.
Proof.
  cbv zeta. split; [vm_compute; reflexivity|].
  eexists. split; [reflexivity|]. split; [|reflexivity].
  vm_compute. reflexivity.
Qed.

(** In the orchestrator: the tick in which a financial crash of severity
    0.5 is active does not return. *)
Lemma step_raises_after_financial_crash :
  snd Demo.after_crash_step = inl (Py.AttributeError "FirmAgent" "debt").
Proof. vm_compute. reflexivity. Qed.

(** ** The household reward *)

(** The function the household means to call is total and bounded. *)
Lemma household_reward_bounded (log : Q -> Q) (c i u x a b g : Q) :
  -5 <= RewardFunctions.household_reward log c i u x a b g <= 5.
Proof. unfold RewardFunctions.household_reward. apply clip_bounds. lra. Qed.

(** C3, where the code departs from it: [compute_reward] passes the
    keywords [consumption_utility] and [unemployment], which
    [household_reward] does not have, so for every household, state and
    exposure the call raises TypeError and no reward is returned. *)
Theorem C3_household_compute_reward_raises
    (log : Q -> Q) (h : HouseholdAgent.t) (econ : EconomicState.t)
    (local_exposure : Q) :
  HouseholdAgent.compute_reward log h econ local_exposure
  = inl (Py.TypeError
           "household_reward() got an unexpected keyword argument 'consumption_utility'").
Proof. reflexivity. Qed.

(** With the keywords the function declares, the same call returns. *)
Lemma household_reward_call_with_declared_keywords (log : Q -> Q) (c i u x : Q) :
  RewardFunctions.call_household_reward log
    [("consumption", c); ("inflation", i);
     ("unemployment_risk", u); ("unrest_exposure", x)]
  = inr (RewardFunctions.household_reward log c i u x 1 (12 # 10) (15 # 10)).
Proof. reflexivity. Qed.

(** ** The government reward *)

Lemma clip_compat (x y lo hi : Q) : x == y -> Py.clip x lo hi == Py.clip y lo hi.
Proof.
  intros E. unfold Py.clip.
  destruct (Qlt_le_dec x lo), (Qlt_le_dec y lo);
    repeat match goal with
           | |- context [Qlt_le_dec ?a ?b] => destruct (Qlt_le_dec a b)
           end; lra.
Qed.

Lemma clip_above_strict (a x lo hi : Q) :
  a < x -> a < hi -> lo <= hi -> a < Py.clip x lo hi.
Proof.
  intros H1 H2 H3. unfold Py.clip.
  destruct (Qlt_le_dec x lo);
    match goal with |- context [Qlt_le_dec ?u ?v] => destruct (Qlt_le_dec u v) end;
    lra.
Qed.

Lemma aggregate_unrest_empty (gs : GlobalState.t) :
  GlobalState.households gs = ∅ -> GovernmentAgent._aggregate_unrest gs = inr 0.
Proof. intros H. unfold GovernmentAgent._aggregate_unrest. rewrite H. reflexivity. Qed.

(** On a dictionary that has a key the loop asks the key, a string, for
    [size]. *)
Lemma aggregate_unrest_nonempty (gs : GlobalState.t) :
  GlobalState.households gs <> ∅ ->
  GovernmentAgent._aggregate_unrest gs = inl (Py.AttributeError "str" "size").
Proof.
  intros H. unfold GovernmentAgent._aggregate_unrest.
  destruct (size (GlobalState.households gs) =? 0)%nat eqn:E.
  - apply Nat.eqb_eq in E. apply map_size_empty_iff in E. contradiction.
  - destruct (map_to_list (GlobalState.households gs)) as [|[k v] l] eqn:El.
    + apply map_to_list_empty_iff in El. contradiction.
    + reflexivity.
Qed.

(** C5, as the code computes it: the growth is
    (current - previous) / max(previous, 1e-6), and 0 without a prior GDP;
    the current GDP becomes the remembered one; and on a global state
    whose household dictionary is empty the unrest term is 0, so that the
    reward is the government reward of section 4.5 on (growth, inflation,
    unemployment, 0, gini), which is
    clip(clip(growth, -0.25, 0.25) - 0.8 inflation - 1.2 unemployment - gini)
    on the clipped indicators.  The reward function itself subtracts a
    further 2.0 exactly when unrest > 0.85 and inequality > 0.6. *)
Theorem C5_government_compute_reward (g : GovernmentAgent.t) (gs : GlobalState.t) :
  GlobalState.households gs = ∅ ->
  let econ := GlobalState.economics gs in
  let growth :=
    match GovernmentAgent.prev_gdp g with
    | None => 0
    | Some prev => (EconomicState.gdp econ - prev) / Py.max prev (1 # 1000000)
    end in
  let reward :=
    RewardFunctions.government_reward_default growth
      (EconomicState.inflation econ) (EconomicState.unemployment econ) 0
      (EconomicState.gini_coeff econ) in
  GovernmentAgent.compute_reward gs g
  = (GovernmentAgent.mk (Some (EconomicState.gdp econ))
       (GovernmentAgent.current_interest_rate g), inr reward)
  /\ reward ==
     Py.clip (Py.clip growth (-(25 # 100)) (25 # 100)
              - (8 # 10) * Py.clip (EconomicState.inflation econ) 0 1
              - (12 # 10) * Py.clip (EconomicState.unemployment econ) 0 1
              - Py.clip (EconomicState.gini_coeff econ) 0 1) (-5) 5
  /\ (forall gr i u unrest ineq : Q,
        let base :=
          Py.clip gr (-(25 # 100)) (25 # 100) - (8 # 10) * Py.clip i 0 1
          - (12 # 10) * Py.clip u 0 1
          - 2 * (Py.clip unrest 0 1 * Py.clip unrest 0 1)
          - 1 * Py.clip ineq 0 1 in
        (85 # 100 < unrest /\ 6 # 10 < ineq ->
           RewardFunctions.government_reward_default gr i u unrest ineq
           = Py.clip (base - 2) (-5) 5)
        /\ (unrest <= 85 # 100 \/ ineq <= 6 # 10 ->
           RewardFunctions.government_reward_default gr i u unrest ineq
           = Py.clip base (-5) 5)).
Proof.
  intros Hempty econ growth reward. repeat split.
  - unfold GovernmentAgent.compute_reward.
    rewrite (aggregate_unrest_empty gs Hempty). reflexivity.
  - unfold reward, RewardFunctions.government_reward_default,
      RewardFunctions.government_reward.
    change (Py.clip 0 0 1) with 0. change (Py.ltb (85 # 100) 0) with false.
    cbv beta iota zeta. simpl andb. cbv iota.
    apply clip_compat. ring.
  - intros [Hu Hi].
    unfold RewardFunctions.government_reward_default, RewardFunctions.government_reward.
    cbv zeta.
    assert (E1 : Py.ltb (85 # 100) (Py.clip unrest 0 1) = true)
      by (apply ltb_true, clip_above_strict; lra).
    assert (E2 : Py.ltb (6 # 10) (Py.clip ineq 0 1) = true)
      by (apply ltb_true, clip_above_strict; lra).
    rewrite E1, E2. reflexivity.
  - intros Hor.
    unfold RewardFunctions.government_reward_default, RewardFunctions.government_reward.
    cbv zeta.
    assert (E : Py.ltb (85 # 100) (Py.clip unrest 0 1)
                && Py.ltb (6 # 10) (Py.clip ineq 0 1) = false).
    { apply andb_false_iff. destruct Hor as [H|H]; [left|right];
        apply ltb_false.
      - pose proof (clip_mono unrest (85 # 100) 0 1 ltac:(lra) H) as Hm.
        rewrite (clip_inside (85 # 100)) in Hm by lra. exact Hm.
      - pose proof (clip_mono ineq (6 # 10) 0 1 ltac:(lra) H) as Hm.
        rewrite (clip_inside (6 # 10)) in Hm by lra. exact Hm. }
    rewrite E. reflexivity.
Qed.

Lemma C5_government_compute_reward_witness :
  GlobalState.households tiny_gdp_state = ∅
  /\ snd (GovernmentAgent.compute_reward tiny_gdp_state tiny_gdp_government)
     = inr (RewardFunctions.government_reward_default
              (((6 # 10000000) - (5 # 10000000))
               / Py.max (5 # 10000000) (1 # 1000000)) 0 0 0 0).
Proof.
  split; [reflexivity|].
  destruct (C5_government_compute_reward tiny_gdp_government tiny_gdp_state)
    as [H _]; [reflexivity|].
  rewrite H. reflexivity.
Defined.

(** C5 as stated fails: with a remembered GDP of 5e-7 and a current GDP of
    6e-7 the quotient by the previous GDP is 0.2 and would give the reward
    0.2, while [compute_reward] divides by 1e-6 and returns 0.1. *)
Lemma C5_growth_is_not_over_previous :
  let g := tiny_gdp_government in
  let gs := tiny_gdp_state in
  let econ := GlobalState.economics gs in
  ~ (exists r,
        snd (GovernmentAgent.compute_reward gs g) = inr r
        /\ r == RewardFunctions.government_reward_default
                  (spec_gdp_growth (GovernmentAgent.prev_gdp g) (EconomicState.gdp econ))
                  (EconomicState.inflation econ) (EconomicState.unemployment econ)
                  0 (EconomicState.gini_coeff econ)).
Proof.
  cbv zeta. intros (r & Hr & Heq).
  vm_compute in Hr. injection Hr as <-.
  vm_compute in Heq. discriminate.
Qed.

(** ** The orchestrator's step, phase by phase *)

Lemma for_each_ok {A} (body : Py.M A unit) (l l' : list A) :
  Py.for_each body l = (l', inr tt) ->
  l' = map (fun x => fst (body x)) l /\ Forall (fun x => snd (body x) = inr tt) l.
Proof.
  revert l'. induction l as [|x xs IH]; intros l' H; simpl in H.
  - injection H as <-. split; [reflexivity|constructor].
  - destruct (body x) as [x' [e|[]]] eqn:Hb; [discriminate|].
    destruct (Py.for_each body xs) as [xs' r] eqn:Hxs.
    injection H as <- ->. destruct (IH xs' eq_refl) as [-> Hall].
    split; [simpl; rewrite Hb; reflexivity|].
    constructor; [rewrite Hb; reflexivity|exact Hall].
Qed.

(** What a step that returns has gone through. *)
Lemma step_inv (tanh : Q -> Q) (d : BlackSwanEnv.Draws) (a : EconomicState.Action)
    (env env' : BlackSwanEnv.t) (r : BlackSwanEnv.StepResult) :
  BlackSwanEnv.step tanh d a env = (env', inr r) ->
  exists sh econ0 hs0 fs0 econ gov fs1 hs1 upd hs2 hs3 fs2 wage unemp fs4 rate fs5 fs6
         econ7 gov8,
    ShockManager.maybe_trigger (BlackSwanEnv.random d) (BlackSwanEnv.shocks env)
      (GlobalState.economics (BlackSwanEnv.state env),
       BlackSwanEnv.households env, BlackSwanEnv.firms env) = (sh, (econ0, hs0, fs0))
    /\ econ = EconomicState.apply_policy a econ0
    /\ gov = GovernmentAgent.mk (GovernmentAgent.prev_gdp (BlackSwanEnv.government env))
                                (Some (EconomicState.interest_rate econ))
    /\ Py.for_each (FirmAgent.step (BlackSwanEnv.conditions env econ)) fs0 = (fs1, inr tt)
    /\ hs1 = BlackSwanEnv.households_act econ hs0
    /\ SocialGraph.spread_influence (BlackSwanEnv.social_graph env)
         (BlackSwanEnv.household_states hs1) (BlackSwanEnv.normal d) = inr upd
    /\ Py.for_each (BlackSwanEnv.take_unrest upd) hs1 = (hs2, inr tt)
    /\ MarketMechanism.clear_labor_market tanh (BlackSwanEnv.market env)
         (BlackSwanEnv.interval d) hs2 fs1 = ((hs3, fs2), inr (wage, unemp))
    /\ fs4 = fst (MarketMechanism.clear_goods_market tanh (BlackSwanEnv.market env) hs3
                    (map (fun f => fst (FirmAgent.produce f)) fs2))
    /\ MarketMechanism.clear_credit_market (BlackSwanEnv.market env) fs4 gov
       = (fs5, inr rate)
    /\ Py.for_each FirmAgent.post_market_step fs5 = (fs6, inr tt)
    /\ BlackSwanEnv._update_macros unemp (BlackSwanEnv.randn d) hs3 fs6 econ
       = (econ7, inr tt)
    /\ GovernmentAgent.compute_reward
         (GlobalState.set_economics econ7 (BlackSwanEnv.state env)) gov
       = (gov8, inr (BlackSwanEnv.reward r))
    /\ env' = BlackSwanEnv.set_world env (BlackSwanEnv.timestep env + 1)
                (fst (BlackSwanEnv._check_collapse econ7)) gov8 hs3 fs6 sh
    /\ BlackSwanEnv.terminated r = snd (BlackSwanEnv._check_collapse econ7)
    /\ BlackSwanEnv.truncated r
       = (BlackSwanEnv.max_steps env <=? BlackSwanEnv.timestep env + 1)%Z
    /\ BlackSwanEnv.obs r = BlackSwanEnv._get_obs env'.
Proof.
  unfold BlackSwanEnv.step. intros H.
  destruct (ShockManager.maybe_trigger _ _ _) as [sh [[econ0 hs0] fs0]] eqn:E1.
  destruct (Py.for_each (FirmAgent.step _) fs0) as [fs1 [e|[]]] eqn:E3; [discriminate|].
  destruct (SocialGraph.spread_influence _ _ _) as [e|upd] eqn:E5; [discriminate|].
  destruct (Py.for_each (BlackSwanEnv.take_unrest upd) _) as [hs2 [e|[]]] eqn:E5';
    [discriminate|].
  destruct (MarketMechanism.clear_labor_market _ _ _ _ _)
    as [[hs3 fs2] [e|[wage unemp]]] eqn:E6; [discriminate|].
  destruct (MarketMechanism.clear_credit_market _ _ _) as [fs5 [e|rate]] eqn:E6';
    [discriminate|].
  destruct (Py.for_each FirmAgent.post_market_step fs5) as [fs6 [e|[]]] eqn:E6'';
    [discriminate|].
  destruct (BlackSwanEnv._update_macros _ _ _ _ _) as [econ7 [e|[]]] eqn:E7;
    [discriminate|].
  destruct (GovernmentAgent.compute_reward _ _) as [gov8 [e|rew]] eqn:E8; [discriminate|].
  destruct (BlackSwanEnv._check_collapse econ7) as [econ9 term] eqn:E9.
  injection H as <- <-.
  exists sh, econ0, hs0, fs0. eexists. eexists.
  exists fs1. eexists. exists upd, hs2, hs3, fs2, wage, unemp. eexists.
  exists rate, fs5, fs6, econ7, gov8.
  repeat (split; [first [reflexivity | eassumption]|]).
  rewrite E9. simpl. repeat split.
Qed.

(** ** Collapse and truncation *)

Lemma apply_shock_regime (s : ShockManager.Shock) (w : ShockManager.World) :
  EconomicState.regime (fst (fst (ShockManager._apply_shock s w)))
  = EconomicState.regime (fst (fst w)).
Proof.
  destruct w as [[econ hs] fs]. unfold ShockManager._apply_shock.
  repeat match goal with
         | |- context [if ?b then _ else _] => destruct b
         end; reflexivity.
Qed.

Lemma apply_active_regime (l : list ShockManager.Shock) (w : ShockManager.World) :
  EconomicState.regime (fst (fst (snd (ShockManager.apply_active l w))))
  = EconomicState.regime (fst (fst w)).
Proof.
  revert w. induction l as [|s l IH]; intros w; simpl; [reflexivity|].
  specialize (IH (ShockManager._apply_shock s w)).
  destruct (ShockManager.apply_active l (ShockManager._apply_shock s w)) as [al w'].
  simpl in *. rewrite IH. apply apply_shock_regime.
Qed.

Lemma maybe_trigger_regime (random : nat -> Q) (m : ShockManager.t)
    (w : ShockManager.World) :
  EconomicState.regime (fst (fst (snd (ShockManager.maybe_trigger random m w))))
  = EconomicState.regime (fst (fst w)).
Proof.
  unfold ShockManager.maybe_trigger.
  pose proof (apply_active_regime
                (ShockManager.active_shocks
                   (ShockManager.trigger (ShockManager.shock_probs m) random 0 m)) w) as H.
  destruct (ShockManager.apply_active _ w) as [al w']. exact H.
Qed.

Lemma update_macros_regime (u z : Q) (hs : list HouseholdAgent.t)
    (fs : list FirmAgent.t) (econ econ' : EconomicState.t) (r : Py.exn + unit) :
  BlackSwanEnv._update_macros u z hs fs econ = (econ', r) ->
  EconomicState.regime econ' = EconomicState.regime econ.
Proof.
  unfold BlackSwanEnv._update_macros.
  destruct (BlackSwanEnv.revenues fs); intros H; injection H as <- _; [reflexivity|].
  unfold EconomicState.update_growth.
  match goal with |- context [Qlt_le_dec ?a ?b] => destruct (Qlt_le_dec a b) end;
    reflexivity.
Qed.

(** The decision of [_check_collapse]: it answers true exactly on a
    revolution or an economic death, then marks the regime, and otherwise
    leaves the state as it is; no indicator is touched. *)
Lemma check_collapse_spec (econ : EconomicState.t) :
  let collapse :=
    (7 # 10 < EconomicState.avg_unrest econ /\ 15 # 100 < EconomicState.unemployment econ)
    \/ EconomicState.gdp econ < 1 # 1000 in
  (collapse ->
     BlackSwanEnv._check_collapse econ
     = (EconomicState.set_regime EconomicState.collapsed econ, true))
  /\ (~ collapse -> BlackSwanEnv._check_collapse econ = (econ, false)).
Proof.
  cbv zeta. unfold BlackSwanEnv._check_collapse.
  destruct (Py.ltb (7 # 10) (EconomicState.avg_unrest econ)) eqn:E1;
    destruct (Py.ltb (15 # 100) (EconomicState.unemployment econ)) eqn:E2;
    destruct (Py.ltb (EconomicState.gdp econ) (1 # 1000)) eqn:E3;
    simpl; split; intros H; try reflexivity;
    repeat match goal with
           | E : Py.ltb _ _ = true |- _ => apply ltb_true in E
           | E : Py.ltb _ _ = false |- _ => apply ltb_false in E
           end;
    try (exfalso; apply H; lra);
    try (exfalso; destruct H as [[H1 H2]|H3]; lra).
Qed.

(** C4: at every step that returns, [terminated] is true and the regime is
    "collapsed" when the aggregates the step ends with have average unrest
    above 0.7 and unemployment above 0.15, or a GDP below 1e-3; otherwise
    [terminated] is false and the regime is the one the step started with.
    [truncated] is true exactly when the incremented timestep has reached
    [max_steps]. *)
Theorem C4_collapse_and_truncation (tanh : Q -> Q) (d : BlackSwanEnv.Draws)
    (a : EconomicState.Action) (env env' : BlackSwanEnv.t)
    (r : BlackSwanEnv.StepResult) :
  BlackSwanEnv.step tanh d a env = (env', inr r) ->
  let econ' := GlobalState.economics (BlackSwanEnv.state env') in
  let collapse :=
    (7 # 10 < EconomicState.avg_unrest econ' /\ 15 # 100 < EconomicState.unemployment econ')
    \/ EconomicState.gdp econ' < 1 # 1000 in
  (collapse ->
     BlackSwanEnv.terminated r = true
     /\ EconomicState.regime econ' = EconomicState.collapsed)
  /\ (~ collapse ->
     BlackSwanEnv.terminated r = false
     /\ EconomicState.regime econ'
        = EconomicState.regime (GlobalState.economics (BlackSwanEnv.state env)))
  /\ BlackSwanEnv.timestep env' = (BlackSwanEnv.timestep env + 1)%Z
  /\ (BlackSwanEnv.truncated r = true
      <-> (BlackSwanEnv.max_steps env <= BlackSwanEnv.timestep env')%Z).
Proof.
  intros Hstep.
  destruct (step_inv _ _ _ _ _ _ Hstep)
    as (sh & econ0 & hs0 & fs0 & econ & gov & fs1 & hs1 & upd & hs2 & hs3 & fs2
        & wage & unemp & fs4 & rate & fs5 & fs6 & econ7 & gov8
        & E1 & -> & -> & E3 & -> & E5 & E5' & E6 & -> & E6' & E6'' & E7 & E8
        & -> & Eterm & Etrunc & Eobs).
  cbv zeta. simpl.
  assert (Hreg : EconomicState.regime econ7
                 = EconomicState.regime (GlobalState.economics (BlackSwanEnv.state env))).
  { rewrite (update_macros_regime _ _ _ _ _ _ _ E7). simpl.
    pose proof (maybe_trigger_regime (BlackSwanEnv.random d) (BlackSwanEnv.shocks env)
                  (GlobalState.economics (BlackSwanEnv.state env),
                   BlackSwanEnv.households env, BlackSwanEnv.firms env)) as Hm.
    rewrite E1 in Hm. exact Hm. }
  destruct (check_collapse_spec econ7) as [Hyes Hno]. rewrite Eterm, Etrunc.
  assert (Hsame :
    EconomicState.avg_unrest (fst (BlackSwanEnv._check_collapse econ7))
    = EconomicState.avg_unrest econ7
    /\ EconomicState.unemployment (fst (BlackSwanEnv._check_collapse econ7))
       = EconomicState.unemployment econ7
    /\ EconomicState.gdp (fst (BlackSwanEnv._check_collapse econ7))
       = EconomicState.gdp econ7).
  { unfold BlackSwanEnv._check_collapse.
    repeat match goal with
           | |- context [if ?b then _ else _] => destruct b
           end; repeat split. }
  destruct Hsame as (-> & -> & ->).
  repeat split.
  - rewrite (Hyes H). reflexivity.
  - rewrite (Hyes H). reflexivity.
  - rewrite (Hno H). reflexivity.
  - rewrite (Hno H). exact Hreg.
  - intros H. apply Z.leb_le. exact H.
  - intros H. apply Z.leb_le. exact H.
Qed.

Lemma C4_collapse_and_truncation_witness :
  Demo.after_calm_step
  = (fst Demo.after_calm_step, inr (Demo.result_of Demo.after_calm_step))
  /\ BlackSwanEnv.terminated (Demo.result_of Demo.after_calm_step) = false
  /\ BlackSwanEnv.timestep (fst Demo.after_calm_step) = 1%Z.
Proof.
  assert (H : Demo.after_calm_step
              = (fst Demo.after_calm_step, inr (Demo.result_of Demo.after_calm_step)))
    by (vm_compute; reflexivity).
  split; [exact H|].
  destruct (C4_collapse_and_truncation Demo.tanh_approx Demo.calm Demo.action Demo.env
              _ _ H) as (_ & Hno & Hts & _).
  split; [|exact Hts].
  apply Hno. vm_compute. intros [[H1 _]|H1]; discriminate.
Defined.

(** Scenario 4: average unrest 0.75 with unemployment 0.2 is a collapse. *)
Lemma scenario4_collapse (econ : EconomicState.t) :
  EconomicState.avg_unrest econ == 75 # 100 ->
  EconomicState.unemployment econ == 2 # 10 ->
  BlackSwanEnv._check_collapse econ
  = (EconomicState.set_regime EconomicState.collapsed econ, true).
Proof.
  intros Hu He. apply (check_collapse_spec econ). left. split; lra.
Qed.

(** ** Unrest diffusion *)

Lemma neighbor_unrests_total (hs : gmap nat Q) (ns : list nat) :
  (forall n, n ∈ ns -> is_Some (hs !! n)) ->
  exists us, SocialGraph.neighbor_unrests hs ns = inr us.
Proof.
  induction ns as [|n ns IH]; intros H; simpl.
  - eexists; reflexivity.
  - destruct (H n) as [u Hu]; [left|].
    unfold SocialGraph.state_unrest. rewrite Hu.
    destruct IH as [us ->]; [intros m Hm; apply H; right; exact Hm|].
    eexists; reflexivity.
Qed.

(** The loop: what it adds to the result comes from the snapshot alone. *)
Lemma spread_loop_values (g : SocialGraph.t) (hs : gmap nat Q) (normal : nat -> Q)
    (nodes : list (nat * list nat)) :
  forall (k : nat) (acc res : gmap nat Q),
    SocialGraph.spread_loop g hs normal nodes k acc = inr res ->
    forall i v, res !! i = Some v ->
      acc !! i = Some v
      \/ exists nbrs own z,
           (i, nbrs) ∈ nodes /\ hs !! i = Some own /\ node_update g hs own nbrs z v.
Proof.
  induction nodes as [|[a nbrs] rest IH]; intros k acc res Hloop i v Hv; simpl in Hloop.
  - injection Hloop as <-. left. exact Hv.
  - unfold SocialGraph.state_unrest in Hloop at 1.
    destruct (hs !! a) as [own|] eqn:Hown; [|discriminate].
    destruct nbrs as [|n ns].
    + destruct (IH _ _ _ Hloop i v Hv) as [Hacc|(nb & o & z & Hin & Ho & Hu)].
      * destruct (decide (a = i)) as [->|Hne].
        -- rewrite lookup_insert_eq in Hacc. injection Hacc as <-.
           right. exists [], own, 0. split; [left|]. split; [exact Hown|reflexivity].
        -- rewrite lookup_insert_ne in Hacc by exact Hne. left. exact Hacc.
      * right. exists nb, o, z. split; [right; exact Hin|]. split; assumption.
    + destruct (SocialGraph.neighbor_unrests hs (n :: ns)) as [e|us] eqn:Hus;
        [discriminate|].
      destruct (IH _ _ _ Hloop i v Hv) as [Hacc|(nb & o & z & Hin & Ho & Hu)].
      * destruct (decide (a = i)) as [->|Hne].
        -- rewrite lookup_insert_eq in Hacc. injection Hacc as <-.
           right. exists (n :: ns), own, (normal k). split; [left|].
           split; [exact Hown|]. exists us. split; [exact Hus|reflexivity].
        -- rewrite lookup_insert_ne in Hacc by exact Hne. left. exact Hacc.
      * right. exists nb, o, z. split; [right; exact Hin|]. split; assumption.
Qed.

(** The loop returns on a covering snapshot and gives every node a value. *)
Lemma spread_loop_total (g : SocialGraph.t) (hs : gmap nat Q) (normal : nat -> Q)
    (nodes : list (nat * list nat)) :
  covers hs nodes ->
  forall (k : nat) (acc : gmap nat Q),
    exists res,
      SocialGraph.spread_loop g hs normal nodes k acc = inr res
      /\ (forall i, is_Some (acc !! i) -> is_Some (res !! i))
      /\ (forall i nbrs, (i, nbrs) ∈ nodes -> is_Some (res !! i)).
Proof.
  induction nodes as [|[a nbrs] rest IH]; intros Hcov k acc; simpl.
  - exists acc. split; [reflexivity|]. split; [auto|].
    intros i nb Hin. inversion Hin.
  - destruct (Hcov a nbrs) as [[own Hown] Hnb]; [left|].
    unfold SocialGraph.state_unrest at 1. rewrite Hown.
    assert (Hrest : covers hs rest).
    { intros i nb Hin. apply Hcov. right. exact Hin. }
    destruct nbrs as [|n ns].
    + destruct (IH Hrest k (<[a := SocialGraph._clip own]> acc))
        as (res & Hres & Hacc & Hnodes).
      exists res. split; [exact Hres|]. split.
      * intros i Hi. apply Hacc. destruct (decide (a = i)) as [->|Hne].
        -- rewrite lookup_insert_eq. eauto.
        -- rewrite lookup_insert_ne by exact Hne. exact Hi.
      * intros i nb Hin. apply elem_of_cons in Hin as [Heq|Hin].
        -- injection Heq as -> ->. apply Hacc. rewrite lookup_insert_eq. eauto.
        -- eapply Hnodes. exact Hin.
    + destruct (neighbor_unrests_total hs (n :: ns) Hnb) as [us Hus]. rewrite Hus.
      destruct (IH Hrest (S k)
                  (<[a := SocialGraph._clip
                            (SocialGraph.propagated g own (Py.mean us) (normal k))]> acc))
        as (res & Hres & Hacc & Hnodes).
      exists res. split; [exact Hres|]. split.
      * intros i Hi. apply Hacc. destruct (decide (a = i)) as [->|Hne].
        -- rewrite lookup_insert_eq. eauto.
        -- rewrite lookup_insert_ne by exact Hne. exact Hi.
      * intros i nb Hin. apply elem_of_cons in Hin as [Heq|Hin].
        -- injection Heq as -> ->. apply Hacc. rewrite lookup_insert_eq. eauto.
        -- eapply Hnodes. exact Hin.
Qed.

Lemma node_update_bounded (g : SocialGraph.t) (hs : gmap nat Q)
    (own : Q) (nbrs : list nat) (z v : Q) :
  node_update g hs own nbrs z v -> 0 <= v <= 1.
Proof.
  unfold node_update, SocialGraph._clip. destruct nbrs.
  - intros ->. apply clip_bounds. lra.
  - intros (us & _ & ->). apply clip_bounds. lra.
Qed.

(** The loop, position by position: a value of the result that the
    loop has written is the update of the node at some position [j] of
    the list, computed on the snapshot with the draw the loop makes
    there. *)
Lemma spread_loop_positions (g : SocialGraph.t) (hs : gmap nat Q) (normal : nat -> Q)
    (nodes : list (nat * list nat)) :
  forall (k : nat) (acc res : gmap nat Q),
    SocialGraph.spread_loop g hs normal nodes k acc = inr res ->
    forall i v, res !! i = Some v ->
      acc !! i = Some v
      \/ exists j nbrs own,
           nodes !! j = Some (i, nbrs) /\ hs !! i = Some own
           /\ node_update g hs own nbrs (normal (k + draws_before nodes j)%nat) v.
Proof.
  induction nodes as [|[a nbrs] rest IH]; intros k acc res Hloop i v Hv; simpl in Hloop.
  - injection Hloop as <-. left. exact Hv.
  - unfold SocialGraph.state_unrest in Hloop at 1.
    destruct (hs !! a) as [own|] eqn:Hown; [|discriminate].
    destruct nbrs as [|n ns].
    + destruct (IH _ _ _ Hloop i v Hv) as [Hacc|(j & nb & o & Hj & Ho & Hu)].
      * destruct (decide (a = i)) as [->|Hne].
        -- rewrite lookup_insert_eq in Hacc. injection Hacc as <-.
           right. exists 0%nat, [], own. split; [reflexivity|].
           split; [exact Hown|reflexivity].
        -- rewrite lookup_insert_ne in Hacc by exact Hne. left. exact Hacc.
      * right. exists (S j), nb, o. split; [exact Hj|]. split; [exact Ho|exact Hu].
    + destruct (SocialGraph.neighbor_unrests hs (n :: ns)) as [e|us] eqn:Hus;
        [discriminate|].
      destruct (IH _ _ _ Hloop i v Hv) as [Hacc|(j & nb & o & Hj & Ho & Hu)].
      * destruct (decide (a = i)) as [->|Hne].
        -- rewrite lookup_insert_eq in Hacc. injection Hacc as <-.
           right. exists 0%nat, (n :: ns), own. split; [reflexivity|].
           split; [exact Hown|]. exists us. split; [exact Hus|].
           change (draws_before ((i, n :: ns) :: rest) 0) with 0%nat.
           rewrite Nat.add_0_r. reflexivity.
        -- rewrite lookup_insert_ne in Hacc by exact Hne. left. exact Hacc.
      * right. exists (S j), nb, o. split; [exact Hj|]. split; [exact Ho|].
        change (draws_before ((a, n :: ns) :: rest) (S j))
          with (S (draws_before rest j)).
        rewrite Nat.add_succ_r. exact Hu.
Qed.

(** C9: for every graph, every snapshot that has an unrest value for each
    node (whatever the values) and every sequence of normal draws,
    [spread_influence] returns a dictionary that gives every node a value
    of [0, 1]; and every value in it is the update of the node at some
    position of [graph.nodes]: the clipped diffusion equation on the
    node's own entry and its neighbours' entries of the snapshot it was
    given, with the draw the loop makes at that position.  The value is a
    function of the snapshot and that draw alone: the dictionary under
    construction is never read. *)
Theorem C9_spread_influence_bounded_and_snapshot
    (g : SocialGraph.t) (hs : gmap nat Q) (normal : nat -> Q) :
  covers hs (SocialGraph.graph g) ->
  exists new_unrest,
    SocialGraph.spread_influence g hs normal = inr new_unrest
    /\ (forall i nbrs, (i, nbrs) ∈ SocialGraph.graph g ->
          exists v, new_unrest !! i = Some v /\ 0 <= v <= 1)
    /\ (forall i v, new_unrest !! i = Some v ->
          0 <= v <= 1
          /\ exists j nbrs own,
               SocialGraph.graph g !! j = Some (i, nbrs)
               /\ hs !! i = Some own
               /\ node_update g hs own nbrs
                    (normal (draws_before (SocialGraph.graph g) j)) v).
Proof.
  intros Hcov. unfold SocialGraph.spread_influence.
  destruct (spread_loop_total g hs normal (SocialGraph.graph g) Hcov 0%nat ∅)
    as (res & Hres & _ & Hnodes).
  exists res. split; [exact Hres|].
  assert (Hval : forall i v, res !! i = Some v ->
            0 <= v <= 1
            /\ exists j nbrs own,
                 SocialGraph.graph g !! j = Some (i, nbrs)
                 /\ hs !! i = Some own
                 /\ node_update g hs own nbrs
                      (normal (draws_before (SocialGraph.graph g) j)) v).
  { intros i v Hv.
    destruct (spread_loop_positions g hs normal _ _ _ _ Hres i v Hv)
      as [Habs|(j & nbrs & own & Hj & Hown & Hu)].
    - rewrite lookup_empty in Habs. discriminate.
    - split; [eapply node_update_bounded; exact Hu|].
      exists j, nbrs, own. auto. }
  split; [|exact Hval].
  intros i nbrs Hin. destruct (Hnodes i nbrs Hin) as [v Hv].
  exists v. split; [exact Hv|]. apply (Hval i v Hv).
Qed.

Lemma C9_spread_influence_witness :
  covers small_snapshot (SocialGraph.graph small_graph)
  /\ exists new_unrest,
       SocialGraph.spread_influence small_graph small_snapshot (fun _ => 1 # 100)
       = inr new_unrest.
Proof.
  assert (H : covers small_snapshot (SocialGraph.graph small_graph)).
  { intros i nbrs Hin. simpl in Hin.
    repeat (apply elem_of_cons in Hin as [Hin|Hin];
            [injection Hin as -> ->; split;
             [vm_compute; eauto
             |intros n Hn;
              repeat (apply elem_of_cons in Hn as [->|Hn]; [vm_compute; eauto|]);
              inversion Hn]|]).
    inversion Hin. }
  split; [exact H|].
  destruct (C9_spread_influence_bounded_and_snapshot small_graph small_snapshot
              (fun _ => 1 # 100) H) as (new & Hnew & _).
  exists new. exact Hnew.
Defined.

(** The order of the pass does not matter: with the same draw [z] for
    every node, visiting the (distinct) nodes in another order gives the
    same dictionary. *)
Lemma spread_loop_lookup (g : SocialGraph.t) (hs : gmap nat Q) (normal : nat -> Q)
    (z : Q) (nodes : list (nat * list nat)) :
  (forall k, normal k = z) ->
  NoDup (map fst nodes) ->
  forall (k : nat) (acc res : gmap nat Q),
    SocialGraph.spread_loop g hs normal nodes k acc = inr res ->
    forall i,
      (forall nbrs, (i, nbrs) ∈ nodes -> res !! i = node_value g hs i nbrs z)
      /\ (i ∉ map fst nodes -> res !! i = acc !! i).
Proof.
  intros Hz. induction nodes as [|[a nb] rest IH]; intros Hnd k acc res Hloop i.
  - simpl in Hloop. injection Hloop as <-. split; [|reflexivity].
    intros nbrs Hin. inversion Hin.
  - simpl in Hnd. apply NoDup_cons in Hnd as [Ha Hnd]. simpl in Hloop.
    unfold SocialGraph.state_unrest in Hloop at 1.
    destruct (hs !! a) as [own|] eqn:Hown; [|discriminate].
    assert (Hstep : exists v k',
               node_value g hs a nb z = Some v
               /\ SocialGraph.spread_loop g hs normal rest k' (<[a := v]> acc) = inr res).
    { unfold node_value. rewrite Hown. destruct nb as [|n ns].
      - eexists. eexists. split; [reflexivity|exact Hloop].
      - destruct (SocialGraph.neighbor_unrests hs (n :: ns)) as [e|us];
          [discriminate|].
        rewrite Hz in Hloop. eexists. eexists. split; [reflexivity|exact Hloop]. }
    destruct Hstep as (v & k' & Hv & Hrest).
    destruct (IH Hnd k' _ _ Hrest i) as [Hin Hout]. split.
    + intros nbrs Hmem. apply elem_of_cons in Hmem as [Heq|Hmem].
      * injection Heq as -> ->.
        destruct (IH Hnd k' _ _ Hrest a) as [_ Hout'].
        rewrite (Hout' Ha), lookup_insert_eq. symmetry. exact Hv.
      * apply Hin. exact Hmem.
    + intros Hni. simpl in Hni. apply not_elem_of_cons in Hni as [Hne Hni].
      rewrite (Hout Hni). apply lookup_insert_ne. congruence.
Qed.

Lemma spread_influence_order_independent (g : SocialGraph.t) (hs : gmap nat Q)
    (normal : nat -> Q) (z : Q) (nodes : list (nat * list nat))
    (res res' : gmap nat Q) :
  (forall k, normal k = z) ->
  NoDup (map fst (SocialGraph.graph g)) ->
  nodes ≡ₚ SocialGraph.graph g ->
  SocialGraph.spread_influence g hs normal = inr res ->
  SocialGraph.spread_influence (with_nodes g nodes) hs normal = inr res' ->
  res' = res.
Proof.
  intros Hz Hnd Hperm H H'. unfold SocialGraph.spread_influence in *.
  assert (Hnd' : NoDup (map fst nodes)) by (rewrite Hperm; exact Hnd).
  simpl in H'.
  apply map_eq. intros i.
  destruct (spread_loop_lookup g hs normal z _ Hz Hnd _ _ _ H i) as [Hin Hout].
  destruct (spread_loop_lookup (with_nodes g nodes) hs normal z _ Hz Hnd' _ _ _ H' i)
    as [Hin' Hout'].
  destruct (decide (i ∈ map fst (SocialGraph.graph g))) as [Hi|Hi].
  - apply list_elem_of_fmap in Hi as ([j nbrs] & -> & Hmem). simpl in *.
    rewrite (Hin nbrs Hmem). rewrite (Hin' nbrs) by (rewrite Hperm; exact Hmem).
    reflexivity.
  - rewrite (Hout Hi). apply Hout'. rewrite Hperm. exact Hi.
Qed.

(** ** Wealth shares *)

Lemma sum_app (a b : list Q) : Py.sum (a ++ b) == Py.sum a + Py.sum b.
Proof.
  induction a as [|x a IH].
  - change (Py.sum b == 0 + Py.sum b). ring.
  - change (x + Py.sum (a ++ b) == x + Py.sum a + Py.sum b). rewrite IH. ring.
Qed.

Lemma sum_cons (x : Q) (l : list Q) : Py.sum (x :: l) == x + Py.sum l.
Proof. reflexivity. Qed.

Lemma sum_rev (l : list Q) : Py.sum (rev l) == Py.sum l.
Proof.
  induction l as [|x l IH]; [reflexivity|].
  simpl rev. rewrite sum_app, IH, !sum_cons. change (Py.sum []) with 0. ring.
Qed.

Lemma sum_insert_sorted (x : Q) (l : list Q) :
  Py.sum (InequalityMetrics.insert_sorted x l) == x + Py.sum l.
Proof.
  induction l as [|y l IH]; simpl; [reflexivity|].
  destruct (Qle_bool x y); [reflexivity|].
  rewrite !sum_cons, IH. ring.
Qed.

Lemma sum_np_sort (l : list Q) : Py.sum (InequalityMetrics.np_sort l) == Py.sum l.
Proof.
  induction l as [|x l IH]; [reflexivity|].
  unfold InequalityMetrics.np_sort in *. simpl.
  rewrite sum_insert_sorted, IH. reflexivity.
Qed.

Lemma sum_nonneg (l : list Q) : Forall (fun x => 0 <= x) l -> 0 <= Py.sum l.
Proof.
  induction 1 as [|x l Hx _ IH]; [change (Py.sum []) with 0; lra|].
  rewrite sum_cons. lra.
Qed.

Lemma sum_nonpos (l : list Q) : Forall (fun x => x <= 0) l -> Py.sum l <= 0.
Proof.
  induction 1 as [|x l Hx _ IH]; [change (Py.sum []) with 0; lra|].
  rewrite sum_cons. lra.
Qed.

Lemma insert_sorted_Forall (P : Q -> Prop) (x : Q) (l : list Q) :
  P x -> Forall P l -> Forall P (InequalityMetrics.insert_sorted x l).
Proof.
  intros Hx. induction 1 as [|y l Hy Hl IH]; simpl.
  - repeat constructor. exact Hx.
  - destruct (Qle_bool x y); repeat constructor; assumption.
Qed.

Lemma insert_sorted_ascending (x : Q) (l : list Q) :
  ascending l -> ascending (InequalityMetrics.insert_sorted x l).
Proof.
  induction l as [|y l IH]; simpl; intros Hl.
  - split; [constructor|exact I].
  - destruct Hl as [Hy Hl]. destruct (Qle_bool x y) eqn:E.
    + apply Qle_bool_iff in E. simpl. split; [|split; assumption].
      constructor; [exact E|].
      eapply Forall_impl; [exact Hy|]. simpl. intros z Hz. lra.
    + assert (Hyx : y <= x).
      { destruct (Qlt_le_dec x y) as [Hlt|Hle]; [|exact Hle].
        apply Qlt_le_weak, Qle_bool_iff in Hlt. congruence. }
      simpl. split; [|apply IH; exact Hl].
      apply insert_sorted_Forall; assumption.
Qed.

Lemma np_sort_ascending (l : list Q) : ascending (InequalityMetrics.np_sort l).
Proof.
  induction l as [|x l IH]; [exact I|].
  unfold InequalityMetrics.np_sort in *. simpl. apply insert_sorted_ascending, IH.
Qed.

Lemma descending_snoc (l : list Q) (x : Q) :
  descending l -> Forall (fun y => x <= y) l -> descending (l ++ [x]).
Proof.
  induction l as [|y l IH]; simpl; intros Hl Hx.
  - split; [constructor|exact I].
  - destruct Hl as [Hy Hl]. apply Forall_cons in Hx as [Hxy Hx].
    split; [|apply IH; assumption].
    apply Forall_app. split; [exact Hy|]. repeat constructor. exact Hxy.
Qed.

Lemma rev_ascending (l : list Q) : ascending l -> descending (rev l).
Proof.
  induction l as [|x l IH]; simpl; intros Hl; [exact I|].
  destruct Hl as [Hx Hl]. apply descending_snoc; [apply IH, Hl|].
  apply Forall_forall. intros y Hy. rewrite Forall_forall in Hx.
  apply Hx. apply list_elem_of_In. apply list_elem_of_In in Hy.
  apply in_rev. exact Hy.
Qed.

Lemma descending_app_r (a b : list Q) : descending (a ++ b) -> descending b.
Proof.
  induction a as [|x a IH]; simpl; [auto|]. intros [_ H]. apply IH, H.
Qed.

(** In a descending list, either a prefix is all non-negative or what
    follows it is all non-positive. *)
Lemma descending_split (a b : list Q) :
  descending (a ++ b) ->
  Forall (fun x => 0 <= x) a \/ Forall (fun x => x <= 0) b.
Proof.
  induction a as [|x a IH]; simpl; intros H.
  - left. constructor.
  - destruct H as [Hx H]. destruct (Qlt_le_dec x 0) as [Hneg|Hpos].
    + right. apply Forall_app in Hx as [_ Hb].
      eapply Forall_impl; [exact Hb|]. simpl. intros y Hy. lra.
    + destruct (IH H) as [Ha|Hb]; [left|right; exact Hb].
      constructor; assumption.
Qed.

(** The clipped share of the first [k] of a descending list grows with
    [k]: while the prefix takes non-negative wealth it grows, and once it
    takes debts it is the total minus only debts, which clips to 1. *)
Lemma clipped_prefix_share_mono (s : list Q) (total : Q) (k1 k2 : nat) :
  descending s -> (k1 <= k2)%nat -> total == Py.sum s -> 0 < total ->
  Py.clip (Py.sum (take k1 s) / total) 0 1
  <= Py.clip (Py.sum (take k2 s) / total) 0 1.
Proof.
  intros Hs Hk Htotal Hpos.
  set (mid := take (k2 - k1) (drop k1 s)).
  assert (E2 : take k2 s = take k1 s ++ mid).
  { unfold mid. rewrite take_take_drop. f_equal. lia. }
  assert (Es : s = take k1 s ++ (mid ++ drop k2 s)).
  { rewrite app_assoc, <- E2. symmetry. apply take_drop. }
  assert (Hd : descending (mid ++ drop k2 s)).
  { rewrite Es in Hs. eapply descending_app_r. exact Hs. }
  assert (HT : Py.sum s == Py.sum (take k2 s) + Py.sum (drop k2 s)).
  { rewrite <- sum_app, take_drop. reflexivity. }
  assert (H2 : Py.sum (take k2 s) == Py.sum (take k1 s) + Py.sum mid).
  { rewrite E2. apply sum_app. }
  destruct (descending_split _ _ Hd) as [Hmid|Hrest].
  - apply clip_mono; [lra|]. apply sum_nonneg in Hmid.
    unfold Qdiv. apply Qmult_le_compat_r; [lra|].
    apply Qlt_le_weak, Qinv_lt_0_compat, Hpos.
  - apply sum_nonpos in Hrest.
    rewrite (clip_above (Py.sum (take k2 s) / total) 0 1).
    + apply clip_bounds. lra.
    + lra.
    + apply Qle_shift_div_l; [exact Hpos|]. lra.
Qed.

Lemma top_k_mono (w : list Q) (p1 p2 : Q) :
  p1 <= p2 ->
  (Z.to_nat (InequalityMetrics.top_k w p1) <= Z.to_nat (InequalityMetrics.top_k w p2))%nat.
Proof.
  intros Hp. unfold InequalityMetrics.top_k. apply Z2Nat.inj_le; [lia|lia|].
  apply Z.max_le_compat_l. apply Qceiling_resp_le.
  rewrite !(Qmult_comm (inject_Z _)). apply Qmult_le_compat_r; [exact Hp|].
  change 0 with (inject_Z 0). rewrite <- Zle_Qle. lia.
Qed.

(** With sums that do not round, the wealth share of a fixed
    distribution, debts included, does not decrease when the percentile
    grows; and the share of an empty or all-zero distribution is 0. *)
Lemma wealth_share_monotone_in_exact_arithmetic (w : list Q) (p1 p2 : Q) :
  p1 <= p2 ->
  InequalityMetrics.calculate_wealth_share w p1
  <= InequalityMetrics.calculate_wealth_share w p2
  /\ InequalityMetrics.calculate_wealth_share [] p1 = 0
  /\ (Forall (fun x => x == 0) w -> InequalityMetrics.calculate_wealth_share w p1 = 0).
Proof.
  intros Hp. split; [|split].
  - unfold InequalityMetrics.calculate_wealth_share.
    destruct (length w =? 0)%nat; [lra|].
    destruct (Qlt_le_dec 0 (Py.sum w)) as [Hpos|Hnp]; [|lra].
    set (s := rev (InequalityMetrics.np_sort w)).
    assert (Hsum : Py.sum s == Py.sum w)
      by (unfold s; rewrite sum_rev; apply sum_np_sort).
    assert (Hdesc : descending s) by (apply rev_ascending, np_sort_ascending).
    apply clipped_prefix_share_mono.
    + exact Hdesc.
    + apply top_k_mono, Hp.
    + symmetry. exact Hsum.
    + exact Hpos.
  - reflexivity.
  - intros Hz. unfold InequalityMetrics.calculate_wealth_share.
    destruct (length w =? 0)%nat; [reflexivity|].
    destruct (Qlt_le_dec 0 (Py.sum w)) as [Hpos|Hnp]; [|reflexivity].
    exfalso. assert (Py.sum w <= 0); [|lra].
    apply sum_nonpos. eapply Forall_impl; [exact Hz|]. simpl. intros x Hx. lra.
Qed.

(** C8: on doubles the wealth share is not monotone in the percentile.
    For the wealths [5e-14, 3000.0, -3000.0, 5e-14] the total is positive
    (the two large wealths cancel before the last small one is added),
    the three largest sum to 3000.0 and all four, in sorted order, to
    0.0: the share is 1.0 at the percentile 0.75 and 0.0 at the
    percentile 1.0, in each order of summation. *)
Theorem C8_wealth_share_falls_with_the_percentile_in_binary64 :
  SpecFloat.SFleb InequalityMetrics64.three_quarters InequalityMetrics64.one = true
  /\ SpecFloat.SFltb InequalityMetrics64.zero InequalityMetrics64.one = true
  /\ Forall (fun sum =>
               InequalityMetrics64.calculate_wealth_share sum
                 InequalityMetrics64.indebted InequalityMetrics64.three_quarters
               = Some InequalityMetrics64.one
               /\ InequalityMetrics64.calculate_wealth_share sum
                    InequalityMetrics64.indebted InequalityMetrics64.one
                  = Some InequalityMetrics64.zero)
            [InequalityMetrics64.sum_left; InequalityMetrics64.sum_right;
             InequalityMetrics64.sum_first_then_rest].
Proof.
  split; [vm_compute; reflexivity|]. split; [vm_compute; reflexivity|].
  repeat constructor; vm_compute; reflexivity.
Qed.

(** ** The labor market *)

Lemma swap_Permutation {A} (i j : nat) (l : list A) : Py.swap i j l ≡ₚ l.
Proof.
  unfold Py.swap.
  destruct (l !! i) as [a|] eqn:Hi; [|reflexivity].
  destruct (l !! j) as [b|] eqn:Hj; [|reflexivity].
  apply Permutation_insert_swap; assumption.
Qed.

Lemma shuffle_from_Permutation {A} (interval : nat -> nat) (i : nat) (l : list A) :
  Py.shuffle_from interval i l ≡ₚ l.
Proof.
  revert l. induction i as [|i IH]; intros l; simpl; [reflexivity|].
  rewrite IH. apply swap_Permutation.
Qed.

Lemma shuffle_Permutation {A} (interval : nat -> nat) (l : list A) :
  Py.shuffle interval l ≡ₚ l.
Proof. apply shuffle_from_Permutation. Qed.

(** What a labor clearing that returns has done. *)
Lemma clear_labor_market_inv (tanh : Q -> Q) (m : MarketMechanism.t)
    (interval : nat -> nat) (hs hs' : list HouseholdAgent.t)
    (fs fs' : list FirmAgent.t) (wage u : Q) :
  MarketMechanism.clear_labor_market tanh m interval hs fs = ((hs', fs'), inr (wage, u)) ->
  exists ds,
    let supply := Z.of_nat (length hs) in
    let demand := Py.sumZ ds in
    let employed := Z.min supply demand in
    let k := Py.slice_len (length hs) employed in
    let shuffled := Py.shuffle interval hs in
    MarketMechanism.desired_labors fs = inr ds
    /\ hs <> []
    /\ wage = MarketMechanism.base_wage m
              * (1 + MarketMechanism.wage_adjustment m
                     * tanh (inject_Z (demand - supply) / inject_Z (Z.max supply 1)))
    /\ u = 1 - inject_Z employed / inject_Z supply
    /\ hs' = map (hired wage) (take k shuffled) ++ map dismissed (drop k shuffled)
    /\ Py.for_each (MarketMechanism.staff employed demand wage) fs = (fs', inr tt).
Proof.
  unfold MarketMechanism.clear_labor_market. intros H.
  destruct (MarketMechanism.desired_labors fs) as [e|ds] eqn:Hds; [discriminate|].
  exists ds. cbv zeta.
  unfold Py.div in H.
  destruct (Qeq_bool (inject_Z (Z.of_nat (length hs))) 0) eqn:Hz; [discriminate|].
  destruct (Py.for_each _ fs) as [fs'' [e|[]]] eqn:Hfs; [discriminate|].
  injection H as <- <- <- <-.
  split; [reflexivity|]. split.
  { intros ->. discriminate. }
  split; [reflexivity|]. split; [reflexivity|]. split; [|exact Hfs].
  assert (Hlen : length (Py.shuffle interval hs) = length hs)
    by (apply Permutation_length, shuffle_Permutation).
  rewrite Hlen. rewrite List.firstn_map, List.skipn_map, List.map_map. reflexivity.
Qed.

(** The part of C10 that holds on every call that returns: the list is a
    rearrangement of the caller's households in which the first [k] are
    employed and richer by exactly the wage and the others unemployed with
    their wealth; nothing else of a household changes ([hired] and
    [dismissed] keep id, class, consumption, savings and unrest).  When
    the demand is not negative, [k] is min(supply, demand). *)
Lemma clear_labor_market_households (tanh : Q -> Q) (m : MarketMechanism.t)
    (interval : nat -> nat) (hs hs' : list HouseholdAgent.t)
    (fs fs' : list FirmAgent.t) (wage u : Q) :
  MarketMechanism.clear_labor_market tanh m interval hs fs = ((hs', fs'), inr (wage, u)) ->
  exists ds shuffled k,
    MarketMechanism.desired_labors fs = inr ds
    /\ shuffled ≡ₚ hs
    /\ k = Py.slice_len (length hs) (Z.min (Z.of_nat (length hs)) (Py.sumZ ds))
    /\ hs' = map (hired wage) (take k shuffled) ++ map dismissed (drop k shuffled)
    /\ ((0 <= Py.sumZ ds)%Z ->
        k = Z.to_nat (Z.min (Z.of_nat (length hs)) (Py.sumZ ds))).
Proof.
  intros H. destruct (clear_labor_market_inv _ _ _ _ _ _ _ _ _ H)
    as (ds & Hds & _ & _ & _ & Hhs & _).
  exists ds, (Py.shuffle interval hs),
    (Py.slice_len (length hs) (Z.min (Z.of_nat (length hs)) (Py.sumZ ds))).
  split; [exact Hds|].
  split; [apply shuffle_Permutation|]. split; [reflexivity|]. split; [exact Hhs|].
  intros Hpos. unfold Py.slice_len.
  destruct (0 <=? Z.min (Z.of_nat (length hs)) (Py.sumZ ds))%Z eqn:E; [lia|].
  apply Z.leb_gt in E. lia.
Qed.

(** C10, where the code departs from it: with three households and a
    total desired labor of -1, min(supply, demand) is -1, yet the slice
    [households[:-1]] holds the first two households: they are marked
    employed and paid the wage, and the unemployment rate returned is 4/3. *)
Theorem C10_negative_demand_hires (tanh : Q -> Q) :
  let call :=
    MarketMechanism.clear_labor_market tanh MarketMechanism.default
      NegativeDemand.interval NegativeDemand.households [NegativeDemand.firm] in
  FirmAgent.desired_labor NegativeDemand.firm = Some (-1)%Z
  /\ Z.min (Z.of_nat (length NegativeDemand.households)) (-1) = (-1)%Z
  /\ exists wage unemployment,
       snd call = inr (wage, unemployment)
       /\ unemployment == 4 # 3
       /\ map HouseholdAgent.employed (fst (fst call)) = [Some true; Some true; Some false]
       /\ map HouseholdAgent.wealth (fst (fst call)) = [50 + wage; 100 + wage; 300]
       /\ map HouseholdAgent.id (fst (fst call)) = [0; 1; 2]%nat.
Proof.
  cbv zeta. split; [reflexivity|]. split; [reflexivity|].
  eexists. eexists. split; [reflexivity|].
  split; [vm_compute; reflexivity|]. repeat split.
Qed.

(** ** Bankruptcy *)

Lemma lookup_map {A B} (f : A -> B) (l : list A) (i : nat) :
  map f l !! i = f <$> l !! i.
Proof. apply (list_lookup_fmap f l i). Qed.

Lemma map_keeps {A} (P : A -> Prop) (f : A -> A) (l : list A) (i : nat) (x : A) :
  (forall y, P y -> P (f y)) ->
  l !! i = Some x -> P x -> exists x', map f l !! i = Some x' /\ P x'.
Proof.
  intros Hf Hl Hx. exists (f x). rewrite lookup_map, Hl. split; [reflexivity|auto].
Qed.

Lemma for_each_keeps {A} (P : A -> Prop) (body : Py.M A unit) (l : list A) :
  (forall y, P y -> P (fst (body y))) ->
  forall (i : nat) (x : A),
    l !! i = Some x -> P x -> exists x', fst (Py.for_each body l) !! i = Some x' /\ P x'.
Proof.
  intros Hb. induction l as [|y l IH]; intros i x Hl Hx; [discriminate|].
  simpl. destruct (body y) as [y' r] eqn:Ey.
  assert (Hy' : P y -> P y') by (intros Hy; specialize (Hb y Hy); rewrite Ey in Hb; exact Hb).
  destruct i as [|i]; simpl in Hl.
  - injection Hl as ->. destruct r as [e|[]].
    + exists y'. split; [reflexivity|auto].
    + destruct (Py.for_each body l). exists y'. split; [reflexivity|auto].
  - destruct r as [e|[]].
    + exists x. split; [exact Hl|exact Hx].
    + destruct (IH i x Hl Hx) as (x' & Hx' & HP).
      destruct (Py.for_each body l). exists x'. split; [exact Hx'|exact HP].
Qed.

Lemma labor_market_firms (tanh : Q -> Q) (m : MarketMechanism.t)
    (interval : nat -> nat) (hs : list HouseholdAgent.t) (fs : list FirmAgent.t) :
  snd (fst (MarketMechanism.clear_labor_market tanh m interval hs fs)) = fs
  \/ exists ds e d w,
       MarketMechanism.desired_labors fs = inr ds
       /\ snd (fst (MarketMechanism.clear_labor_market tanh m interval hs fs))
          = fst (Py.for_each (MarketMechanism.staff e d w) fs).
Proof.
  unfold MarketMechanism.clear_labor_market.
  destruct (MarketMechanism.desired_labors fs) as [e|ds]; [left; reflexivity|].
  destruct (Py.div _ _); [left; reflexivity|].
  right.
  match goal with
  | |- context [Py.for_each (MarketMechanism.staff ?e ?d ?w) fs] => exists ds, e, d, w
  end.
  split; [reflexivity|].
  destruct (Py.for_each _ fs) as [fs' [e|[]]]; reflexivity.
Qed.

Lemma credit_market_firms (m : MarketMechanism.t) (fs : list FirmAgent.t)
    (g : GovernmentAgent.t) :
  fst (MarketMechanism.clear_credit_market m fs g) = fs
  \/ exists r, fst (MarketMechanism.clear_credit_market m fs g)
               = fst (Py.for_each (MarketMechanism.lend m r) fs).
Proof.
  unfold MarketMechanism.clear_credit_market.
  destruct (GovernmentAgent.current_interest_rate g) as [r|]; [|left; reflexivity].
  right. exists r. destruct (Py.for_each _ fs) as [fs' [e|[]]]; reflexivity.
Qed.

Lemma goods_market_keeps (P : FirmAgent.t -> Prop) (tanh : Q -> Q)
    (m : MarketMechanism.t) (hs : list HouseholdAgent.t) (fs : list FirmAgent.t)
    (i : nat) (f : FirmAgent.t) :
  kept_by_all_calls P -> fs !! i = Some f -> P f ->
  exists f', fst (MarketMechanism.clear_goods_market tanh m hs fs) !! i = Some f' /\ P f'.
Proof.
  intros (_ & _ & _ & _ & _ & Hprice & Hrev & _) Hl Hf.
  unfold MarketMechanism.clear_goods_market. simpl.
  match goal with |- context [map ?g fs] =>
    destruct (map_keeps P g fs i f ltac:(intros; apply Hprice; assumption) Hl Hf)
      as (f1 & Hl1 & Hf1)
  end.
  destruct (Qlt_le_dec 0 _).
  - eapply map_keeps; [|exact Hl1|exact Hf1]. intros. apply Hrev. assumption.
  - eapply map_keeps; [|exact Hl1|exact Hf1]. intros. apply Hrev. assumption.
Qed.

Lemma apply_shock_keeps (P : FirmAgent.t -> Prop) (s : ShockManager.Shock)
    (w : ShockManager.World) (i : nat) (f : FirmAgent.t) :
  kept_by_all_calls P -> firms_of w !! i = Some f -> P f ->
  exists f', firms_of (ShockManager._apply_shock s w) !! i = Some f' /\ P f'.
Proof.
  intros (_ & _ & _ & _ & _ & _ & _ & Hcap & Hprod) Hl Hf.
  destruct w as [[econ hs] fs]. unfold firms_of in *. simpl in Hl.
  unfold ShockManager._apply_shock.
  repeat match goal with
         | |- context [if ?b then _ else _] => destruct b
         end; simpl;
    first [ exists f; split; [exact Hl|exact Hf]
          | eapply map_keeps; [|exact Hl|exact Hf]; intros;
            first [apply Hcap | apply Hprod]; assumption ].
Qed.

(** A property that every writer keeps holds of a firm after any call. *)
Lemma run_call_keeps (P : FirmAgent.t -> Prop) (tanh : Q -> Q) (c : Call)
    (w : ShockManager.World) (i : nat) (f : FirmAgent.t) :
  kept_by_all_calls P -> firms_of w !! i = Some f -> P f ->
  exists f', firms_of (run_call tanh c w) !! i = Some f' /\ P f'.
Proof.
  intros HP Hl Hf. pose proof HP as (Hstep & Hprod & Hpost & Hstaff & Hlend & _).
  destruct c; destruct w as [[econ hs] fs];
    try (apply (apply_shock_keeps P shock (econ, hs, fs) i f HP Hl Hf));
    unfold firms_of in *; simpl in Hl |- *.
  - eapply for_each_keeps; [|exact Hl|exact Hf]; auto.
  - eapply map_keeps; [|exact Hl|exact Hf]; auto.
  - eapply for_each_keeps; [|exact Hl|exact Hf]; auto.
  - destruct (labor_market_firms tanh m interval hs fs) as [E|(ds & e & d & wg & _ & E)];
      destruct (MarketMechanism.clear_labor_market tanh m interval hs fs)
        as [[hs' fs'] r]; simpl in E |- *; subst fs'.
    + exists f. auto.
    + eapply for_each_keeps; [|exact Hl|exact Hf]; auto.
  - eapply goods_market_keeps; [exact HP|exact Hl|exact Hf].
  - destruct (credit_market_firms m fs government) as [E|(r & E)]; rewrite E.
    + exists f. auto.
    + eapply for_each_keeps; [|exact Hl|exact Hf]; auto.
Qed.

Lemma run_calls_keeps (P : FirmAgent.t -> Prop) (tanh : Q -> Q) (cs : list Call) :
  kept_by_all_calls P ->
  forall (w : ShockManager.World) (i : nat) (f : FirmAgent.t),
    firms_of w !! i = Some f -> P f ->
    exists f', firms_of (run_calls tanh cs w) !! i = Some f' /\ P f'.
Proof.
  intros HP. induction cs as [|c cs IH]; intros w i f Hl Hf; simpl.
  - exists f. auto.
  - destruct (run_call_keeps P tanh c w i f HP Hl Hf) as (f1 & Hl1 & Hf1).
    apply (IH _ i f1 Hl1 Hf1).
Qed.

Lemma int_zero_div (y : Q) : Py.int (inject_Z 0 / y) = 0%Z.
Proof. unfold Py.int, Qdiv, Qmult. simpl. reflexivity. Qed.

Lemma step_dead (mc : FirmAgent.MarketConditions) (f : FirmAgent.t) :
  FirmAgent.alive f = false ->
  FirmAgent.step mc f
  = (FirmAgent.set_production 0 (FirmAgent.set_desired_labor 0 f), inr tt).
Proof. intros H. unfold FirmAgent.step. rewrite H. reflexivity. Qed.

Lemma post_market_step_dead (f : FirmAgent.t) :
  FirmAgent.alive f = false -> FirmAgent.post_market_step f = (f, inr tt).
Proof. intros H. unfold FirmAgent.post_market_step. rewrite H. reflexivity. Qed.

Lemma dead_kept : kept_by_all_calls (fun f => FirmAgent.alive f = false).
Proof.
  repeat split; intros; try assumption.
  - rewrite step_dead by assumption. assumption.
  - rewrite post_market_step_dead by assumption. assumption.
  - unfold MarketMechanism.staff. destruct (FirmAgent.getattr _ _); assumption.
  - unfold MarketMechanism.lend. destruct (Qlt_le_dec _ _); [|assumption].
    simpl. destruct (FirmAgent.debt f); assumption.
Qed.

Lemma idle_kept : kept_by_all_calls idle.
Proof.
  unfold idle, bankrupt.
  repeat split; intros;
    repeat match goal with H : _ /\ _ |- _ => destruct H end;
    try rewrite step_dead by assumption;
    try rewrite post_market_step_dead by assumption;
    try assumption; try reflexivity.
  all: try (unfold MarketMechanism.staff;
            match goal with H : FirmAgent.desired_labor _ = Some _ |- _ => rewrite H end;
            simpl; first [assumption | apply int_zero_div]).
  all: try (unfold MarketMechanism.lend; destruct (Qlt_le_dec _ _); [|assumption];
            simpl; destruct (FirmAgent.debt f); assumption).
  all: simpl.
  all: try (match goal with H : FirmAgent.employees _ = 0%Z |- _ => rewrite H end;
            simpl; ring).
Qed.

(** C7, as the code has it: a firm with [alive = false] keeps
    [alive = false] under every sequence of [step], [produce],
    [post_market_step], market clearings and shocks, whether the calls
    return or raise; and when the next call is a round of [step] that
    returns, as at the start of every tick, the firm keeps zero employees
    and zero production under every sequence of calls after it. *)
Theorem C7_bankruptcy_is_irreversible (tanh : Q -> Q) (cs : list Call)
    (w : ShockManager.World) (i : nat) (f : FirmAgent.t) :
  firms_of w !! i = Some f ->
  FirmAgent.alive f = false ->
  (exists f', firms_of (run_calls tanh cs w) !! i = Some f'
              /\ FirmAgent.alive f' = false)
  /\ (bankrupt f ->
      forall mc,
        snd (Py.for_each (FirmAgent.step mc) (firms_of w)) = inr tt ->
        exists f', firms_of (run_calls tanh (call_step mc :: cs) w) !! i = Some f'
                   /\ bankrupt f').
Proof.
  intros Hl Hdead. split.
  - apply (run_calls_keeps _ tanh cs dead_kept w i f Hl Hdead).
  - intros (_ & Hemp & _) mc Hstep.
    destruct w as [[econ hs] fs]. unfold firms_of in *. simpl in Hl, Hstep.
    change (run_calls tanh (call_step mc :: cs) (econ, hs, fs))
      with (run_calls tanh cs (econ, hs, fst (Py.for_each (FirmAgent.step mc) fs))).
    destruct (Py.for_each (FirmAgent.step mc) fs) as [fs1 r] eqn:E.
    simpl in Hstep. subst r. apply for_each_ok in E as [-> _]. simpl.
    assert (Hidle : idle (fst (FirmAgent.step mc f))).
    { rewrite step_dead by exact Hdead. repeat split; try assumption. }
    destruct (run_calls_keeps idle tanh cs idle_kept
                (econ, hs, map (fun x => fst (FirmAgent.step mc x)) fs) i
                (fst (FirmAgent.step mc f))) as (f' & Hf' & Hb & _).
    + unfold firms_of. simpl. rewrite lookup_map, Hl. reflexivity.
    + exact Hidle.
    + exists f'. split; assumption.
Qed.

Lemma C7_bankruptcy_is_irreversible_witness :
  firms_of Bankruptcy.after_tick !! 0%nat = Some Bankruptcy.firm
  /\ FirmAgent.alive Bankruptcy.firm = false
  /\ exists f',
       firms_of (run_calls Demo.tanh_approx
                   (call_step Bankruptcy.conditions :: Bankruptcy.after_step)
                   Bankruptcy.after_tick) !! 0%nat = Some f'
       /\ bankrupt f'.
Proof.
  assert (Hl : firms_of Bankruptcy.after_tick !! 0%nat = Some Bankruptcy.firm)
    by (vm_compute; reflexivity).
  assert (Hd : FirmAgent.alive Bankruptcy.firm = false) by (vm_compute; reflexivity).
  split; [exact Hl|]. split; [exact Hd|].
  destruct (C7_bankruptcy_is_irreversible Demo.tanh_approx Bankruptcy.after_step
              Bankruptcy.after_tick 0%nat Bankruptcy.firm Hl Hd) as [_ H].
  apply H.
  - repeat split; vm_compute; reflexivity.
  - vm_compute. reflexivity.
Defined.

(** C7 as stated fails: the firm that the tick has bankrupted still wants
    the twenty workers of its last decision, and a labor clearing called
    before any [step] gives them to it; [produce] then makes 16 units. *)
Lemma C7_labor_clearing_restaffs_a_bankrupt_firm :
  bankrupt Bankruptcy.firm
  /\ ~ stays_bankrupt Demo.tanh_approx Bankruptcy.labor_first Bankruptcy.after_tick 0.
Proof.
  split; [repeat split; vm_compute; reflexivity|].
  intros H. destruct (H Bankruptcy.firm) as (f' & Hf' & _ & Hemp & _).
  - vm_compute. reflexivity.
  - repeat split; vm_compute; reflexivity.
  - vm_compute in Hf'. injection Hf' as <-. vm_compute in Hemp. discriminate.
Qed.

(** ** What a tick does to the firms *)

Lemma passes_refl {A} (P : A -> Prop) (l : list A) : passes P P l l.
Proof. unfold passes. induction l; constructor; auto. Qed.

Lemma passes_trans {A} (P Q R : A -> Prop) (l1 l2 l3 : list A) :
  passes P Q l1 l2 -> passes Q R l2 l3 -> passes P R l1 l3.
Proof.
  unfold passes. intros H. revert l3.
  induction H as [|x y l1 l2 Hxy _ IH]; intros l3 H3; inversion H3; subst;
    constructor; auto.
Qed.

Lemma passes_weaken {A} (P Q Q' : A -> Prop) (l l' : list A) :
  (forall x, Q x -> Q' x) -> passes P Q l l' -> passes P Q' l l'.
Proof.
  unfold passes. intros HQ H. eapply Forall2_impl; [exact H|].
  simpl. intros x y Hxy Hx. auto.
Qed.

Lemma passes_map {A} (P Q : A -> Prop) (f : A -> A) (l : list A) :
  (forall x, P x -> Q (f x)) -> passes P Q l (map f l).
Proof. unfold passes. intros Hf. induction l; simpl; constructor; auto. Qed.

Lemma passes_for_each {A} (P : A -> Prop) (body : Py.M A unit) (l : list A) :
  (forall x, P x -> P (fst (body x))) -> passes P P l (fst (Py.for_each body l)).
Proof.
  unfold passes. intros Hb. induction l as [|x l IH]; simpl; [constructor|].
  specialize (Hb x). destruct (body x) as [x' [e|[]]]; simpl in *.
  - constructor; [exact Hb|]. apply (passes_refl P).
  - destruct (Py.for_each body l) as [l' r]. simpl in *. constructor; assumption.
Qed.

Lemma passes_Forall {A} (P Q : A -> Prop) (l l' : list A) :
  passes P Q l l' -> Forall P l -> Forall Q l'.
Proof.
  unfold passes. induction 1 as [|x y l l' Hxy _ IH]; intros H; [constructor|].
  apply Forall_cons in H as [Hx Hl]. constructor; auto.
Qed.

Lemma passes_lookup {A} (P Q : A -> Prop) (l l' : list A) (i : nat) (x : A) :
  passes P Q l l' -> l !! i = Some x -> P x -> exists y, l' !! i = Some y /\ Q y.
Proof.
  unfold passes. intros H Hl Hx.
  destruct (Forall2_lookup_l _ _ _ _ _ H Hl) as (y & Hy & Hxy).
  exists y. auto.
Qed.

Section Shocks.
Variable P : FirmAgent.t -> Prop.
Hypothesis P_capital : forall v f, P f -> P (FirmAgent.set_capital v f).
Hypothesis P_productivity : forall v f, P f -> P (FirmAgent.set_productivity v f).

Lemma apply_shock_passes (s : ShockManager.Shock) (w : ShockManager.World) :
  passes P P (firms_of w) (firms_of (ShockManager._apply_shock s w)).
Proof.
  destruct w as [[econ hs] fs]. unfold ShockManager._apply_shock, firms_of.
  repeat match goal with
         | |- context [if ?b then _ else _] => destruct b
         end; simpl;
    first [apply passes_refl | apply passes_map; auto].
Qed.

Lemma apply_active_passes (l : list ShockManager.Shock) (w : ShockManager.World) :
  passes P P (firms_of w) (firms_of (snd (ShockManager.apply_active l w))).
Proof.
  revert w. induction l as [|s l IH]; intros w; simpl; [apply passes_refl|].
  specialize (IH (ShockManager._apply_shock s w)).
  destruct (ShockManager.apply_active l _) as [al w']. simpl in *.
  eapply passes_trans; [apply apply_shock_passes|exact IH].
Qed.

Lemma maybe_trigger_passes (random : nat -> Q) (m : ShockManager.t)
    (w : ShockManager.World) :
  passes P P (firms_of w) (firms_of (snd (ShockManager.maybe_trigger random m w))).
Proof.
  unfold ShockManager.maybe_trigger.
  pose proof (apply_active_passes
                (ShockManager.active_shocks
                   (ShockManager.trigger (ShockManager.shock_probs m) random 0 m)) w) as H.
  destruct (ShockManager.apply_active _ w) as [al w']. exact H.
Qed.
End Shocks.

Lemma labor_market_passes (P : FirmAgent.t -> Prop) (tanh : Q -> Q)
    (m : MarketMechanism.t) (interval : nat -> nat)
    (hs : list HouseholdAgent.t) (fs : list FirmAgent.t) :
  (forall e d w f, P f -> P (fst (MarketMechanism.staff e d w f))) ->
  passes P P fs (snd (fst (MarketMechanism.clear_labor_market tanh m interval hs fs))).
Proof.
  intros HP.
  destruct (labor_market_firms tanh m interval hs fs) as [->|(ds & e & d & w & _ & ->)].
  - apply passes_refl.
  - apply passes_for_each. auto.
Qed.

Lemma goods_market_passes (P : FirmAgent.t -> Prop) (tanh : Q -> Q)
    (m : MarketMechanism.t) (hs : list HouseholdAgent.t) (fs : list FirmAgent.t) :
  (forall v f, P f -> P (FirmAgent.set_price v f)) ->
  (forall v f, P f -> P (FirmAgent.set_revenue v f)) ->
  passes P P fs (fst (MarketMechanism.clear_goods_market tanh m hs fs)).
Proof.
  intros Hprice Hrev. unfold MarketMechanism.clear_goods_market. simpl.
  match goal with
  | |- context [map ?g fs] =>
      pose proof (passes_map P P g fs ltac:(intros; apply Hprice; assumption)) as H1
  end.
  destruct (Qlt_le_dec 0 _);
    (eapply passes_trans; [exact H1|]); apply passes_map; intros; apply Hrev; assumption.
Qed.

Lemma credit_market_passes (P : FirmAgent.t -> Prop) (m : MarketMechanism.t)
    (fs : list FirmAgent.t) (g : GovernmentAgent.t) :
  (forall m r f, P f -> P (fst (MarketMechanism.lend m r f))) ->
  passes P P fs (fst (MarketMechanism.clear_credit_market m fs g)).
Proof.
  intros HP. destruct (credit_market_firms m fs g) as [->|(r & ->)].
  - apply passes_refl.
  - apply passes_for_each. auto.
Qed.

(** Through a tick, returning or raising: a property [P] that shocks and
    [step] keep, and that a returning [step] turns into a property [P']
    kept by every call, passes from each firm to itself after the tick. *)
Lemma step_passes (P P' : FirmAgent.t -> Prop) (tanh : Q -> Q)
    (d : BlackSwanEnv.Draws) (a : EconomicState.Action) (env : BlackSwanEnv.t) :
  (forall v f, P f -> P (FirmAgent.set_capital v f)) ->
  (forall v f, P f -> P (FirmAgent.set_productivity v f)) ->
  (forall mc f, P f -> P (fst (FirmAgent.step mc f))) ->
  (forall mc f, P f -> snd (FirmAgent.step mc f) = inr tt -> P' (fst (FirmAgent.step mc f))) ->
  (forall f, P' f -> P f) ->
  kept_by_all_calls P' ->
  passes P P (BlackSwanEnv.firms env)
    (BlackSwanEnv.firms (fst (BlackSwanEnv.step tanh d a env))).
Proof.
  intros Hcap Hprod Hstep HstepQ HQP HQ.
  pose proof HQ as (_ & HQproduce & HQpost & HQstaff & HQlend & HQprice & HQrev & _).
  unfold BlackSwanEnv.step.
  pose proof (maybe_trigger_passes P Hcap Hprod (BlackSwanEnv.random d)
                (BlackSwanEnv.shocks env)
                (GlobalState.economics (BlackSwanEnv.state env),
                 BlackSwanEnv.households env, BlackSwanEnv.firms env)) as H0.
  destruct (ShockManager.maybe_trigger _ _ _) as [sh [[econ0 hs0] fs0]].
  unfold firms_of in H0. simpl in H0.
  pose proof (passes_for_each P
                (FirmAgent.step
                   (BlackSwanEnv.conditions env (EconomicState.apply_policy a econ0)))
                fs0 ltac:(auto)) as H3.
  destruct (Py.for_each (FirmAgent.step _) fs0) as [fs1 [e|[]]] eqn:E3; simpl in H3.
  { simpl. eapply passes_trans; eassumption. }
  assert (H1 : passes P P' (BlackSwanEnv.firms env) fs1).
  { eapply passes_trans; [exact H0|].
    apply for_each_ok in E3 as [-> Hall]. unfold passes.
    clear H3 H0.
    induction Hall as [|x l Hx _ IH]; simpl; constructor;
      [intros Px; apply HstepQ; assumption|exact IH]. }
  clear H0 H3 E3.
  assert (Hexit : forall fs, passes P' P' fs1 fs -> passes P P (BlackSwanEnv.firms env) fs).
  { intros fs H. eapply passes_weaken; [exact HQP|].
    eapply passes_trans; [exact H1|exact H]. }
  destruct (SocialGraph.spread_influence _ _ _) as [e|upd];
    [simpl; apply Hexit, passes_refl|].
  destruct (Py.for_each (BlackSwanEnv.take_unrest upd) _) as [hs2 [e|[]]];
    [simpl; apply Hexit, passes_refl|].
  pose proof (labor_market_passes P' tanh (BlackSwanEnv.market env)
                (BlackSwanEnv.interval d) hs2 fs1 HQstaff) as H6.
  destruct (MarketMechanism.clear_labor_market _ _ _ _ _)
    as [[hs3 fs2] [e|[wage unemp]]]; simpl in H6; [simpl; apply Hexit, H6|].
  set (fs3 := map (fun f => fst (FirmAgent.produce f)) fs2).
  assert (H63 : passes P' P' fs1 fs3).
  { eapply passes_trans; [exact H6|]. apply passes_map. exact HQproduce. }
  set (fs4 := fst (MarketMechanism.clear_goods_market tanh (BlackSwanEnv.market env) hs3 fs3)).
  assert (H64 : passes P' P' fs1 fs4).
  { eapply passes_trans; [exact H63|]. apply goods_market_passes; assumption. }
  match goal with
  | |- context [MarketMechanism.clear_credit_market ?m fs4 ?g] =>
      pose proof (credit_market_passes P' m fs4 g HQlend) as H65;
      destruct (MarketMechanism.clear_credit_market m fs4 g) as [fs5 [e|rate]]
  end; simpl in H65.
  { simpl. apply Hexit. eapply passes_trans; eassumption. }
  pose proof (passes_for_each P' FirmAgent.post_market_step fs5 HQpost) as H66.
  assert (H6' : passes P' P' fs1 (fst (Py.for_each FirmAgent.post_market_step fs5))).
  { eapply passes_trans; [|exact H66]. eapply passes_trans; eassumption. }
  destruct (Py.for_each FirmAgent.post_market_step fs5) as [fs6 [e|[]]]; simpl in H6'.
  { simpl. apply Hexit, H6'. }
  destruct (BlackSwanEnv._update_macros _ _ _ _ _) as [econ7 [e|[]]];
    [simpl; apply Hexit, H6'|].
  destruct (GovernmentAgent.compute_reward _ _) as [gov8 [e|rew]];
    [simpl; apply Hexit, H6'|].
  destruct (BlackSwanEnv._check_collapse econ7) as [econ9 term].
  simpl. apply Hexit, H6'.
Qed.

Lemma bankrupt_passes_tick (tanh : Q -> Q) (d : BlackSwanEnv.Draws)
    (a : EconomicState.Action) (env : BlackSwanEnv.t) :
  passes bankrupt bankrupt (BlackSwanEnv.firms env)
    (BlackSwanEnv.firms (fst (BlackSwanEnv.step tanh d a env))).
Proof.
  apply (step_passes bankrupt idle).
  - intros v f H. exact H.
  - intros v f H. exact H.
  - intros mc f (Hd & He & Hp). rewrite step_dead by exact Hd.
    repeat split; try assumption.
  - intros mc f (Hd & He & Hp) _. rewrite step_dead by exact Hd.
    repeat split; try assumption.
  - intros f [H _]. exact H.
  - exact idle_kept.
Qed.

(** The sentence of the specification: once a firm is bankrupt, no later
    tick, reset or manual shock restores its employees, its production or
    its life, whether the ticks return or raise. *)
Lemma bankrupt_in_every_later_state (tanh : Q -> Q) (env0 env : BlackSwanEnv.t) :
  follows tanh env0 env ->
  passes bankrupt bankrupt (BlackSwanEnv.firms env0) (BlackSwanEnv.firms env).
Proof.
  induction 1 as [|env _ IH|env ty sev _ IH|env d a _ IH].
  - apply passes_refl.
  - exact IH.
  - exact IH.
  - eapply passes_trans; [exact IH|apply bankrupt_passes_tick].
Qed.

Lemma no_debt_kept : kept_by_all_calls (fun f => FirmAgent.debt f = None).
Proof.
  repeat split; intros; try assumption.
  - rewrite step_keeps_debt. assumption.
  - rewrite post_market_step_keeps_debt. assumption.
  - unfold MarketMechanism.staff. destruct (FirmAgent.getattr _ _); assumption.
  - unfold MarketMechanism.lend. destruct (Qlt_le_dec _ _); [|assumption].
    simpl. rewrite H. simpl. assumption.
Qed.

Lemma no_debt_in_every_later_state (tanh : Q -> Q) (env0 env : BlackSwanEnv.t) :
  follows tanh env0 env ->
  Forall (fun f => FirmAgent.debt f = None) (BlackSwanEnv.firms env0) ->
  Forall (fun f => FirmAgent.debt f = None) (BlackSwanEnv.firms env).
Proof.
  induction 1 as [|env _ IH|env ty sev _ IH|env d a _ IH]; intros H0; auto.
  eapply passes_Forall; [|exact (IH H0)].
  apply (step_passes _ (fun f => FirmAgent.debt f = None)); auto.
  - intros mc f H. rewrite step_keeps_debt. exact H.
  - intros mc f H _. rewrite step_keeps_debt. exact H.
  - exact no_debt_kept.
Qed.

Lemma reachable_no_debt (tanh : Q -> Q) (env : BlackSwanEnv.t) :
  reachable tanh env -> Forall (fun f => FirmAgent.debt f = None) (BlackSwanEnv.firms env).
Proof.
  intros (ms & mk & g & sp & pop & arch & H).
  apply (no_debt_in_every_later_state _ _ _ H).
  simpl. apply Forall_forall. intros f Hf.
  apply elem_of_lookup_imap in Hf as (i & a & -> & _). reflexivity.
Qed.

(** ** The bounds of the indicators *)

Lemma sum_bounds (l : list Q) (lo hi : Q) :
  Forall (fun x => lo <= x <= hi) l ->
  inject_Z (Z.of_nat (length l)) * lo <= Py.sum l
  /\ Py.sum l <= inject_Z (Z.of_nat (length l)) * hi.
Proof.
  induction 1 as [|x l [Hlo Hhi] _ [IH1 IH2]].
  - change (Py.sum []) with 0. change (inject_Z (Z.of_nat (length []))) with 0.
    split; lra.
  - rewrite sum_cons. simpl length. rewrite Nat2Z.inj_succ, <- Z.add_1_r, inject_Z_plus.
    change (inject_Z 1) with 1. split; lra.
Qed.

Lemma mean_bounds (l : list Q) (lo hi : Q) :
  l <> [] -> Forall (fun x => lo <= x <= hi) l -> lo <= Py.mean l <= hi.
Proof.
  intros Hne Hall. destruct (sum_bounds l lo hi Hall) as [H1 H2].
  assert (Hn : 0 < inject_Z (Z.of_nat (length l))).
  { change 0 with (inject_Z 0). rewrite <- Zlt_Qlt.
    destruct l; [contradiction|simpl; lia]. }
  unfold Py.mean. split.
  - apply Qle_shift_div_l; [exact Hn|]. lra.
  - apply Qle_shift_div_r; [exact Hn|]. lra.
Qed.

Lemma calculate_gini_bounds (l : list Q) :
  in_unit_interval (InequalityMetrics.calculate_gini l).
Proof.
  unfold in_unit_interval, InequalityMetrics.calculate_gini.
  destruct (length l =? 0)%nat; [lra|].
  destruct (forallb _ l); [lra|].
  destruct (Qeq_bool _ 0); [lra|]. apply clip_bounds. lra.
Qed.

Lemma calculate_wealth_share_bounds (l : list Q) (p : Q) :
  in_unit_interval (InequalityMetrics.calculate_wealth_share l p).
Proof.
  unfold in_unit_interval, InequalityMetrics.calculate_wealth_share.
  destruct (length l =? 0)%nat; [lra|].
  destruct (Qlt_le_dec 0 _); [|lra]. apply clip_bounds. lra.
Qed.

Lemma spread_influence_bounded (g : SocialGraph.t) (hs new : gmap nat Q)
    (normal : nat -> Q) :
  SocialGraph.spread_influence g hs normal = inr new ->
  forall i v, new !! i = Some v -> in_unit_interval v.
Proof.
  intros H i v Hv.
  destruct (spread_loop_values g hs normal _ _ _ _ H i v Hv)
    as [Habs|(nbrs & own & z & _ & _ & Hu)].
  - rewrite lookup_empty in Habs. discriminate.
  - eapply node_update_bounded. exact Hu.
Qed.

Lemma take_unrest_bounded (upd : gmap nat Q) (hs hs' : list HouseholdAgent.t) :
  (forall i v, upd !! i = Some v -> in_unit_interval v) ->
  Py.for_each (BlackSwanEnv.take_unrest upd) hs = (hs', inr tt) ->
  length hs' = length hs
  /\ Forall (fun h => in_unit_interval (HouseholdAgent.unrest h)) hs'.
Proof.
  intros Hupd H. apply for_each_ok in H as [-> Hall].
  split; [apply List.length_map|].
  induction Hall as [|h l Hh _ IH]; simpl; constructor; [|exact IH].
  unfold BlackSwanEnv.take_unrest in *.
  destruct (upd !! HouseholdAgent.id h) as [u|] eqn:E; [|discriminate].
  simpl. eapply Hupd. exact E.
Qed.

Lemma labor_market_keeps_unrest (tanh : Q -> Q) (m : MarketMechanism.t)
    (interval : nat -> nat) (hs hs' : list HouseholdAgent.t)
    (fs fs' : list FirmAgent.t) (wage u : Q) (P : Q -> Prop) :
  MarketMechanism.clear_labor_market tanh m interval hs fs = ((hs', fs'), inr (wage, u)) ->
  Forall (fun h => P (HouseholdAgent.unrest h)) hs ->
  hs' <> [] /\ Forall (fun h => P (HouseholdAgent.unrest h)) hs'.
Proof.
  intros H Hall.
  destruct (clear_labor_market_inv _ _ _ _ _ _ _ _ _ H)
    as (ds & _ & Hne & _ & _ & -> & _).
  set (sh := Py.shuffle interval hs).
  assert (Hperm : sh ≡ₚ hs) by apply shuffle_Permutation.
  assert (Hsh : Forall (fun h => P (HouseholdAgent.unrest h)) sh)
    by (rewrite Hperm; exact Hall).
  match goal with |- context [take ?n sh] => set (k := n) end.
  split.
  - intros Habs. apply (f_equal length) in Habs.
    rewrite length_app, !List.length_map, <- length_app, take_drop in Habs.
    apply Permutation_length in Hperm. destruct hs; [contradiction|].
    simpl in *. lia.
  - apply Forall_app. split; apply List.Forall_map.
    + apply Forall_take. exact Hsh.
    + apply Forall_drop. exact Hsh.
Qed.

Lemma books_map (f : FirmAgent.t -> FirmAgent.t) (l : list FirmAgent.t) :
  (forall x, same_books x (f x)) -> Forall2 same_books l (map f l).
Proof. intros H. induction l; simpl; constructor; auto. Qed.

Lemma books_trans (l1 l2 l3 : list FirmAgent.t) :
  Forall2 same_books l1 l2 -> Forall2 same_books l2 l3 -> Forall2 same_books l1 l3.
Proof.
  intros H. revert l3. induction H as [|x y l1 l2 [H1 H2] _ IH]; intros l3 H3;
    inversion H3 as [|y' z l2' l3' [H4 H5] H6]; subst; constructor; [|auto].
  split; congruence.
Qed.

Lemma step_books (mc : FirmAgent.MarketConditions) (f : FirmAgent.t) :
  same_books f (fst (FirmAgent.step mc f)).
Proof.
  split; [|apply step_keeps_debt].
  unfold FirmAgent.step. destruct (negb (FirmAgent.alive f)); [reflexivity|].
  destruct (FirmAgent.labor_required mc f); reflexivity.
Qed.

Lemma staff_books (e d : Z) (w : Q) (f : FirmAgent.t) :
  same_books f (fst (MarketMechanism.staff e d w f)).
Proof.
  unfold MarketMechanism.staff. destruct (FirmAgent.getattr _ _); split; reflexivity.
Qed.

Lemma goods_market_books (tanh : Q -> Q) (m : MarketMechanism.t)
    (hs : list HouseholdAgent.t) (fs : list FirmAgent.t) :
  Forall2 same_books fs (fst (MarketMechanism.clear_goods_market tanh m hs fs)).
Proof.
  unfold MarketMechanism.clear_goods_market. simpl.
  match goal with
  | |- context [map ?g fs] =>
      pose proof (books_map g fs ltac:(intros; split; reflexivity)) as H1
  end.
  destruct (Qlt_le_dec 0 _);
    (eapply books_trans; [exact H1|]); apply books_map; intros; split; reflexivity.
Qed.

Lemma desired_labors_inv (fs : list FirmAgent.t) (ds : list Z) :
  MarketMechanism.desired_labors fs = inr ds ->
  Forall2 (fun f d => FirmAgent.desired_labor f = Some d) fs ds.
Proof.
  revert ds. induction fs as [|f fs IH]; intros ds H; simpl in H.
  - injection H as <-. constructor.
  - destruct (FirmAgent.desired_labor f) as [d|] eqn:E; [|discriminate]. simpl in H.
    destruct (MarketMechanism.desired_labors fs) as [e|ds']; [discriminate|].
    injection H as <-. constructor; [exact E|]. apply IH. reflexivity.
Qed.

Lemma sumZ_nonneg (ds : list Z) : Forall (fun d => (0 <= d)%Z) ds -> (0 <= Py.sumZ ds)%Z.
Proof. induction 1; simpl; [lia|]. unfold Py.sumZ in *. simpl. lia. Qed.

(** A firm that decides with non-negative capital, and no shock
    multiplier in the conditions, does not ask for negative labor. *)
Lemma step_desired_labor_nonneg (mc : FirmAgent.MarketConditions) (f : FirmAgent.t) :
  FirmAgent.shock_multiplier mc = None ->
  0 <= FirmAgent.capital f ->
  snd (FirmAgent.step mc f) = inr tt ->
  exists d, FirmAgent.desired_labor (fst (FirmAgent.step mc f)) = Some d /\ (0 <= d)%Z.
Proof.
  intros Hsm Hcap. unfold FirmAgent.step.
  destruct (negb (FirmAgent.alive f)); [intros _; exists 0%Z; split; [reflexivity|lia]|].
  unfold FirmAgent.labor_required, FirmAgent.expected_demand, Py.div. rewrite Hsm.
  destruct (Qeq_bool (FirmAgent.productivity f) 0) eqn:Ep; [discriminate|].
  intros _. simpl. eexists. split; [reflexivity|].
  apply Qeq_bool_neq in Ep.
  apply Z.min_glb.
  - apply int_nonneg.
    assert (E : Py.max (FirmAgent.demand mc) 100 * 1 * FirmAgent.productivity f
                / FirmAgent.productivity f == Py.max (FirmAgent.demand mc) 100)
      by (field; exact Ep).
    simpl default. rewrite E. pose proof (max_ge_r (FirmAgent.demand mc) 100). lra.
  - apply int_nonneg. apply Qle_shift_div_l.
    + pose proof (max_ge_r (FirmAgent.wage mc) 1). lra.
    + lra.
Qed.

Lemma lend_returns_capital (m : MarketMechanism.t) (r : Q) (f : FirmAgent.t) :
  FirmAgent.debt f = None -> snd (MarketMechanism.lend m r f) = inr tt ->
  0 <= FirmAgent.capital f.
Proof.
  intros Hd Hok. destruct (Qlt_le_dec (FirmAgent.capital f) 0) as [Hneg|Hpos]; [|exact Hpos].
  apply (lend_without_debt m r f Hd) in Hneg. congruence.
Qed.

Lemma check_collapse_state (econ : EconomicState.t) :
  fst (BlackSwanEnv._check_collapse econ) = econ
  \/ fst (BlackSwanEnv._check_collapse econ)
     = EconomicState.set_regime EconomicState.collapsed econ.
Proof.
  unfold BlackSwanEnv._check_collapse.
  repeat match goal with
         | |- context [if ?b then _ else _] => destruct b
         end; auto.
Qed.

Lemma unemployment_rate_bounds (supply demand : Z) :
  (0 < supply)%Z -> (0 <= demand)%Z ->
  in_unit_interval (1 - inject_Z (Z.min supply demand) / inject_Z supply).
Proof.
  intros Hs Hd. unfold in_unit_interval.
  assert (Hs' : 0 < inject_Z supply)
    by (change 0 with (inject_Z 0); rewrite <- Zlt_Qlt; exact Hs).
  assert (H0 : 0 <= inject_Z (Z.min supply demand) / inject_Z supply).
  { apply Qle_shift_div_l; [exact Hs'|]. rewrite Qmult_0_l.
    change 0 with (inject_Z 0). rewrite <- Zle_Qle. lia. }
  assert (H1 : inject_Z (Z.min supply demand) / inject_Z supply <= 1).
  { apply Qle_shift_div_r; [exact Hs'|]. rewrite Qmult_1_l.
    rewrite <- Zle_Qle. lia. }
  split; lra.
Qed.

Lemma update_macros_indicators (u z : Q) (hs : list HouseholdAgent.t)
    (fs : list FirmAgent.t) (econ econ' : EconomicState.t) :
  BlackSwanEnv._update_macros u z hs fs econ = (econ', inr tt) ->
  EconomicState.inflation econ'
  = Py.clip (EconomicState.inflation econ + (1 # 100) * z) 0 1
  /\ EconomicState.unemployment econ' = u
  /\ EconomicState.gini_coeff econ'
     = InequalityMetrics.calculate_gini (map HouseholdAgent.wealth hs)
  /\ EconomicState.avg_unrest econ' = Py.mean (map HouseholdAgent.unrest hs)
  /\ EconomicState.top1_wealth_share econ'
     = InequalityMetrics.calculate_wealth_share (map HouseholdAgent.wealth hs) (1 # 100).
Proof.
  unfold BlackSwanEnv._update_macros.
  destruct (BlackSwanEnv.revenues fs) as [e|rs]; [discriminate|].
  intros H. injection H as <-. unfold EconomicState.update_growth.
  match goal with |- context [Qlt_le_dec ?p ?q] => destruct (Qlt_le_dec p q) end;
    repeat split.
Qed.

Lemma check_collapse_indicators (econ : EconomicState.t) :
  indicators_bounded econ -> indicators_bounded (fst (BlackSwanEnv._check_collapse econ)).
Proof.
  intros H. destruct (check_collapse_state econ) as [-> | ->]; exact H.
Qed.

(** A step that returns from a state whose firms have no [debt] attribute
    ends with the five indicators in [0, 1].  The step has returned, so
    the credit market has found no firm with negative capital; the capital
    is what the firms decided with, so none has asked for negative labor,
    and the unemployment rate of the labor clearing is a proportion. *)
Lemma step_indicators_bounded (tanh : Q -> Q) (d : BlackSwanEnv.Draws)
    (a : EconomicState.Action) (env env' : BlackSwanEnv.t)
    (r : BlackSwanEnv.StepResult) :
  Forall (fun f => FirmAgent.debt f = None) (BlackSwanEnv.firms env) ->
  BlackSwanEnv.step tanh d a env = (env', inr r) ->
  indicators_bounded (GlobalState.economics (BlackSwanEnv.state env')).
Proof.
  intros Hnd Hstep.
  destruct (step_inv _ _ _ _ _ _ Hstep)
    as (sh & econ0 & hs0 & fs0 & econ & gov & fs1 & hs1 & upd & hs2 & hs3 & fs2
        & wage & unemp & fs4 & rate & fs5 & fs6 & econ7 & gov8
        & E1 & -> & -> & E3 & -> & E5 & E5' & E6 & Hfs4 & E6' & E6'' & E7 & E8
        & -> & _).
  (* the firms *)
  assert (Hnd0 : Forall (fun f => FirmAgent.debt f = None) fs0).
  { pose proof (maybe_trigger_passes (fun f => FirmAgent.debt f = None)
                  ltac:(auto) ltac:(auto) (BlackSwanEnv.random d)
                  (BlackSwanEnv.shocks env)
                  (GlobalState.economics (BlackSwanEnv.state env),
                   BlackSwanEnv.households env, BlackSwanEnv.firms env)) as Hp.
    rewrite E1 in Hp. eapply passes_Forall; [exact Hp|exact Hnd]. }
  destruct (for_each_ok _ _ _ E3) as [Hfs1 Hok1].
  destruct (clear_labor_market_inv _ _ _ _ _ _ _ _ _ E6)
    as (ds & Hds & Hne & _ & Hun & Hhs3 & Hstaff).
  destruct (for_each_ok _ _ _ Hstaff) as [Hfs2 _].
  unfold MarketMechanism.clear_credit_market in E6'.
  cbn [GovernmentAgent.current_interest_rate] in E6'.
  destruct (Py.for_each (MarketMechanism.lend _ _) _) as [fs5' [e|[]]] eqn:Elend;
    [discriminate|].
  destruct (for_each_ok _ _ _ Elend) as [_ Hlend]. clear E6' Elend.
  assert (Hbooks : Forall2 same_books fs0 fs4).
  { rewrite Hfs4. eapply books_trans; [|apply goods_market_books].
    eapply books_trans; [|apply books_map; intros; split; reflexivity].
    rewrite Hfs2. eapply books_trans; [|apply books_map; intros; apply staff_books].
    rewrite Hfs1. apply books_map. intros. apply step_books. }
  assert (Hcap : Forall (fun f => 0 <= FirmAgent.capital f) fs0).
  { clear - Hbooks Hnd0 Hlend.
    induction Hbooks as [|x y l l' [Hc Hd] _ IH]; [constructor|].
    apply Forall_cons in Hnd0 as [Hx Hl]. apply Forall_cons in Hlend as [Hy Hl'].
    constructor; [|apply IH; assumption].
    rewrite <- Hc. eapply lend_returns_capital; [|exact Hy]. congruence. }
  assert (Hdemand : (0 <= Py.sumZ ds)%Z).
  { apply sumZ_nonneg. apply desired_labors_inv in Hds. rewrite Hfs1 in Hds.
    clear - Hds Hcap Hok1. revert ds Hds.
    induction fs0 as [|f fs0 IH]; intros ds Hds; simpl in Hds;
      inversion Hds as [|f' d' l l' Hd Hrest]; subst; [constructor|].
    apply Forall_cons in Hcap as [Hc Hcap]. apply Forall_cons in Hok1 as [Hok Hok1].
    constructor; [|apply IH; assumption].
    destruct (step_desired_labor_nonneg
                (BlackSwanEnv.conditions env (EconomicState.apply_policy a econ0))
                f eq_refl Hc Hok) as (d0 & Hd0 & Hpos).
    congruence. }
  assert (Hsupply : (0 < Z.of_nat (length hs2))%Z)
    by (destruct hs2; [contradiction|simpl; lia]).
  (* the households *)
  destruct (take_unrest_bounded upd _ _ (spread_influence_bounded _ _ _ _ E5) E5')
    as [_ Hunrest2].
  destruct (labor_market_keeps_unrest _ _ _ _ _ _ _ _ _ in_unit_interval E6 Hunrest2)
    as [Hne3 Hunrest3].
  (* the aggregates *)
  destruct (update_macros_indicators _ _ _ _ _ _ E7) as (Hi & Hu & Hg & Ha & Ht).
  simpl. apply check_collapse_indicators. unfold indicators_bounded.
  rewrite Hi, Hu, Hg, Ha, Ht.
  split; [|split; [|split; [|split]]].
  - unfold in_unit_interval. apply clip_bounds. lra.
  - rewrite Hun. apply unemployment_rate_bounds; assumption.
  - apply calculate_gini_bounds.
  - apply mean_bounds; [destruct hs3; [contradiction|discriminate]|].
    apply List.Forall_map. exact Hunrest3.
  - apply calculate_wealth_share_bounds.
Qed.

(** C6: in every state that a step of a reachable environment returns,
    inflation, unemployment, the Gini coefficient, the average unrest and
    the top-1% wealth share lie in [0, 1], whatever the active shocks have
    added to them earlier in the step. *)
Theorem C6_indicators_bounded_at_step_boundary (tanh : Q -> Q)
    (d : BlackSwanEnv.Draws) (a : EconomicState.Action)
    (env env' : BlackSwanEnv.t) (r : BlackSwanEnv.StepResult) :
  reachable tanh env ->
  BlackSwanEnv.step tanh d a env = (env', inr r) ->
  indicators_bounded (GlobalState.economics (BlackSwanEnv.state env')).
Proof.
  intros Hreach Hstep.
  eapply step_indicators_bounded; [|exact Hstep].
  apply (reachable_no_debt tanh). exact Hreach.
Qed.

Lemma C6_indicators_bounded_witness :
  reachable Demo.tanh_approx Demo.pandemic_env
  /\ Demo.after_pandemic_step
     = (fst Demo.after_pandemic_step, inr (Demo.result_of Demo.after_pandemic_step))
  /\ indicators_bounded
       (GlobalState.economics (BlackSwanEnv.state (fst Demo.after_pandemic_step))).
Proof.
  assert (Hreach : reachable Demo.tanh_approx Demo.pandemic_env).
  { exists 500%Z, MarketMechanism.default, Demo.graph, ShockManager.default_shock_probs,
      [(HouseholdAgent.poor, 50); (HouseholdAgent.working, 100);
       (HouseholdAgent.middle, 300); (HouseholdAgent.elite, 1000)],
      [FirmAgent.startup; FirmAgent.sme].
    apply follows_add_shock, follows_reset, follows_refl. }
  assert (Hstep : Demo.after_pandemic_step
            = (fst Demo.after_pandemic_step,
               inr (Demo.result_of Demo.after_pandemic_step)))
    by (vm_compute; reflexivity).
  split; [exact Hreach|]. split; [exact Hstep|].
  apply (C6_indicators_bounded_at_step_boundary Demo.tanh_approx Demo.calm Demo.action
           Demo.pandemic_env _ _ Hreach Hstep).
Defined.

(** The pandemic of the witness has taken the unemployment rate to 2.5
    before the markets clear: the shock's increment is not clipped. *)
Lemma pandemic_increment_is_unclipped :
  let w := ShockManager._apply_shock
             (ShockManager.mkShock "pandemic" (5 # 10) 10 0)
             (EconomicState.default, [], []) in
  EconomicState.unemployment (fst (fst w)) == 25 # 10.
Proof. vm_compute. reflexivity. Qed.

(** ** The Gini coefficient when the incomes sum to zero *)

Lemma insert_sorted_Permutation (x : Q) (l : list Q) :
  InequalityMetrics.insert_sorted x l ≡ₚ x :: l.
Proof.
  induction l as [|y l IH]; simpl; [reflexivity|].
  destruct (Qle_bool x y); [reflexivity|].
  rewrite IH. apply Permutation_swap.
Qed.

Lemma np_sort_Permutation (l : list Q) : InequalityMetrics.np_sort l ≡ₚ l.
Proof.
  induction l as [|x l IH]; [reflexivity|].
  unfold InequalityMetrics.np_sort in *. simpl.
  rewrite insert_sorted_Permutation, IH. reflexivity.
Qed.

(** The numerator, from the place after [k] elements of [n] on, is at
    least what it would be if all the remaining incomes were the least of
    them, plus the distance from the least to any of them. *)
Lemma weighted_sum_lower (n : Z) (s : list Q) :
  forall (k : Z) (x : Q),
    (0 <= k)%Z -> n = (k + Z.of_nat (length (x :: s)))%Z ->
    ascending (x :: s) ->
    forall z, z ∈ x :: s ->
      x * inject_Z (Z.of_nat (length (x :: s))) * inject_Z k + (z - x)
      <= InequalityMetrics.weighted_sum n (k + 1) (x :: s).
Proof.
  induction s as [|y s IH]; intros k x Hk Hn [Hx Hs] z Hz.
  - apply elem_of_cons in Hz as [->|Hz]; [|inversion Hz]. simpl in *.
    replace (2 * (k + 1) - n - 1)%Z with k by lia.
    apply Qle_lteq. right. ring.
  - assert (Hxy : x <= y) by (apply Forall_cons in Hx as [H _]; exact H).
    change (InequalityMetrics.weighted_sum n (k + 1) (x :: y :: s))
      with (inject_Z (2 * (k + 1) - n - 1) * x
            + InequalityMetrics.weighted_sum n (k + 1 + 1) (y :: s)).
    set (r := Z.of_nat (length (y :: s))) in *.
    assert (Hr : (1 <= r)%Z) by (unfold r; simpl; lia).
    assert (Hlen : Z.of_nat (length (x :: y :: s)) = (r + 1)%Z)
      by (unfold r; simpl length; lia).
    rewrite Hlen in *.
    replace (2 * (k + 1) - n - 1)%Z with (k - r)%Z by lia.
    assert (IH' := IH (k + 1)%Z y ltac:(lia) ltac:(fold r; lia) Hs).
    fold r in IH'.
    assert (EK : inject_Z (k + 1) == inject_Z k + 1)
      by (rewrite inject_Z_plus; reflexivity).
    assert (ER : inject_Z (r + 1) == inject_Z r + 1)
      by (rewrite inject_Z_plus; reflexivity).
    assert (EKR : inject_Z (k - r) == inject_Z k - inject_Z r)
      by (unfold Z.sub; rewrite inject_Z_plus, inject_Z_opp; reflexivity).
    assert (HK : 0 <= inject_Z k)
      by (change 0 with (inject_Z 0); rewrite <- Zle_Qle; exact Hk).
    assert (HR : 1 <= inject_Z r)
      by (change 1 with (inject_Z 1); rewrite <- Zle_Qle; exact Hr).
    rewrite ER, EKR.
    set (K := inject_Z k) in *. set (R := inject_Z r) in *.
    apply elem_of_cons in Hz as [->|Hz].
    + specialize (IH' y ltac:(left)). rewrite EK in IH'.
      assert (Hprod : 0 <= (y - x) * (R * (K + 1))).
      { apply Qmult_le_0_compat; [lra|]. apply Qmult_le_0_compat; lra. }
      nra.
    + specialize (IH' z Hz). rewrite EK in IH'.
      assert (Hprod : 0 <= (y - x) * (R * (K + 1) - 1)).
      { apply Qmult_le_0_compat; [lra|].
        assert (0 <= (R - 1) * (K + 1)) by (apply Qmult_le_0_compat; lra).
        nra. }
      nra.
Qed.

(** When [calculate_gini] divides by zero, the numerator is positive: the
    numpy quotient is the positive infinity, which the clip takes to 1. *)
Lemma gini_numerator_pos (incomes : list Q) :
  forallb (fun x => Qeq_bool x 0) incomes = false ->
  let s := InequalityMetrics.np_sort incomes in
  let n := Z.of_nat (length s) in
  inject_Z n * Py.sum s == 0 ->
  0 < InequalityMetrics.weighted_sum n 1 s.
Proof.
  intros Hnz s n Hden.
  assert (Hperm : s ≡ₚ incomes) by apply np_sort_Permutation.
  assert (Hasc : ascending s) by apply np_sort_ascending.
  destruct (Qlt_le_dec 0 (InequalityMetrics.weighted_sum n 1 s)) as [Hpos|Hle];
    [exact Hpos|exfalso].
  destruct s as [|x s'] eqn:Es.
  { apply Permutation_nil_l in Hperm. subst incomes. discriminate. }
  assert (Hlow : forall z, z ∈ x :: s' -> z <= x).
  { intros z Hz.
    pose proof (weighted_sum_lower n s' 0 x ltac:(lia) ltac:(unfold n; lia) Hasc z Hz) as H.
    change (0 + 1)%Z with 1%Z in H. change (inject_Z 0) with 0 in H.
    rewrite Qmult_0_r, Qplus_0_l in H. lra. }
  assert (Hall : Forall (fun z => x <= z <= x) (x :: s')).
  { apply Forall_forall. intros z Hz. split; [|apply Hlow; exact Hz].
    destruct Hasc as [Hx _]. apply elem_of_cons in Hz as [->|Hz]; [lra|].
    rewrite Forall_forall in Hx. apply Hx. exact Hz. }
  destruct (sum_bounds _ _ _ Hall) as [H1 H2]. fold n in H1, H2.
  assert (Hn : 0 < inject_Z n).
  { change 0 with (inject_Z 0). rewrite <- Zlt_Qlt. unfold n. simpl. lia. }
  assert (Hsum : Py.sum (x :: s') == 0).
  { apply Qmult_integral in Hden as [Hd|Hd]; [lra|exact Hd]. }
  assert (Hx0 : x == 0).
  { assert (inject_Z n * x == 0) by lra.
    apply Qmult_integral in H as [H|H]; [lra|exact H]. }
  assert (Hzero : forallb (fun x => Qeq_bool x 0) incomes = true).
  { apply forallb_forall. intros z Hz. apply Qeq_bool_iff.
    apply list_elem_of_In in Hz. rewrite <- Hperm in Hz.
    rewrite Forall_forall in Hall. specialize (Hall z Hz). lra. }
  congruence.
Qed.

(** * Further properties of the code *)

(** ** The firm's decision *)

Lemma int_le (x : Q) : 0 <= x -> inject_Z (Py.int x) <= x.
Proof.
  intros H. unfold Py.int, Qle, inject_Z. simpl.
  assert (Hn : (0 <= Qnum x)%Z) by (unfold Qle in H; simpl in H; lia).
  pose proof (Z.mul_quot_le (Qnum x) (Zpos (Qden x)) Hn ltac:(lia)). lia.
Qed.

(** X2: a living firm never asks for more labor than it requires, and
    with non-negative capital never for more than it can pay: the desired
    labor at the quoted wage (at least 1 per worker) costs at most the
    capital. *)
Theorem step_desired_labor_is_affordable
    (mc : FirmAgent.MarketConditions) (f : FirmAgent.t) :
  FirmAgent.alive f = true ->
  snd (FirmAgent.step mc f) = inr tt ->
  exists d lr,
    FirmAgent.desired_labor (fst (FirmAgent.step mc f)) = Some d
    /\ FirmAgent.labor_required mc f = inr lr
    /\ (d <= lr)%Z
    /\ (0 <= FirmAgent.capital f ->
        inject_Z d * Py.max (FirmAgent.wage mc) 1 <= FirmAgent.capital f).
Proof.
  intros Ha. unfold FirmAgent.step. rewrite Ha. simpl negb. cbv iota.
  destruct (FirmAgent.labor_required mc f) as [e|lr]; [discriminate|].
  intros _. simpl. eexists. exists lr. split; [reflexivity|]. split; [reflexivity|].
  split; [apply Z.le_min_l|].
  intros Hc.
  set (w := Py.max (FirmAgent.wage mc) 1).
  assert (Hw : 0 < w) by (pose proof (max_ge_r (FirmAgent.wage mc) 1); unfold w; lra).
  set (b := FirmAgent.capital f / w).
  assert (Hb : 0 <= b) by (apply Qle_shift_div_l; [exact Hw|lra]).
  assert (Hd : inject_Z (Z.min lr (Py.int b)) <= b).
  { eapply Qle_trans; [|apply int_le; exact Hb].
    rewrite <- Zle_Qle. apply Z.le_min_r. }
  assert (E : b * w == FirmAgent.capital f) by (unfold b; field; lra).
  rewrite <- E. apply Qmult_le_compat_r; [exact Hd|lra].
Qed.

Lemma step_desired_labor_is_affordable_witness :
  FirmAgent.alive Scenario1.firm = true
  /\ exists d lr,
       FirmAgent.desired_labor
         (fst (FirmAgent.step Scenario1.market_conditions Scenario1.firm)) = Some d
       /\ FirmAgent.labor_required Scenario1.market_conditions Scenario1.firm = inr lr
       /\ (d <= lr)%Z.
Proof.
  split; [reflexivity|].
  destruct (step_desired_labor_is_affordable Scenario1.market_conditions Scenario1.firm
              eq_refl eq_refl) as (d & lr & H1 & H2 & H3 & _).
  exists d, lr. auto.
Defined.

(** ** The labor market's accounts *)

Lemma int_div_Z (a b : Z) : (0 < b)%Z -> Py.int (inject_Z a / inject_Z b) = (a ÷ b)%Z.
Proof.
  intros Hb. destruct b as [|p|p]; try lia.
  unfold Py.int, Qdiv, Qmult, Qinv, inject_Z. simpl.
  rewrite Z.mul_1_r. reflexivity.
Qed.

Lemma staff_employees (e demand d : Z) (w : Q) (f : FirmAgent.t) :
  FirmAgent.desired_labor f = Some d ->
  FirmAgent.employees (fst (MarketMechanism.staff e demand w f))
  = ((d * e) ÷ Z.max demand 1)%Z
  /\ FirmAgent.wage_bill (fst (MarketMechanism.staff e demand w f))
     = Some (inject_Z ((d * e) ÷ Z.max demand 1) * w)
  /\ FirmAgent.desired_labor (fst (MarketMechanism.staff e demand w f)) = Some d.
Proof.
  intros Hd. unfold MarketMechanism.staff. rewrite Hd. simpl.
  rewrite int_div_Z by lia. repeat split. exact Hd.
Qed.

(** X3: when the firms together want at least one worker and no more
    than there are households, the labor market gives every firm exactly
    the labor it desired and bills it that labor at the wage, and the
    unemployment rate is 1 - demand / supply. *)
Theorem labor_market_meets_demand_within_supply
    (tanh : Q -> Q) (m : MarketMechanism.t) (interval : nat -> nat)
    (hs hs' : list HouseholdAgent.t) (fs fs' : list FirmAgent.t)
    (ds : list Z) (wage u : Q) :
  MarketMechanism.clear_labor_market tanh m interval hs fs = ((hs', fs'), inr (wage, u)) ->
  MarketMechanism.desired_labors fs = inr ds ->
  (1 <= Py.sumZ ds <= Z.of_nat (length hs))%Z ->
  Forall2 (fun f f' =>
             exists d, FirmAgent.desired_labor f = Some d
                       /\ FirmAgent.employees f' = d
                       /\ FirmAgent.wage_bill f' = Some (inject_Z d * wage))
          fs fs'
  /\ u = 1 - inject_Z (Py.sumZ ds) / inject_Z (Z.of_nat (length hs)).
Proof.
  intros H Hds [Hlo Hhi].
  destruct (clear_labor_market_inv _ _ _ _ _ _ _ _ _ H)
    as (ds' & Hds' & _ & _ & Hu & _ & Hstaff).
  rewrite Hds in Hds'. injection Hds' as <-.
  rewrite Z.min_r in Hu, Hstaff by exact Hhi. split; [|exact Hu].
  apply for_each_ok in Hstaff as [-> _].
  apply desired_labors_inv in Hds. revert Hlo. generalize (Py.sumZ ds) as D.
  intros D HD. clear - Hds HD.
  induction Hds as [|f d fs ds Hd _ IH]; simpl; constructor; [|exact IH].
  exists d. destruct (staff_employees D D d wage f Hd) as (He & Hw & _).
  rewrite Z.max_l in He, Hw by lia. rewrite Z.quot_mul in He, Hw by lia.
  auto.
Qed.

Lemma labor_market_meets_demand_within_supply_witness :
  exists hs' fs' wage u,
    FullStaffing.cleared = ((hs', fs'), inr (wage, u))
    /\ Forall2 (fun f f' =>
                  exists d, FirmAgent.desired_labor f = Some d
                            /\ FirmAgent.employees f' = d
                            /\ FirmAgent.wage_bill f' = Some (inject_Z d * wage))
               [FullStaffing.firm] fs'.
Proof.
  assert (H : FullStaffing.cleared
              = ((fst (fst FullStaffing.cleared), snd (fst FullStaffing.cleared)),
                 inr (fst FullStaffing.outcome, snd FullStaffing.outcome)))
    by (vm_compute; reflexivity).
  eexists _, _, _, _. split; [exact H|].
  apply (labor_market_meets_demand_within_supply Demo.tanh_approx
           MarketMechanism.default (fun i => i) Bankruptcy.households _
           [FullStaffing.firm] _ [20%Z] _ _ H); [reflexivity|simpl; lia].
Defined.

Lemma staff_total (e D : Z) (w : Q) (fs : list FirmAgent.t) (ds : list Z) :
  Forall2 (fun f d => FirmAgent.desired_labor f = Some d) fs ds ->
  Forall (fun d => (0 <= d)%Z) ds ->
  (0 <= e)%Z ->
  let fs' := map (fun f => fst (MarketMechanism.staff e D w f)) fs in
  (0 <= Py.sumZ (map FirmAgent.employees fs'))%Z
  /\ (Py.sumZ (map FirmAgent.employees fs') * Z.max D 1 <= Py.sumZ ds * e)%Z.
Proof.
  intros Hds Hpos He. cbv zeta.
  induction Hds as [|f d fs ds Hd _ IH]; [simpl; lia|].
  inversion Hpos as [|? ? Hd0 Hpos']; subst.
  destruct (IH Hpos') as [IH0 IH1].
  destruct (staff_employees e D d w f Hd) as (Hemp & _).
  change (Py.sumZ (map FirmAgent.employees
             (map (λ f, fst (MarketMechanism.staff e D w f)) (f :: fs))))
    with (FirmAgent.employees (fst (MarketMechanism.staff e D w f))
          + Py.sumZ (map FirmAgent.employees
              (map (λ f, fst (MarketMechanism.staff e D w f)) fs)))%Z.
  change (Py.sumZ (d :: ds)) with (d + Py.sumZ ds)%Z.
  rewrite Hemp.
  assert (0 <= (d * e) ÷ Z.max D 1)%Z by (apply Z.quot_pos; nia).
  assert (Z.max D 1 * ((d * e) ÷ Z.max D 1) <= d * e)%Z
    by (apply Z.mul_quot_le; nia).
  split; nia.
Qed.

Lemma filter_hired (w : Q) (l : list HouseholdAgent.t) :
  List.filter is_employed (map (hired w) l) = map (hired w) l.
Proof. induction l as [|h l IH]; simpl; [reflexivity|]. rewrite IH. reflexivity. Qed.

Lemma filter_dismissed (l : list HouseholdAgent.t) :
  List.filter is_employed (map dismissed l) = [].
Proof. induction l as [|h l IH]; simpl; [reflexivity|exact IH]. Qed.

Lemma ratio_in_unit (a b : Z) :
  (0 <= a <= b)%Z -> (0 < b)%Z -> 0 <= inject_Z a / inject_Z b <= 1.
Proof.
  intros [H0 H1] Hb.
  assert (Hb' : 0 < inject_Z b) by (change 0 with (inject_Z 0); rewrite <- Zlt_Qlt; exact Hb).
  split.
  - apply Qle_shift_div_l; [exact Hb'|]. rewrite Qmult_0_l.
    change 0 with (inject_Z 0). rewrite <- Zle_Qle. exact H0.
  - apply Qle_shift_div_r; [exact Hb'|]. rewrite Qmult_1_l.
    rewrite <- Zle_Qle. exact H1.
Qed.

(** X4: when no firm desires negative labor, the labor market employs
    exactly min(supply, demand) households, the firms together are given
    no more workers than that, and the unemployment rate it returns is
    in [0, 1]. *)
Theorem labor_market_employs_min_of_supply_and_demand
    (tanh : Q -> Q) (m : MarketMechanism.t) (interval : nat -> nat)
    (hs hs' : list HouseholdAgent.t) (fs fs' : list FirmAgent.t) (wage u : Q) :
  MarketMechanism.clear_labor_market tanh m interval hs fs = ((hs', fs'), inr (wage, u)) ->
  Forall (fun f => exists d, FirmAgent.desired_labor f = Some d /\ (0 <= d)%Z) fs ->
  exists ds,
    MarketMechanism.desired_labors fs = inr ds
    /\ Z.of_nat (length (List.filter is_employed hs'))
       = Z.min (Z.of_nat (length hs)) (Py.sumZ ds)
    /\ length hs' = length hs
    /\ (0 <= Py.sumZ (map FirmAgent.employees fs')
        <= Z.min (Z.of_nat (length hs)) (Py.sumZ ds))%Z
    /\ 0 <= u <= 1.
Proof.
  intros H Hfs.
  destruct (clear_labor_market_inv _ _ _ _ _ _ _ _ _ H)
    as (ds & Hds & Hne & _ & Hu & Hhs & Hstaff).
  exists ds. split; [exact Hds|].
  pose proof (desired_labors_inv _ _ Hds) as Hrel.
  assert (Hpos : Forall (fun d => (0 <= d)%Z) ds).
  { clear - Hrel Hfs. induction Hrel as [|f d fs ds Hd _ IH]; constructor.
    - inversion Hfs as [|? ? (d' & Hd' & H0) _]; subst. congruence.
    - apply IH. inversion Hfs; assumption. }
  pose proof (sumZ_nonneg _ Hpos) as HD.
  assert (Hlen : (0 < Z.of_nat (length hs))%Z) by (destruct hs; [congruence|simpl; lia]).
  set (e := Z.min (Z.of_nat (length hs)) (Py.sumZ ds)) in *.
  assert (He : (0 <= e <= Z.of_nat (length hs))%Z) by (unfold e; lia).
  assert (Hk : Py.slice_len (length hs) e = Z.to_nat e).
  { unfold Py.slice_len. destruct (0 <=? e)%Z eqn:E; [lia|]. apply Z.leb_gt in E. lia. }
  rewrite Hk in Hhs.
  assert (Hsh : length (Py.shuffle interval hs) = length hs)
    by (apply Permutation_length, shuffle_Permutation).
  split; [|split; [|split]].
  - rewrite Hhs, List.filter_app, filter_hired, filter_dismissed, app_nil_r.
    rewrite List.length_map, length_take, Hsh. lia.
  - rewrite Hhs, length_app, !List.length_map, length_take, length_drop, Hsh. lia.
  - apply for_each_ok in Hstaff as [-> _].
    destruct (staff_total e (Py.sumZ ds) wage fs ds Hrel Hpos (proj1 He)) as [H0 H1].
    split; [exact H0|]. unfold e in *. nia.
  - rewrite Hu. destruct (ratio_in_unit e (Z.of_nat (length hs)) He Hlen). lra.
Qed.

Lemma labor_market_employs_min_of_supply_and_demand_witness :
  exists ds,
    MarketMechanism.desired_labors [FullStaffing.firm] = inr ds
    /\ Z.of_nat (length (List.filter is_employed (fst (fst FullStaffing.cleared))))
       = Z.min (Z.of_nat (length Bankruptcy.households)) (Py.sumZ ds)
    /\ length (fst (fst FullStaffing.cleared)) = length Bankruptcy.households
    /\ (0 <= Py.sumZ (map FirmAgent.employees (snd (fst FullStaffing.cleared)))
        <= Z.min (Z.of_nat (length Bankruptcy.households)) (Py.sumZ ds))%Z
    /\ 0 <= snd FullStaffing.outcome <= 1.
Proof.
  apply (labor_market_employs_min_of_supply_and_demand Demo.tanh_approx
           MarketMechanism.default (fun i => i) Bankruptcy.households _
           [FullStaffing.firm] _ (fst FullStaffing.outcome)).
  - vm_compute; reflexivity.
  - constructor; [|constructor]. exists 20%Z. split; [reflexivity|lia].
Defined.

(** ** Wages and prices *)

Lemma tanh_approx_bounded : bounded_by_one Demo.tanh_approx.
Proof.
  intros x. unfold Demo.tanh_approx. rewrite Qred_correct.
  pose proof (Qabs_nonneg x) as H0.
  pose proof (Qle_Qabs x) as H1.
  pose proof (Qle_Qabs (- x)) as H2. rewrite Qabs_opp in H2.
  assert (Hpos : 0 < 1 + Qabs x) by lra.
  split.
  - apply Qle_shift_div_l; [exact Hpos|]. lra.
  - apply Qle_shift_div_r; [exact Hpos|]. lra.
Qed.

(** X5: with a non-negative base wage and adjustment, the wage the labor
    market returns stays within the adjustment of the base wage:
    base * (1 - adj) <= wage <= base * (1 + adj), whatever the excess
    demand. *)
Theorem labor_market_wage_within_adjustment
    (tanh : Q -> Q) (m : MarketMechanism.t) (interval : nat -> nat)
    (hs hs' : list HouseholdAgent.t) (fs fs' : list FirmAgent.t) (wage u : Q) :
  bounded_by_one tanh ->
  0 <= MarketMechanism.base_wage m ->
  0 <= MarketMechanism.wage_adjustment m ->
  MarketMechanism.clear_labor_market tanh m interval hs fs = ((hs', fs'), inr (wage, u)) ->
  MarketMechanism.base_wage m * (1 - MarketMechanism.wage_adjustment m) <= wage
  /\ wage <= MarketMechanism.base_wage m * (1 + MarketMechanism.wage_adjustment m).
Proof.
  intros Ht Hb Ha H.
  destruct (clear_labor_market_inv _ _ _ _ _ _ _ _ _ H) as (ds & _ & _ & Hw & _).
  rewrite Hw.
  match goal with
  | |- context [tanh ?x] => destruct (Ht x) as [Hlo Hhi]; set (t := tanh x) in *
  end.
  set (b := MarketMechanism.base_wage m) in *.
  set (a := MarketMechanism.wage_adjustment m) in *.
  assert (H1 : 0 <= b * (a * (t + 1)))
    by (apply Qmult_le_0_compat; [exact Hb|apply Qmult_le_0_compat; lra]).
  assert (H2 : 0 <= b * (a * (1 - t)))
    by (apply Qmult_le_0_compat; [exact Hb|apply Qmult_le_0_compat; lra]).
  split; lra.
Qed.

Lemma labor_market_wage_within_adjustment_witness :
  50 * (1 - (1 # 10)) <= fst FullStaffing.outcome
  /\ fst FullStaffing.outcome <= 50 * (1 + (1 # 10)).
Proof.
  apply (labor_market_wage_within_adjustment Demo.tanh_approx MarketMechanism.default
           (fun i => i) Bankruptcy.households (fst (fst FullStaffing.cleared))
           [FullStaffing.firm] (snd (fst FullStaffing.cleared))
           (fst FullStaffing.outcome) (snd FullStaffing.outcome)).
  - exact tanh_approx_bounded.
  - vm_compute; discriminate.
  - vm_compute; discriminate.
  - vm_compute; reflexivity.
Defined.

Lemma min_le_r (a b : Q) : Py.min a b <= b.
Proof. unfold Py.min. destruct (Qlt_le_dec b a); lra. Qed.

Lemma min_nonneg (a b : Q) : 0 <= a -> 0 <= b -> 0 <= Py.min a b.
Proof. unfold Py.min. destruct (Qlt_le_dec b a); lra. Qed.

Lemma min_of_le (a b : Q) : b <= a -> Py.min a b == b.
Proof. unfold Py.min. destruct (Qlt_le_dec b a); lra. Qed.

(** X6: in the goods market every firm's price is multiplied by the
    returned multiplier and its production is left alone.  Without
    positive total supply every firm's revenue is 0.  With positive
    supply and non-negative demand a firm with non-negative production
    and price earns at most its production at the new price, and
    exactly that when demand is at least supply. *)
Theorem goods_market_revenue_at_most_production_value
    (tanh : Q -> Q) (m : MarketMechanism.t)
    (hs : list HouseholdAgent.t) (fs : list FirmAgent.t) :
  let demand := Py.sum (map HouseholdAgent.consumption hs) in
  let supply := Py.sum (map FirmAgent.production fs) in
  let r := MarketMechanism.clear_goods_market tanh m hs fs in
  (supply <= 0 -> Forall (fun f' => FirmAgent.revenue f' = Some 0) (fst r))
  /\ (0 < supply -> 0 <= demand ->
      forall i f, fs !! i = Some f ->
        0 <= FirmAgent.production f -> 0 <= FirmAgent.price f * snd r ->
        exists f' rev,
          fst r !! i = Some f'
          /\ FirmAgent.price f' = FirmAgent.price f * snd r
          /\ FirmAgent.production f' = FirmAgent.production f
          /\ FirmAgent.revenue f' = Some rev
          /\ 0 <= rev <= FirmAgent.production f * FirmAgent.price f'
          /\ (supply <= demand -> rev == FirmAgent.production f * FirmAgent.price f')).
Proof.
  cbv zeta. unfold MarketMechanism.clear_goods_market. cbn [fst snd].
  set (D := Py.sum (map HouseholdAgent.consumption hs)).
  set (S := Py.sum (map FirmAgent.production fs)).
  set (pm := 1 + MarketMechanism.price_adjustment m * tanh ((D - S) / Py.max S 1)).
  destruct (Qlt_le_dec 0 S) as [Hpos|Hle]; split.
  - intros HS. lra.
  - intros _ HD i f Hi Hprod Hprice.
    rewrite List.map_map, lookup_map, Hi. cbn [fmap option_fmap option_map].
    eexists _, _. split; [reflexivity|].
    cbn [FirmAgent.price FirmAgent.production FirmAgent.revenue
         FirmAgent.set_revenue FirmAgent.set_price].
    split; [reflexivity|]. split; [reflexivity|]. split; [reflexivity|].
    set (p := FirmAgent.price f * pm) in *. set (q := FirmAgent.production f) in *.
    pose proof (min_le_r D S) as Hmin.
    pose proof (min_nonneg D S HD (Qlt_le_weak _ _ Hpos)) as Hmin0.
    assert (Hshare : 0 <= q / S) by (apply Qle_shift_div_l; lra).
    assert (HqS : q / S * S == q) by (field; lra).
    assert (H1 : 0 <= q / S * Py.min D S) by (apply Qmult_le_0_compat; assumption).
    assert (H2 : q / S * Py.min D S <= q).
    { rewrite <- HqS at 2. rewrite !(Qmult_comm (q / S)).
      apply Qmult_le_compat_r; assumption. }
    split; [split|].
    + apply Qmult_le_0_compat; assumption.
    + apply Qmult_le_compat_r; assumption.
    + intros HSD. rewrite (min_of_le D S HSD), HqS. reflexivity.
  - intros _. rewrite List.map_map. apply List.Forall_map.
    apply Forall_forall. intros; reflexivity.
  - intros HS. lra.
Qed.

Lemma goods_market_revenue_at_most_production_value_witness :
  exists f' rev,
    fst Goods.cleared !! 0%nat = Some f'
    /\ FirmAgent.price f' = FirmAgent.price Goods.firm * snd Goods.cleared
    /\ FirmAgent.production f' = FirmAgent.production Goods.firm
    /\ FirmAgent.revenue f' = Some rev
    /\ 0 <= rev <= FirmAgent.production Goods.firm * FirmAgent.price f'
    /\ (Py.sum (map FirmAgent.production [Goods.firm])
        <= Py.sum (map HouseholdAgent.consumption Goods.households) ->
        rev == FirmAgent.production Goods.firm * FirmAgent.price f').
Proof.
  apply (proj2 (goods_market_revenue_at_most_production_value Demo.tanh_approx
                  MarketMechanism.default Goods.households [Goods.firm])).
  - vm_compute; reflexivity.
  - vm_compute; discriminate.
  - reflexivity.
  - vm_compute; discriminate.
  - vm_compute; discriminate.
Defined.

(** X7: with a price adjustment in [0, 1) the multiplier the goods market
    returns lies in [1 - adj, 1 + adj], so positive prices stay
    positive. *)
Theorem goods_market_prices_stay_positive
    (tanh : Q -> Q) (m : MarketMechanism.t)
    (hs : list HouseholdAgent.t) (fs : list FirmAgent.t) :
  bounded_by_one tanh ->
  0 <= MarketMechanism.price_adjustment m < 1 ->
  Forall (fun f => 0 < FirmAgent.price f) fs ->
  let r := MarketMechanism.clear_goods_market tanh m hs fs in
  1 - MarketMechanism.price_adjustment m <= snd r
  /\ snd r <= 1 + MarketMechanism.price_adjustment m
  /\ Forall (fun f' => 0 < FirmAgent.price f') (fst r).
Proof.
  intros Ht [Ha0 Ha1] Hfs. cbv zeta.
  unfold MarketMechanism.clear_goods_market. cbn [fst snd].
  match goal with
  | |- context [tanh ?x] => destruct (Ht x) as [Hlo Hhi]; set (t := tanh x) in *
  end.
  set (a := MarketMechanism.price_adjustment m) in *.
  assert (H1 : 0 <= a * (t + 1)) by (apply Qmult_le_0_compat; lra).
  assert (H2 : 0 <= a * (1 - t)) by (apply Qmult_le_0_compat; lra).
  split; [lra|]. split; [lra|].
  assert (Hpm : 0 < 1 + a * t) by lra.
  assert (Hp : Forall (fun f' => 0 < FirmAgent.price f')
                 (map (fun f => FirmAgent.set_price (FirmAgent.price f * (1 + a * t)) f) fs)).
  { apply List.Forall_map. eapply Forall_impl; [exact Hfs|].
    intros f Hf. cbn [FirmAgent.price FirmAgent.set_price].
    apply Qmult_lt_0_compat; assumption. }
  destruct (Qlt_le_dec 0 _); apply List.Forall_map;
    (eapply Forall_impl; [exact Hp|]); intros f Hf; exact Hf.
Qed.

Lemma goods_market_prices_stay_positive_witness :
  1 - (1 # 10) <= snd Goods.cleared
  /\ snd Goods.cleared <= 1 + (1 # 10)
  /\ Forall (fun f' => 0 < FirmAgent.price f') (fst Goods.cleared).
Proof.
  apply (goods_market_prices_stay_positive Demo.tanh_approx MarketMechanism.default
           Goods.households [Goods.firm]).
  - exact tanh_approx_bounded.
  - split; vm_compute; [discriminate|reflexivity].
  - constructor; [vm_compute; reflexivity|constructor].
Defined.

(** ** The credit market *)

Lemma for_each_total {A} (body : Py.M A unit) (l : list A) :
  Forall (fun x => snd (body x) = inr tt) l ->
  Py.for_each body l = (map (fun x => fst (body x)) l, inr tt).
Proof.
  induction 1 as [|x xs Hx _ IH]; simpl; [reflexivity|].
  destruct (body x) as [x' [e|[]]]; simpl in *; [discriminate|].
  rewrite IH. reflexivity.
Qed.

Lemma min_compat (a a' b b' : Q) : a == a' -> b == b' -> Py.min a b == Py.min a' b'.
Proof.
  intros Ha Hb. unfold Py.min.
  destruct (Qlt_le_dec b a), (Qlt_le_dec b' a'); lra.
Qed.

(** X8: among firms that do not have the attribute [debt], which
    [__init__] never sets, a credit market that returns has lent nothing:
    no firm had negative capital, the firms are as they were, and the
    value returned is the government's interest rate. *)
Theorem credit_market_that_returns_has_lent_nothing
    (m : MarketMechanism.t) (fs fs' : list FirmAgent.t)
    (g : GovernmentAgent.t) (r : Q) :
  Forall (fun f => FirmAgent.debt f = None) fs ->
  MarketMechanism.clear_credit_market m fs g = (fs', inr r) ->
  fs' = fs
  /\ GovernmentAgent.current_interest_rate g = Some r
  /\ Forall (fun f => 0 <= FirmAgent.capital f) fs.
Proof.
  intros Hd H. unfold MarketMechanism.clear_credit_market in H.
  destruct (GovernmentAgent.current_interest_rate g) as [r'|]; [|discriminate].
  destruct (Py.for_each (MarketMechanism.lend m r') fs) as [fs1 [e|[]]] eqn:E;
    [discriminate|].
  injection H as <- <-.
  apply for_each_ok in E as [-> Hok].
  assert (Hcap : Forall (fun f => 0 <= FirmAgent.capital f) fs).
  { clear - Hd Hok. induction Hd as [|f fs Hf _ IH]; constructor.
    - inversion Hok; subst. eapply lend_returns_capital; eassumption.
    - apply IH. inversion Hok; assumption. }
  split; [|split; [reflexivity|exact Hcap]].
  clear - Hd Hcap. induction Hd as [|f fs Hf _ IH]; [reflexivity|].
  inversion Hcap as [|? ? Hc Hcap']; subst. simpl.
  rewrite (proj2 (lend_without_debt m r' f Hf) Hc). simpl. f_equal. exact (IH Hcap').
Qed.

Lemma credit_market_that_returns_has_lent_nothing_witness :
  fst (MarketMechanism.clear_credit_market MarketMechanism.default
         [FirmAgent.init 0 FirmAgent.startup] Bankruptcy.government)
  = [FirmAgent.init 0 FirmAgent.startup]
  /\ GovernmentAgent.current_interest_rate Bankruptcy.government = Some (5 # 100)
  /\ Forall (fun f => 0 <= FirmAgent.capital f) [FirmAgent.init 0 FirmAgent.startup].
Proof.
  apply (credit_market_that_returns_has_lent_nothing MarketMechanism.default
           [FirmAgent.init 0 FirmAgent.startup] _ Bankruptcy.government (5 # 100)).
  - constructor; [reflexivity|constructor].
  - reflexivity.
Defined.

(** X9: when every firm has the attribute [debt], the credit market
    returns the government's rate; it leaves a firm with non-negative
    capital alone, and lends a firm with negative capital
    min(-capital, max_leverage), adding credit * (1 + rate) to its debt:
    the leverage limit does not grow with the firm, because
    capital + abs(capital) is 0. *)
Theorem credit_market_lends_at_most_max_leverage
    (m : MarketMechanism.t) (fs : list FirmAgent.t) (g : GovernmentAgent.t) (r : Q) :
  GovernmentAgent.current_interest_rate g = Some r ->
  Forall (fun f => FirmAgent.debt f <> None) fs ->
  exists fs',
    MarketMechanism.clear_credit_market m fs g = (fs', inr r)
    /\ Forall2 (fun f f' =>
                  (0 <= FirmAgent.capital f -> f' = f)
                  /\ (FirmAgent.capital f < 0 ->
                      let credit :=
                        Py.min (- FirmAgent.capital f) (MarketMechanism.max_leverage m) in
                      FirmAgent.capital f' == FirmAgent.capital f + credit
                      /\ exists debt debt',
                           FirmAgent.debt f = Some debt
                           /\ FirmAgent.debt f' = Some debt'
                           /\ debt' == debt + credit * (1 + r)))
               fs fs'.
Proof.
  intros Hr Hd. unfold MarketMechanism.clear_credit_market. rewrite Hr.
  assert (Hok : Forall (fun f => snd (MarketMechanism.lend m r f) = inr tt) fs).
  { eapply Forall_impl; [exact Hd|]. intros f Hf. unfold MarketMechanism.lend.
    destruct (Qlt_le_dec (FirmAgent.capital f) 0); [|reflexivity].
    simpl. destruct (FirmAgent.debt f) eqn:E; [reflexivity|].
    exfalso. apply Hf. exact E. }
  rewrite (for_each_total _ _ Hok). eexists. split; [reflexivity|].
  clear Hok. induction Hd as [|f fs Hf _ IH]; simpl; constructor; [|exact IH].
  destruct (FirmAgent.debt f) as [debt|] eqn:E; [|congruence]. split.
  - intros Hc. unfold MarketMechanism.lend.
    destruct (Qlt_le_dec (FirmAgent.capital f) 0); [lra|reflexivity].
  - intros Hc. cbv zeta. rewrite (lend_with_debt m r debt f E Hc). cbn [fst].
    cbn [FirmAgent.capital FirmAgent.debt FirmAgent.set_debt FirmAgent.set_capital].
    assert (Habs : Qabs (FirmAgent.capital f) == - FirmAgent.capital f)
      by (apply Qabs_neg; lra).
    assert (Hmax : Py.max (FirmAgent.capital f + Qabs (FirmAgent.capital f)) 1 = 1).
    { unfold Py.max. destruct (Qlt_le_dec _ 1); [reflexivity|lra]. }
    rewrite Hmax.
    assert (Hmin : Py.min (Qabs (FirmAgent.capital f)) (MarketMechanism.max_leverage m * 1)
                   == Py.min (- FirmAgent.capital f) (MarketMechanism.max_leverage m))
      by (apply min_compat; [exact Habs|ring]).
    split; [rewrite Hmin; reflexivity|].
    eexists _, _. split; [reflexivity|]. split; [reflexivity|].
    rewrite Hmin. reflexivity.
Qed.

Lemma credit_market_lends_at_most_max_leverage_witness :
  exists fs',
    MarketMechanism.clear_credit_market MarketMechanism.default [indebted_firm]
      Bankruptcy.government = (fs', inr (5 # 100))
    /\ Forall2 (fun f f' =>
                  (0 <= FirmAgent.capital f -> f' = f)
                  /\ (FirmAgent.capital f < 0 ->
                      let credit := Py.min (- FirmAgent.capital f) 3 in
                      FirmAgent.capital f' == FirmAgent.capital f + credit
                      /\ exists debt debt',
                           FirmAgent.debt f = Some debt
                           /\ FirmAgent.debt f' = Some debt'
                           /\ debt' == debt + credit * (1 + (5 # 100))))
               [indebted_firm] fs'.
Proof.
  apply (credit_market_lends_at_most_max_leverage MarketMechanism.default
           [indebted_firm] Bankruptcy.government (5 # 100)).
  - reflexivity.
  - constructor; [discriminate|constructor].
Defined.

(** ** Settling the accounts *)

(** X10: [post_market_step] on a living firm whose revenue and wage
    bill are set adds revenue - wage bill - capital * credit cost to the
    capital; the firm is alive afterwards exactly when the new capital is
    not negative, and a firm that dies has its employees and production
    set to 0.  On a firm that has never decided, the attribute [revenue]
    is missing and the call raises, leaving the firm as it was. *)
Theorem post_market_step_alive_iff_capital_nonneg (f : FirmAgent.t) :
  FirmAgent.alive f = true ->
  (FirmAgent.revenue f = None ->
   FirmAgent.post_market_step f = (f, inl (Py.AttributeError "FirmAgent" "revenue")))
  /\ (forall rev wb,
        FirmAgent.revenue f = Some rev -> FirmAgent.wage_bill f = Some wb ->
        let f' := fst (FirmAgent.post_market_step f) in
        snd (FirmAgent.post_market_step f) = inr tt
        /\ FirmAgent.capital f'
           = FirmAgent.capital f
             + (rev - wb - FirmAgent.capital f * FirmAgent.credit_cost f)
        /\ (FirmAgent.alive f' = true <-> 0 <= FirmAgent.capital f')
        /\ (FirmAgent.alive f' = false ->
            FirmAgent.employees f' = 0%Z /\ FirmAgent.production f' = 0)).
Proof.
  intros Ha. unfold FirmAgent.post_market_step. rewrite Ha. cbn [negb]. split.
  - intros ->. reflexivity.
  - intros rev wb -> ->. cbn [FirmAgent.getattr].
    cbn [FirmAgent.capital FirmAgent.set_capital].
    destruct (Qlt_le_dec _ 0) as [Hneg|Hpos]; cbn -[Qplus Qminus Qmult Qle].
    + split; [reflexivity|]. split; [reflexivity|]. split.
      * split; [discriminate|]. intros H. lra.
      * intros _. split; reflexivity.
    + split; [reflexivity|]. split; [reflexivity|]. split.
      * split; [intros _; exact Hpos|intros _; exact Ha].
      * intros H. congruence.
Qed.

Lemma post_market_step_alive_iff_capital_nonneg_witness :
  let f' := fst (FirmAgent.post_market_step unsold_startup) in
  snd (FirmAgent.post_market_step unsold_startup) = inr tt
  /\ FirmAgent.capital f'
     = FirmAgent.capital unsold_startup
       + (0 - inject_Z 20 * 50
          - FirmAgent.capital unsold_startup * FirmAgent.credit_cost unsold_startup)
  /\ (FirmAgent.alive f' = true <-> 0 <= FirmAgent.capital f')
  /\ (FirmAgent.alive f' = false ->
      FirmAgent.employees f' = 0%Z /\ FirmAgent.production f' = 0).
Proof.
  apply (proj2 (post_market_step_alive_iff_capital_nonneg unsold_startup eq_refl)
           0 (inject_Z 20 * 50)); reflexivity.
Defined.

(** ** The rewards *)

Lemma clip_unit_square_mono (x y : Q) :
  x <= y -> Py.clip x 0 1 * Py.clip x 0 1 <= Py.clip y 0 1 * Py.clip y 0 1.
Proof.
  intros Hxy.
  pose proof (clip_bounds x 0 1 ltac:(lra)) as [Hx0 _].
  pose proof (clip_bounds y 0 1 ltac:(lra)) as [Hy0 _].
  pose proof (clip_mono x y 0 1 ltac:(lra) Hxy) as Hm.
  set (a := Py.clip x 0 1) in *. set (b := Py.clip y 0 1) in *.
  assert (0 <= (b - a) * (b + a)) by (apply Qmult_le_0_compat; lra).
  lra.
Qed.

(** X13: with non-negative weights the government reward never falls
    when growth rises and inflation, unemployment, unrest and inequality
    fall: it is monotone in each argument, the crisis penalty and the
    clipping included. *)
Theorem government_reward_monotone
    (g g' i i' u u' r r' q q' alpha beta gamma delta : Q) :
  0 <= alpha -> 0 <= beta -> 0 <= gamma -> 0 <= delta ->
  g <= g' -> i' <= i -> u' <= u -> r' <= r -> q' <= q ->
  RewardFunctions.government_reward g i u r q alpha beta gamma delta
  <= RewardFunctions.government_reward g' i' u' r' q' alpha beta gamma delta.
Proof.
  intros Ha Hb Hc Hd Hg Hi Hu Hr Hq. unfold RewardFunctions.government_reward.
  apply clip_mono; [lra|].
  pose proof (clip_mono g g' (-(25 # 100)) (25 # 100) ltac:(lra) Hg) as Mg.
  pose proof (clip_mono i' i 0 1 ltac:(lra) Hi) as Mi.
  pose proof (clip_mono u' u 0 1 ltac:(lra) Hu) as Mu.
  pose proof (clip_mono r' r 0 1 ltac:(lra) Hr) as Mr.
  pose proof (clip_mono q' q 0 1 ltac:(lra) Hq) as Mq.
  pose proof (clip_unit_square_mono r' r Hr) as Mrr.
  set (cg := Py.clip g _ _) in *. set (cg' := Py.clip g' _ _) in *.
  set (ci := Py.clip i 0 1) in *. set (ci' := Py.clip i' 0 1) in *.
  set (cu := Py.clip u 0 1) in *. set (cu' := Py.clip u' 0 1) in *.
  set (cr := Py.clip r 0 1) in *. set (cr' := Py.clip r' 0 1) in *.
  set (cq := Py.clip q 0 1) in *. set (cq' := Py.clip q' 0 1) in *.
  assert (H1 : alpha * ci' <= alpha * ci)
    by (rewrite !(Qmult_comm alpha); apply Qmult_le_compat_r; assumption).
  assert (H2 : beta * cu' <= beta * cu)
    by (rewrite !(Qmult_comm beta); apply Qmult_le_compat_r; assumption).
  assert (H3 : gamma * (cr' * cr') <= gamma * (cr * cr))
    by (rewrite !(Qmult_comm gamma); apply Qmult_le_compat_r; assumption).
  assert (H4 : delta * cq' <= delta * cq)
    by (rewrite !(Qmult_comm delta); apply Qmult_le_compat_r; assumption).
  destruct (Py.ltb (85 # 100) cr) eqn:E1; destruct (Py.ltb (6 # 10) cq) eqn:E2;
    destruct (Py.ltb (85 # 100) cr') eqn:E1'; destruct (Py.ltb (6 # 10) cq') eqn:E2';
    cbn [andb];
    repeat match goal with
           | E : Py.ltb _ _ = true |- _ => apply ltb_true in E
           | E : Py.ltb _ _ = false |- _ => apply ltb_false in E
           end; lra.
Qed.

Lemma government_reward_monotone_witness :
  RewardFunctions.government_reward 0 (1 # 2) (1 # 2) (9 # 10) (7 # 10)
    (8 # 10) (12 # 10) 2 1
  <= RewardFunctions.government_reward (1 # 10) (1 # 10) (1 # 10) (1 # 10) (1 # 10)
       (8 # 10) (12 # 10) 2 1.
Proof.
  apply government_reward_monotone; vm_compute; discriminate.
Defined.

(** ** The inequality measures and the order of the population *)

Lemma Forall2_Qeq_refl (l : list Q) : Forall2 Qeq l l.
Proof. induction l; constructor; [reflexivity|assumption]. Qed.

Lemma Forall2_Qeq_trans (a b c : list Q) :
  Forall2 Qeq a b -> Forall2 Qeq b c -> Forall2 Qeq a c.
Proof.
  intros H. revert c. induction H as [|x y a b Hxy _ IH]; intros c Hc.
  - inversion Hc. constructor.
  - inversion Hc as [|? z ? c' Hyz Hbc]; subst. constructor.
    + rewrite Hxy. exact Hyz.
    + apply IH. exact Hbc.
Qed.

Lemma Qle_bool_compat (x x' y y' : Q) :
  x == x' -> y == y' -> Qle_bool x y = Qle_bool x' y'.
Proof.
  intros Hx Hy. destruct (Qle_bool x y) eqn:E, (Qle_bool x' y') eqn:E';
    try reflexivity.
  - apply Qle_bool_iff in E. rewrite Hx, Hy in E. apply Qle_bool_iff in E. congruence.
  - apply Qle_bool_iff in E'. rewrite <- Hx, <- Hy in E'. apply Qle_bool_iff in E'.
    congruence.
Qed.

Lemma insert_sorted_compat (x x' : Q) (s s' : list Q) :
  x == x' -> Forall2 Qeq s s' ->
  Forall2 Qeq (InequalityMetrics.insert_sorted x s) (InequalityMetrics.insert_sorted x' s').
Proof.
  intros Hx H. induction H as [|y y' s s' Hy Hs IH]; simpl.
  - constructor; [exact Hx|constructor].
  - rewrite (Qle_bool_compat x x' y y' Hx Hy).
    destruct (Qle_bool x' y').
    + constructor; [exact Hx|]. constructor; assumption.
    + constructor; assumption.
Qed.

Lemma Qle_bool_false (x y : Q) : Qle_bool x y = false -> y < x.
Proof.
  intros E. destruct (Qlt_le_dec y x) as [H|H]; [exact H|].
  apply Qle_bool_iff in H. congruence.
Qed.

Lemma insert_sorted_swap (x y : Q) (s : list Q) :
  Forall2 Qeq
    (InequalityMetrics.insert_sorted x (InequalityMetrics.insert_sorted y s))
    (InequalityMetrics.insert_sorted y (InequalityMetrics.insert_sorted x s)).
Proof.
  induction s as [|z s IH]; simpl.
  - destruct (Qle_bool x y) eqn:Exy, (Qle_bool y x) eqn:Eyx.
    + apply Qle_bool_iff in Exy, Eyx.
      assert (x == y) by lra.
      constructor; [assumption|]. constructor; [symmetry; assumption|constructor].
    + apply Forall2_Qeq_refl.
    + apply Forall2_Qeq_refl.
    + apply Qle_bool_false in Exy, Eyx. lra.
  - destruct (Qle_bool y z) eqn:Eyz, (Qle_bool x z) eqn:Exz; simpl;
      rewrite ?Eyz, ?Exz.
    + destruct (Qle_bool x y) eqn:Exy, (Qle_bool y x) eqn:Eyx.
      * apply Qle_bool_iff in Exy, Eyx.
        assert (x == y) by lra.
        constructor; [assumption|]. constructor; [symmetry; assumption|].
        apply Forall2_Qeq_refl.
      * apply Forall2_Qeq_refl.
      * apply Forall2_Qeq_refl.
      * apply Qle_bool_false in Exy, Eyx. lra.
    + destruct (Qle_bool x y) eqn:Exy.
      * apply Qle_bool_iff in Exy, Eyz. apply Qle_bool_false in Exz. lra.
      * apply Forall2_Qeq_refl.
    + destruct (Qle_bool y x) eqn:Eyx.
      * apply Qle_bool_iff in Eyx, Exz. apply Qle_bool_false in Eyz. lra.
      * apply Forall2_Qeq_refl.
    + constructor; [reflexivity|exact IH].
Qed.

(** Sorting two arrangements of the same values gives the same array,
    up to the representation of each rational. *)
Lemma np_sort_Permutation_eq (l l' : list Q) :
  l ≡ₚ l' -> Forall2 Qeq (InequalityMetrics.np_sort l) (InequalityMetrics.np_sort l').
Proof.
  induction 1 as [|x l l' _ IH|x y l|l l' l'' _ IH1 _ IH2].
  - constructor.
  - apply insert_sorted_compat; [reflexivity|exact IH].
  - apply insert_sorted_swap.
  - eapply Forall2_Qeq_trans; eassumption.
Qed.

Lemma sum_compat (l l' : list Q) : Forall2 Qeq l l' -> Py.sum l == Py.sum l'.
Proof.
  induction 1 as [|x y l l' Hxy _ IH]; [reflexivity|].
  rewrite !sum_cons, Hxy, IH. reflexivity.
Qed.

Lemma sum_Permutation (l l' : list Q) : l ≡ₚ l' -> Py.sum l == Py.sum l'.
Proof.
  induction 1 as [|x l l' _ IH|x y l|l l' l'' _ IH1 _ IH2].
  - reflexivity.
  - rewrite !sum_cons, IH. reflexivity.
  - rewrite !sum_cons. ring.
  - rewrite IH1. exact IH2.
Qed.

Lemma weighted_sum_compat (n : Z) (l l' : list Q) :
  Forall2 Qeq l l' ->
  forall i, InequalityMetrics.weighted_sum n i l == InequalityMetrics.weighted_sum n i l'.
Proof.
  induction 1 as [|x y l l' Hxy _ IH]; intros i; simpl; [reflexivity|].
  rewrite Hxy, IH. reflexivity.
Qed.

Lemma forallb_Permutation {A} (p : A -> bool) (l l' : list A) :
  l ≡ₚ l' -> forallb p l = forallb p l'.
Proof.
  induction 1 as [|x l l' _ IH|x y l|l l' l'' _ IH1 _ IH2]; simpl.
  - reflexivity.
  - rewrite IH. reflexivity.
  - destruct (p x), (p y); reflexivity.
  - congruence.
Qed.

Lemma Qeq_bool_compat (x y : Q) : x == y -> Qeq_bool x 0 = Qeq_bool y 0.
Proof.
  intros H. destruct (Qeq_bool x 0) eqn:E, (Qeq_bool y 0) eqn:E'; try reflexivity.
  - apply Qeq_bool_iff in E. rewrite H in E. apply Qeq_bool_iff in E. congruence.
  - apply Qeq_bool_iff in E'. rewrite <- H in E'. apply Qeq_bool_iff in E'. congruence.
Qed.

Lemma Forall2_Qeq_length (l l' : list Q) : Forall2 Qeq l l' -> length l = length l'.
Proof. induction 1; simpl; congruence. Qed.

(** X14: the Gini coefficient does not depend on the order of the
    incomes: two arrangements of the same values have the same
    coefficient. *)
Theorem calculate_gini_permutation_invariant (incomes incomes' : list Q) :
  incomes ≡ₚ incomes' ->
  InequalityMetrics.calculate_gini incomes == InequalityMetrics.calculate_gini incomes'.
Proof.
  intros Hp. unfold InequalityMetrics.calculate_gini.
  rewrite <- (Permutation_length Hp).
  rewrite <- (forallb_Permutation _ _ _ Hp).
  destruct (length incomes =? 0)%nat; [reflexivity|].
  destruct (forallb _ incomes); [reflexivity|].
  pose proof (np_sort_Permutation_eq _ _ Hp) as Hs.
  rewrite <- (Forall2_Qeq_length _ _ Hs).
  set (n := Z.of_nat (length (InequalityMetrics.np_sort incomes))).
  pose proof (sum_compat _ _ Hs) as Hsum.
  pose proof (weighted_sum_compat n _ _ Hs 1%Z) as Hw.
  assert (Hden : inject_Z n * Py.sum (InequalityMetrics.np_sort incomes)
                 == inject_Z n * Py.sum (InequalityMetrics.np_sort incomes'))
    by (rewrite Hsum; reflexivity).
  rewrite <- (Qeq_bool_compat _ _ Hden).
  destruct (Qeq_bool _ 0) eqn:E; [reflexivity|].
  apply clip_compat. rewrite Hw, Hden. reflexivity.
Qed.

Lemma calculate_gini_permutation_invariant_witness :
  InequalityMetrics.calculate_gini [10; -5; 3; -2]
  == InequalityMetrics.calculate_gini [-5; 10; 3; -2].
Proof.
  apply calculate_gini_permutation_invariant. apply Permutation_swap.
Defined.

Lemma weighted_sum_constant (n : Z) (c : Q) (l : list Q) :
  Forall (fun x => x == c) l ->
  forall i,
    InequalityMetrics.weighted_sum n i l
    == c * inject_Z (Z.of_nat (length l) * (2 * i - n - 1)
                     + Z.of_nat (length l) * (Z.of_nat (length l) - 1)).
Proof.
  induction 1 as [|x l Hx _ IH]; intros i.
  - cbn [InequalityMetrics.weighted_sum length Z.of_nat]. rewrite !Z.mul_0_l.
    change (inject_Z (0 + 0)) with 0. ring.
  - cbn [InequalityMetrics.weighted_sum].
    replace (Z.of_nat (length (x :: l))) with (Z.of_nat (length l) + 1)%Z
      by (simpl length; lia).
    rewrite IH, Hx.
    set (k := Z.of_nat (length l)).
    replace ((k + 1) * (2 * i - n - 1) + (k + 1) * (k + 1 - 1))%Z
      with ((2 * i - n - 1) + (k * (2 * (i + 1) - n - 1) + k * (k - 1)))%Z by ring.
    rewrite !inject_Z_plus. ring.
Qed.

Lemma sum_constant (c : Q) (l : list Q) :
  Forall (fun x => x == c) l -> Py.sum l == c * inject_Z (Z.of_nat (length l)).
Proof.
  induction 1 as [|x l Hx _ IH].
  - change (0 == c * 0). ring.
  - rewrite sum_cons, IH, Hx. simpl length.
    rewrite Nat2Z.inj_succ, <- Z.add_1_r, inject_Z_plus. change (inject_Z 1) with 1. ring.
Qed.

Lemma forallb_zero (l : list Q) :
  Forall (fun x => x == 0) l -> forallb (fun x => Qeq_bool x 0) l = true.
Proof.
  induction 1 as [|x l Hx _ IH]; [reflexivity|].
  simpl. rewrite IH. apply Qeq_bool_iff in Hx. rewrite Hx. reflexivity.
Qed.

(** X16: when all incomes are equal, whatever their common value and
    sign, the Gini coefficient is 0. *)
Theorem calculate_gini_of_equal_incomes (c : Q) (incomes : list Q) :
  Forall (fun x => x == c) incomes ->
  InequalityMetrics.calculate_gini incomes == 0.
Proof.
  intros Hall. unfold InequalityMetrics.calculate_gini.
  destruct (length incomes =? 0)%nat eqn:En; [reflexivity|].
  destruct (forallb _ incomes) eqn:Ez; [reflexivity|].
  assert (Hc : ~ c == 0).
  { intros Hc. rewrite forallb_zero in Ez; [discriminate|].
    eapply Forall_impl; [exact Hall|]. intros x Hx. cbv beta in Hx. rewrite Hx. exact Hc. }
  assert (Hs : Forall (fun x => x == c) (InequalityMetrics.np_sort incomes)).
  { apply Forall_forall. intros x Hx.
    rewrite (np_sort_Permutation incomes) in Hx.
    rewrite Forall_forall in Hall. apply Hall. exact Hx. }
  assert (Hlen : length (InequalityMetrics.np_sort incomes) = length incomes)
    by (apply Permutation_length, np_sort_Permutation).
  apply Nat.eqb_neq in En.
  assert (Hn : 0 < inject_Z (Z.of_nat (length (InequalityMetrics.np_sort incomes)))).
  { change 0 with (inject_Z 0). rewrite <- Zlt_Qlt. lia. }
  assert (Hden : ~ inject_Z (Z.of_nat (length (InequalityMetrics.np_sort incomes)))
                   * Py.sum (InequalityMetrics.np_sort incomes) == 0).
  { rewrite (sum_constant c _ Hs). intros H.
    apply Qmult_integral in H as [H|H]; [lra|].
    apply Qmult_integral in H as [H|H]; [tauto|lra]. }
  destruct (Qeq_bool _ 0) eqn:E.
  - apply Qeq_bool_iff in E. tauto.
  - rewrite (clip_compat _ 0); [vm_compute; reflexivity|].
    rewrite (weighted_sum_constant _ c _ Hs 1%Z).
    match goal with
    | |- context [inject_Z (?a * ?b + ?a * ?d)] =>
        replace (a * b + a * d)%Z with 0%Z by lia
    end.
    change (inject_Z 0) with 0. field.
    split; intros H; apply Hden; rewrite H; ring.
Qed.

Lemma calculate_gini_of_equal_incomes_witness :
  InequalityMetrics.calculate_gini [-3; -3; -3] == 0.
Proof.
  apply (calculate_gini_of_equal_incomes (-3)).
  repeat constructor.
Defined.

(** ** The diffusion of unrest *)

Lemma neighbor_unrests_inv (hs : gmap nat Q) (ns : list nat) :
  match SocialGraph.neighbor_unrests hs ns with
  | inr us => Forall2 (fun n u => hs !! n = Some u) ns us
  | inl e => exists n, e = Py.KeyError n /\ hs !! n = None /\ n ∈ ns
  end.
Proof.
  induction ns as [|n ns IH]; simpl; [constructor|].
  unfold SocialGraph.state_unrest. destruct (hs !! n) as [u|] eqn:Hu.
  - destruct (SocialGraph.neighbor_unrests hs ns) as [e|us].
    + destruct IH as (m & -> & Hm & Hin). exists m. repeat split; [exact Hm|right; exact Hin].
    + constructor; assumption.
  - exists n. repeat split; [exact Hu|left].
Qed.




(** The values of the result, with the draw each one used. *)
Lemma spread_loop_draws (g : SocialGraph.t) (hs : gmap nat Q) (normal : nat -> Q)
    (nodes : list (nat * list nat)) :
  forall (k : nat) (acc res : gmap nat Q),
    SocialGraph.spread_loop g hs normal nodes k acc = inr res ->
    forall i v, res !! i = Some v ->
      acc !! i = Some v
      \/ exists nbrs own k',
           (i, nbrs) ∈ nodes /\ hs !! i = Some own
           /\ node_update g hs own nbrs (normal k') v.
Proof.
  induction nodes as [|[a nbrs] rest IH]; intros k acc res Hloop i v Hv; simpl in Hloop.
  - injection Hloop as <-. left. exact Hv.
  - unfold SocialGraph.state_unrest in Hloop at 1.
    destruct (hs !! a) as [own|] eqn:Hown; [|discriminate].
    destruct nbrs as [|n ns].
    + destruct (IH _ _ _ Hloop i v Hv) as [Hacc|(nb & o & z & Hin & Ho & Hu)].
      * destruct (decide (a = i)) as [->|Hne].
        -- rewrite lookup_insert_eq in Hacc. injection Hacc as <-.
           right. exists [], own, 0%nat. split; [left|]. split; [exact Hown|reflexivity].
        -- rewrite lookup_insert_ne in Hacc by exact Hne. left. exact Hacc.
      * right. exists nb, o, z. split; [right; exact Hin|]. split; assumption.
    + destruct (SocialGraph.neighbor_unrests hs (n :: ns)) as [e|us] eqn:Hus;
        [discriminate|].
      destruct (IH _ _ _ Hloop i v Hv) as [Hacc|(nb & o & z & Hin & Ho & Hu)].
      * destruct (decide (a = i)) as [->|Hne].
        -- rewrite lookup_insert_eq in Hacc. injection Hacc as <-.
           right. exists (n :: ns), own, k. split; [left|].
           split; [exact Hown|]. exists us. split; [exact Hus|reflexivity].
        -- rewrite lookup_insert_ne in Hacc by exact Hne. left. exact Hacc.
      * right. exists nb, o, z. split; [right; exact Hin|]. split; assumption.
Qed.

Lemma clip_unit_le (x hi : Q) : 0 <= hi -> x <= hi -> Py.clip x 0 1 <= hi.
Proof.
  intros H0 Hx. unfold Py.clip.
  destruct (Qlt_le_dec x 0);
    match goal with |- context [Qlt_le_dec ?a ?b] => destruct (Qlt_le_dec a b) end;
    lra.
Qed.

(** With draws of at most [z], the diffusion raises no value above the
    bound of the snapshot by more than [z]. *)
Lemma spread_influence_bound (g : SocialGraph.t) (hs new_unrest : gmap nat Q)
    (normal : nat -> Q) (bound z : Q) :
  0 <= z -> (forall k, normal k <= z) ->
  0 <= SocialGraph.influence_strength g ->
  0 <= SocialGraph.decay g ->
  SocialGraph.influence_strength g + SocialGraph.decay g <= 1 ->
  (forall i u, hs !! i = Some u -> 0 <= u <= bound) ->
  SocialGraph.spread_influence g hs normal = inr new_unrest ->
  forall i v, new_unrest !! i = Some v -> 0 <= v <= bound + z.
Proof.
  intros Hz0 Hz Hs Hd Hsd Hhs H i v Hv.
  destruct (spread_loop_draws g hs normal _ _ _ _ H i v Hv)
    as [Habs|(nbrs & own & k & _ & Hown & Hu)].
  { rewrite lookup_empty in Habs. discriminate. }
  destruct (Hhs i own Hown) as [Ho0 Ho1].
  split; [eapply node_update_bounded; exact Hu|].
  unfold node_update, SocialGraph._clip in Hu. destruct nbrs as [|n ns].
  - subst v. apply clip_unit_le; lra.
  - destruct Hu as (us & Hus & ->).
    pose proof (neighbor_unrests_inv hs (n :: ns)) as Hinv. rewrite Hus in Hinv.
    assert (Hall : Forall (fun u => 0 <= u <= bound) us).
    { apply Forall_forall. intros u Hu.
      apply list_elem_of_lookup in Hu as [j Hj].
      destruct (Forall2_lookup_r _ _ _ _ _ Hinv Hj) as (m & _ & Hm).
      exact (Hhs m u Hm). }
    assert (Hne : us <> []) by (inversion Hinv; discriminate).
    destruct (mean_bounds us 0 bound Hne Hall) as [Hm0 Hm1].
    apply clip_unit_le; [lra|]. unfold SocialGraph.propagated.
    specialize (Hz k).
    set (s := SocialGraph.influence_strength g) in *.
    set (d := SocialGraph.decay g) in *. set (m := Py.mean us) in *.
    assert (H1 : 0 <= (1 - s - d) * (bound - own)) by (apply Qmult_le_0_compat; lra).
    assert (H2 : 0 <= s * (bound - m)) by (apply Qmult_le_0_compat; lra).
    assert (H3 : 0 <= d * bound) by (apply Qmult_le_0_compat; lra).
    lra.
Qed.

(** X20: without positive noise, and with 0 <= influence, 0 <= decay and
    influence + decay <= 1, the diffusion creates no unrest: when every
    entry of the snapshot is between 0 and a bound, so is every value of
    the result. *)
Theorem spread_influence_creates_no_unrest
    (g : SocialGraph.t) (hs new_unrest : gmap nat Q) (normal : nat -> Q) (bound : Q) :
  (forall k, normal k <= 0) ->
  0 <= SocialGraph.influence_strength g ->
  0 <= SocialGraph.decay g ->
  SocialGraph.influence_strength g + SocialGraph.decay g <= 1 ->
  (forall i u, hs !! i = Some u -> 0 <= u <= bound) ->
  SocialGraph.spread_influence g hs normal = inr new_unrest ->
  forall i v, new_unrest !! i = Some v -> 0 <= v <= bound.
Proof.
  intros Hz Hs Hd Hsd Hhs H i v Hv.
  destruct (spread_influence_bound g hs new_unrest normal bound 0
              ltac:(lra) Hz Hs Hd Hsd Hhs H i v Hv) as [H0 H1].
  split; lra.
Qed.

Lemma spread_influence_creates_no_unrest_witness :
  exists new_unrest,
    SocialGraph.spread_influence small_graph small_snapshot (fun _ => 0) = inr new_unrest
    /\ forall i v, new_unrest !! i = Some v -> 0 <= v <= 1.
Proof.
  destruct (SocialGraph.spread_influence small_graph small_snapshot (fun _ => 0))
    as [e|new_unrest] eqn:H; [vm_compute in H; discriminate|].
  exists new_unrest. split; [reflexivity|].
  apply (spread_influence_creates_no_unrest small_graph small_snapshot new_unrest
           (fun _ => 0) 1).
  - intros k. vm_compute. discriminate.
  - vm_compute; discriminate.
  - vm_compute; discriminate.
  - vm_compute; discriminate.
  - intros i u Hu. unfold small_snapshot in Hu.
    repeat (apply lookup_insert_Some in Hu as [[_ <-]|[_ Hu]];
            [split; vm_compute; discriminate|]).
    rewrite lookup_empty in Hu. discriminate.
  - exact H.
Defined.

(** ** The life of a shock *)

Lemma apply_shock_aged (n : nat) (s : ShockManager.Shock) (w : ShockManager.World) :
  ShockManager._apply_shock (aged n s) w = ShockManager._apply_shock s w.
Proof. destruct s. reflexivity. Qed.

(** X21: with no random triggers, a shock of duration d > 0 is applied
    by each of the next d calls of [maybe_trigger] and by no later one:
    after n calls the world has taken its effect min(n, d) times, and the
    shock is still active, with duration d - n, exactly while n < d. *)
Theorem shock_acts_for_its_duration
    (random : nat -> Q) (s : ShockManager.Shock) (w : ShockManager.World) (n : nat) :
  (0 < ShockManager.duration s)%Z ->
  triggered random n (ShockManager.mk [s] [], w)
  = (ShockManager.mk
       (if (Z.of_nat n <? ShockManager.duration s)%Z then [aged n s] else []) [],
     Nat.iter (Nat.min n (Z.to_nat (ShockManager.duration s)))
       (ShockManager._apply_shock s) w).
Proof.
  intros Hd. induction n as [|n IH].
  - apply Z.ltb_lt in Hd. change (Z.of_nat 0) with 0%Z. rewrite Hd.
    destruct s. unfold aged, triggered. simpl. rewrite Z.sub_0_r. reflexivity.
  - unfold triggered in *. rewrite Nat.iter_succ, IH. clear IH.
    unfold ShockManager.maybe_trigger. cbn [fst snd ShockManager.shock_probs
      ShockManager.trigger ShockManager.active_shocks].
    destruct (Z.of_nat n <? ShockManager.duration s)%Z eqn:E.
    + apply Z.ltb_lt in E. cbn [ShockManager.apply_active].
      rewrite apply_shock_aged.
      cbn [ShockManager.duration ShockManager.type ShockManager.severity
           ShockManager.start_step aged].
      replace (Nat.min (S n) (Z.to_nat (ShockManager.duration s)))
        with (S (Nat.min n (Z.to_nat (ShockManager.duration s)))) by lia.
      rewrite Nat.iter_succ.
      replace (Nat.min n (Z.to_nat (ShockManager.duration s))) with n by lia.
      destruct (Z.of_nat (S n) <? ShockManager.duration s)%Z eqn:E'.
      * apply Z.ltb_lt in E'.
        destruct (0 <? ShockManager.duration s - Z.of_nat n - 1)%Z eqn:E'';
          [|apply Z.ltb_ge in E''; lia].
        unfold aged.
        replace (ShockManager.duration s - Z.of_nat (S n))%Z
          with (ShockManager.duration s - Z.of_nat n - 1)%Z by lia.
        reflexivity.
      * apply Z.ltb_ge in E'.
        destruct (0 <? ShockManager.duration s - Z.of_nat n - 1)%Z eqn:E'';
          [apply Z.ltb_lt in E''; lia|].
        reflexivity.
    + apply Z.ltb_ge in E. cbn [ShockManager.apply_active].
      destruct (Z.of_nat (S n) <? ShockManager.duration s)%Z eqn:E';
        [apply Z.ltb_lt in E'; lia|].
      replace (Nat.min (S n) (Z.to_nat (ShockManager.duration s)))
        with (Nat.min n (Z.to_nat (ShockManager.duration s))) by lia.
      reflexivity.
Qed.

Lemma shock_acts_for_its_duration_witness :
  triggered (fun _ => 1) 12
    (ShockManager.add_shock "financial_crash" (1 # 10) (ShockManager.mk [] []),
     (EconomicState.default, [], [FirmAgent.init 0 FirmAgent.startup]))
  = (ShockManager.mk [] [],
     Nat.iter 10
       (ShockManager._apply_shock (ShockManager.mkShock "financial_crash" (1 # 10) 10 0))
       (EconomicState.default, [], [FirmAgent.init 0 FirmAgent.startup])).
Proof.
  apply (shock_acts_for_its_duration (fun _ => 1)
           (ShockManager.mkShock "financial_crash" (1 # 10) 10 0)
           (EconomicState.default, [], [FirmAgent.init 0 FirmAgent.startup]) 12).
  reflexivity.
Defined.

(** ** The environment's step *)

(** A field of the economic state that no shock writes is the same after
    the shocks. *)
Lemma apply_shock_keeps_field {A} (field : EconomicState.t -> A)
    (s : ShockManager.Shock) (w : ShockManager.World) :
  (forall v e, field (EconomicState.set_unemployment v e) = field e) ->
  (forall v e, field (EconomicState.set_inflation v e) = field e) ->
  (forall v e, field (EconomicState.set_regime_stability v e) = field e) ->
  field (fst (fst (ShockManager._apply_shock s w))) = field (fst (fst w)).
Proof.
  intros Hu Hi Hr. destruct w as [[econ hs] fs]. unfold ShockManager._apply_shock.
  repeat match goal with
         | |- context [if ?b then _ else _] => destruct b
         end; cbn [fst]; rewrite ?Hu, ?Hi, ?Hr; reflexivity.
Qed.

Lemma maybe_trigger_keeps_field {A} (field : EconomicState.t -> A)
    (random : nat -> Q) (m : ShockManager.t) (w : ShockManager.World) :
  (forall v e, field (EconomicState.set_unemployment v e) = field e) ->
  (forall v e, field (EconomicState.set_inflation v e) = field e) ->
  (forall v e, field (EconomicState.set_regime_stability v e) = field e) ->
  field (fst (fst (snd (ShockManager.maybe_trigger random m w)))) = field (fst (fst w)).
Proof.
  intros Hu Hi Hr. unfold ShockManager.maybe_trigger.
  generalize (ShockManager.active_shocks
                (ShockManager.trigger (ShockManager.shock_probs m) random 0 m)).
  intros l. revert w. induction l as [|s l IH]; intros w; simpl; [reflexivity|].
  specialize (IH (ShockManager._apply_shock s w)).
  destruct (ShockManager.apply_active l (ShockManager._apply_shock s w)) as [al w'].
  simpl in *. rewrite IH. apply apply_shock_keeps_field; assumption.
Qed.

Lemma household_states_lookup (hs : list HouseholdAgent.t) (i : nat) (u : Q) :
  BlackSwanEnv.household_states hs !! i = Some u ->
  exists h, h ∈ hs /\ HouseholdAgent.unrest h = u.
Proof.
  unfold BlackSwanEnv.household_states.
  assert (H : forall acc : gmap nat Q,
            foldl (fun m h => <[HouseholdAgent.id h := HouseholdAgent.unrest h]> m) acc hs
              !! i = Some u ->
            acc !! i = Some u \/ exists h, h ∈ hs /\ HouseholdAgent.unrest h = u).
  { induction hs as [|h hs IH]; intros acc Hl; simpl in Hl; [left; exact Hl|].
    destruct (IH _ Hl) as [Hacc|(h' & Hin & Hu)].
    - destruct (decide (HouseholdAgent.id h = i)) as [<-|Hne].
      + rewrite lookup_insert_eq in Hacc. injection Hacc as <-.
        right. exists h. split; [left|reflexivity].
      + rewrite lookup_insert_ne in Hacc by exact Hne. left. exact Hacc.
    - right. exists h'. split; [right; exact Hin|exact Hu]. }
  intros Hl. destruct (H ∅ Hl) as [Habs|Hex]; [|exact Hex].
  rewrite lookup_empty in Habs. discriminate.
Qed.

Lemma take_unrest_Forall (P : Q -> Prop) (upd : gmap nat Q)
    (hs hs' : list HouseholdAgent.t) :
  (forall i v, upd !! i = Some v -> P v) ->
  Py.for_each (BlackSwanEnv.take_unrest upd) hs = (hs', inr tt) ->
  Forall (fun h => P (HouseholdAgent.unrest h)) hs'.
Proof.
  intros Hupd H. apply for_each_ok in H as [-> Hall].
  induction Hall as [|h l Hh _ IH]; simpl; constructor; [|exact IH].
  unfold BlackSwanEnv.take_unrest in *.
  destruct (upd !! HouseholdAgent.id h) as [u|] eqn:E; [|discriminate].
  simpl. eapply Hupd. exact E.
Qed.

Lemma propensity_at_most_half (c : HouseholdAgent.SocialClass) :
  0 <= HouseholdAgent.propensity_to_protest c <= 1 # 2.
Proof. destruct c; split; vm_compute; discriminate. Qed.

Lemma households_act_unrest (econ : EconomicState.t) (hs : list HouseholdAgent.t) :
  0 <= EconomicState.avg_unrest econ ->
  Forall (fun h => 0 <= HouseholdAgent.unrest h
                   <= (1 # 2) * EconomicState.avg_unrest econ)
         (BlackSwanEnv.households_act econ hs).
Proof.
  intros HU. unfold BlackSwanEnv.households_act. apply List.Forall_map.
  apply Forall_forall. intros h _. unfold HouseholdAgent.act.
  cbn [fst HouseholdAgent.unrest HouseholdAgent.set_wealth HouseholdAgent.set_unrest
       BlackSwanEnv._household_obs HouseholdAgent.o_social_unrest].
  destruct (propensity_at_most_half (HouseholdAgent.social_class h)) as [Hb0 Hb1].
  set (b := HouseholdAgent.propensity_to_protest _) in *.
  set (U := EconomicState.avg_unrest econ) in *.
  split; [apply clip_bounds; lra|].
  assert (0 <= ((1 # 2) - b) * U) by (apply Qmult_le_0_compat; lra).
  apply clip_unit_le; lra.
Qed.

(** X22: a step that returns at most halves the average unrest, up to
    the noise: when 0 <= influence, 0 <= decay, influence + decay <= 1 and
    every normal draw is at most z >= 0, the new average unrest is at most
    half the old one plus z, because every household first resets its
    unrest to propensity * average, and the propensities are at most 0.5.
    So, from an average of at most 1 and draws of at most 0.2, the average
    stays at or below 0.7, the revolution test of [_check_collapse] fails,
    and [terminated] only reports economic death, GDP below 0.001. *)
Theorem step_halves_average_unrest_up_to_noise
    (tanh : Q -> Q) (d : BlackSwanEnv.Draws) (a : EconomicState.Action)
    (env env' : BlackSwanEnv.t) (r : BlackSwanEnv.StepResult) (z : Q) :
  BlackSwanEnv.step tanh d a env = (env', inr r) ->
  0 <= EconomicState.avg_unrest (GlobalState.economics (BlackSwanEnv.state env)) ->
  0 <= SocialGraph.influence_strength (BlackSwanEnv.social_graph env) ->
  0 <= SocialGraph.decay (BlackSwanEnv.social_graph env) ->
  SocialGraph.influence_strength (BlackSwanEnv.social_graph env)
  + SocialGraph.decay (BlackSwanEnv.social_graph env) <= 1 ->
  0 <= z -> (forall k, BlackSwanEnv.normal d k <= z) ->
  EconomicState.avg_unrest (GlobalState.economics (BlackSwanEnv.state env'))
  <= (1 # 2) * EconomicState.avg_unrest (GlobalState.economics (BlackSwanEnv.state env))
     + z
  /\ (EconomicState.avg_unrest (GlobalState.economics (BlackSwanEnv.state env)) <= 1 ->
      z <= 2 # 10 ->
      BlackSwanEnv.terminated r
      = Py.ltb (EconomicState.gdp (GlobalState.economics (BlackSwanEnv.state env')))
               (1 # 1000)).
Proof.
  intros Hstep HU Hs Hd Hsd Hz0 Hz.
  destruct (step_inv _ _ _ _ _ _ Hstep)
    as (sh & econ0 & hs0 & fs0 & econ & gov & fs1 & hs1 & upd & hs2 & hs3 & fs2
        & wage & unemp & fs4 & rate & fs5 & fs6 & econ7 & gov8
        & E1 & -> & -> & E3 & -> & E5 & E5' & E6 & Hfs4 & E6' & E6'' & E7 & E8
        & -> & Hterm & _).
  pose proof (maybe_trigger_keeps_field EconomicState.avg_unrest
                (BlackSwanEnv.random d) (BlackSwanEnv.shocks env)
                (GlobalState.economics (BlackSwanEnv.state env),
                 BlackSwanEnv.households env, BlackSwanEnv.firms env)
                ltac:(reflexivity) ltac:(reflexivity) ltac:(reflexivity)) as HU0.
  rewrite E1 in HU0. cbn [fst snd] in HU0.
  set (U := EconomicState.avg_unrest (GlobalState.economics (BlackSwanEnv.state env))) in *.
  pose proof (households_act_unrest (EconomicState.apply_policy a econ0) hs0) as Hact.
  cbn [EconomicState.avg_unrest EconomicState.apply_policy] in Hact.
  rewrite HU0 in Hact. specialize (Hact HU).
  assert (Hsnap : forall i u,
            BlackSwanEnv.household_states
              (BlackSwanEnv.households_act (EconomicState.apply_policy a econ0) hs0)
              !! i = Some u -> 0 <= u <= (1 # 2) * U).
  { intros i u Hl. apply household_states_lookup in Hl as (h & Hin & <-).
    rewrite Forall_forall in Hact. exact (Hact h Hin). }
  pose proof (spread_influence_bound _ _ _ _ _ z Hz0 Hz Hs Hd Hsd Hsnap E5) as Hupd.
  pose proof (take_unrest_Forall (fun v => 0 <= v <= (1 # 2) * U + z) _ _ _ Hupd E5')
    as H2.
  destruct (labor_market_keeps_unrest _ _ _ _ _ _ _ _ _ _ E6 H2) as [Hne3 H3].
  destruct (update_macros_indicators _ _ _ _ _ _ E7) as (_ & _ & _ & Ha & _).
  assert (Havg : EconomicState.avg_unrest econ7 <= (1 # 2) * U + z).
  { rewrite Ha.
    apply (mean_bounds _ 0 ((1 # 2) * U + z)).
    - destruct hs3; [contradiction|discriminate].
    - apply List.Forall_map. exact H3. }
  cbn [BlackSwanEnv.state BlackSwanEnv.set_world GlobalState.economics
       GlobalState.set_economics].
  clear Hstep. split.
  - unfold BlackSwanEnv._check_collapse.
    repeat match goal with
           | |- context [if ?b then _ else _] => destruct b
           end; exact Havg.
  - intros HU1 Hz1. rewrite Hterm. unfold BlackSwanEnv._check_collapse.
    destruct (Py.ltb (7 # 10) (EconomicState.avg_unrest econ7)) eqn:E.
    + apply ltb_true in E. lra.
    + cbn [andb].
      destruct (Py.ltb (EconomicState.gdp econ7) (1 # 1000)) eqn:E2;
        cbn [fst snd EconomicState.gdp EconomicState.set_regime];
        rewrite ?E2; reflexivity.
Qed.

Lemma step_halves_average_unrest_up_to_noise_witness :
  EconomicState.avg_unrest
    (GlobalState.economics (BlackSwanEnv.state (fst Demo.after_calm_step)))
  <= (1 # 2) * EconomicState.avg_unrest
                 (GlobalState.economics (BlackSwanEnv.state Demo.env))
     + (1 # 100)
  /\ (EconomicState.avg_unrest (GlobalState.economics (BlackSwanEnv.state Demo.env)) <= 1 ->
      1 # 100 <= 2 # 10 ->
      BlackSwanEnv.terminated (Demo.result_of Demo.after_calm_step)
      = Py.ltb (EconomicState.gdp
                  (GlobalState.economics (BlackSwanEnv.state (fst Demo.after_calm_step))))
               (1 # 1000)).
Proof.
  apply (step_halves_average_unrest_up_to_noise Demo.tanh_approx Demo.calm Demo.action
           Demo.env).
  - vm_compute. reflexivity.
  - vm_compute. discriminate.
  - vm_compute. discriminate.
  - vm_compute. discriminate.
  - vm_compute. discriminate.
  - vm_compute. discriminate.
  - intros k. vm_compute. discriminate.
Defined.

Lemma inr_inj {A B} (x y : B) : @inr A B x = inr y -> x = y.
Proof. intros H. injection H as H. exact H. Qed.

(** No call of the environment writes the household dictionary of the
    global state. *)
Lemma step_keeps_households_dict (tanh : Q -> Q) (d : BlackSwanEnv.Draws)
    (a : EconomicState.Action) (env : BlackSwanEnv.t) :
  GlobalState.households (BlackSwanEnv.state (fst (BlackSwanEnv.step tanh d a env)))
  = GlobalState.households (BlackSwanEnv.state env).
Proof.
  unfold BlackSwanEnv.step.
  destruct (ShockManager.maybe_trigger _ _ _) as [sh [[econ0 hs0] fs0]].
  destruct (Py.for_each (FirmAgent.step _) fs0) as [fs1 [e|[]]]; [reflexivity|].
  destruct (SocialGraph.spread_influence _ _ _) as [e|upd]; [reflexivity|].
  destruct (Py.for_each (BlackSwanEnv.take_unrest upd) _) as [hs2 [e|[]]]; [reflexivity|].
  destruct (MarketMechanism.clear_labor_market _ _ _ _ _)
    as [[hs3 fs2] [e|[wage unemp]]]; [reflexivity|].
  destruct (MarketMechanism.clear_credit_market _ _ _) as [fs5 [e|rate]]; [reflexivity|].
  destruct (Py.for_each FirmAgent.post_market_step fs5) as [fs6 [e|[]]]; [reflexivity|].
  destruct (BlackSwanEnv._update_macros _ _ _ _ _) as [econ7 [e|[]]]; [reflexivity|].
  destruct (GovernmentAgent.compute_reward _ _) as [gov8 [e|rew]]; [reflexivity|].
  destruct (BlackSwanEnv._check_collapse econ7) as [econ9 term]. reflexivity.
Qed.

Lemma reachable_households_dict (tanh : Q -> Q) (env : BlackSwanEnv.t) :
  reachable tanh env -> GlobalState.households (BlackSwanEnv.state env) = ∅.
Proof.
  intros (ms & mk & g & sp & pop & arch & H).
  induction H as [|env _ IH|env ty sev _ IH|env d a _ IH].
  - reflexivity.
  - reflexivity.
  - exact IH.
  - rewrite step_keeps_households_dict. exact IH.
Qed.

(** X23: in an environment built by [__init__], the reward of a step
    that returns has no unrest term: the household dictionary of the
    global state is never filled, so the aggregate unrest is 0, the crisis
    penalty is never applied, and the reward is
    clip(growth, -0.25, 0.25) - 0.8 * inflation - 1.2 * unemployment - Gini
    on the new indicators, with the growth taken against the GDP the
    government remembered; it lies between -3.25 and 0.25.  The government
    then remembers the new GDP. *)
Theorem step_reward_has_no_unrest_term
    (tanh : Q -> Q) (d : BlackSwanEnv.Draws) (a : EconomicState.Action)
    (env env' : BlackSwanEnv.t) (r : BlackSwanEnv.StepResult) :
  reachable tanh env ->
  BlackSwanEnv.step tanh d a env = (env', inr r) ->
  let econ' := GlobalState.economics (BlackSwanEnv.state env') in
  let growth :=
    GovernmentAgent.gdp_growth (BlackSwanEnv.government env) (BlackSwanEnv.state env') in
  BlackSwanEnv.reward r
  == Py.clip growth (-(25 # 100)) (25 # 100)
     - (8 # 10) * EconomicState.inflation econ'
     - (12 # 10) * EconomicState.unemployment econ'
     - EconomicState.gini_coeff econ'
  /\ -(325 # 100) <= BlackSwanEnv.reward r <= 25 # 100
  /\ GovernmentAgent.prev_gdp (BlackSwanEnv.government env')
     = Some (EconomicState.gdp econ').
Proof.
  intros Hreach Hstep. cbv zeta.
  pose proof (step_indicators_bounded _ _ _ _ _ _
                (reachable_no_debt tanh env Hreach) Hstep)
    as ([Hi0 Hi1] & [Hu0 Hu1] & [Hg0 Hg1] & _).
  pose proof (reachable_households_dict tanh env Hreach) as Hdict.
  destruct (step_inv _ _ _ _ _ _ Hstep)
    as (sh & econ0 & hs0 & fs0 & econ & gov & fs1 & hs1 & upd & hs2 & hs3 & fs2
        & wage & unemp & fs4 & rate & fs5 & fs6 & econ7 & gov8
        & E1 & -> & -> & E3 & -> & E5 & E5' & E6 & Hfs4 & E6' & E6'' & E7 & E8
        & -> & _).
  clear Hstep.
  unfold GovernmentAgent.compute_reward in E8.
  rewrite aggregate_unrest_empty in E8 by exact Hdict.
  pose proof (f_equal fst E8) as Hgov. pose proof (f_equal snd E8) as Hrew.
  cbn [fst snd] in Hgov, Hrew. clear E8. apply inr_inj in Hrew. subst gov8.
  assert (Hsame : forall (field : EconomicState.t -> Q),
            (forall e, field (EconomicState.set_regime EconomicState.collapsed e) = field e) ->
            field (fst (BlackSwanEnv._check_collapse econ7)) = field econ7).
  { intros field Hf. destruct (check_collapse_state econ7) as [-> | ->]; auto. }
  cbn [BlackSwanEnv.state BlackSwanEnv.set_world GlobalState.economics
       GlobalState.set_economics BlackSwanEnv.government GovernmentAgent.prev_gdp] in *.
  rewrite (Hsame EconomicState.inflation ltac:(reflexivity)) in *.
  rewrite (Hsame EconomicState.unemployment ltac:(reflexivity)) in *.
  rewrite (Hsame EconomicState.gini_coeff ltac:(reflexivity)) in *.
  rewrite (Hsame EconomicState.gdp ltac:(reflexivity)).
  unfold GovernmentAgent.gdp_growth in *.
  cbn [GlobalState.economics GlobalState.set_economics GovernmentAgent.prev_gdp] in *.
  rewrite (Hsame EconomicState.gdp ltac:(reflexivity)).
  set (growth := match GovernmentAgent.prev_gdp (BlackSwanEnv.government env) with
                 | Some prev => _
                 | None => 0
                 end) in *.
  assert (Hreward :
            BlackSwanEnv.reward r
            == Py.clip growth (-(25 # 100)) (25 # 100)
               - (8 # 10) * EconomicState.inflation econ7
               - (12 # 10) * EconomicState.unemployment econ7
               - EconomicState.gini_coeff econ7).
  { rewrite <- Hrew.
    unfold RewardFunctions.government_reward_default, RewardFunctions.government_reward.
    rewrite (clip_inside (EconomicState.inflation econ7)) by (split; assumption).
    rewrite (clip_inside (EconomicState.unemployment econ7)) by (split; assumption).
    rewrite (clip_inside (EconomicState.gini_coeff econ7)) by (split; assumption).
    pose proof (clip_bounds growth (-(25 # 100)) (25 # 100) ltac:(lra)) as [Hc0 Hc1].
    set (cg := Py.clip growth _ _) in *.
    replace (Py.ltb (85 # 100) (Py.clip 0 0 1)) with false by reflexivity.
    cbn [andb].
    rewrite (clip_compat _ (cg - (8 # 10) * EconomicState.inflation econ7
                            - (12 # 10) * EconomicState.unemployment econ7
                            - EconomicState.gini_coeff econ7))
      by (change (Py.clip 0 0 1) with 0; ring).
    rewrite clip_inside by (split; lra). reflexivity. }
  split; [exact Hreward|]. split; [|reflexivity].
  pose proof (clip_bounds growth (-(25 # 100)) (25 # 100) ltac:(lra)) as [Hc0 Hc1].
  rewrite Hreward. split; lra.
Qed.

Lemma step_reward_has_no_unrest_term_witness :
  let env' := fst Demo.after_calm_step in
  let r := Demo.result_of Demo.after_calm_step in
  let econ' := GlobalState.economics (BlackSwanEnv.state env') in
  let growth :=
    GovernmentAgent.gdp_growth (BlackSwanEnv.government Demo.env)
      (BlackSwanEnv.state env') in
  BlackSwanEnv.reward r
  == Py.clip growth (-(25 # 100)) (25 # 100)
     - (8 # 10) * EconomicState.inflation econ'
     - (12 # 10) * EconomicState.unemployment econ'
     - EconomicState.gini_coeff econ'
  /\ -(325 # 100) <= BlackSwanEnv.reward r <= 25 # 100
  /\ GovernmentAgent.prev_gdp (BlackSwanEnv.government env')
     = Some (EconomicState.gdp econ').
Proof.
  apply (step_reward_has_no_unrest_term Demo.tanh_approx Demo.calm Demo.action Demo.env).
  - exists 500%Z, MarketMechanism.default, Demo.graph, ShockManager.default_shock_probs,
      [(HouseholdAgent.poor, 50); (HouseholdAgent.working, 100);
       (HouseholdAgent.middle, 300); (HouseholdAgent.elite, 1000)],
      [FirmAgent.startup; FirmAgent.sme].
    apply follows_reset, follows_refl.
  - vm_compute. reflexivity.
Defined.

(** ** A shock without effect *)

Lemma same_but_consumption_map (f : HouseholdAgent.t -> HouseholdAgent.t)
    (hs hs' : list HouseholdAgent.t) :
  (forall h c, same_but_consumption (f h) (f (HouseholdAgent.set_consumption c h))) ->
  Forall2 same_but_consumption hs hs' ->
  Forall2 same_but_consumption (map f hs) (map f hs').
Proof.
  intros Hf H. induction H as [|h h' hs hs' Hh _ IH]; simpl; constructor; [|exact IH].
  unfold same_but_consumption in Hh. rewrite Hh. apply Hf.
Qed.

Lemma same_but_consumption_refl (hs : list HouseholdAgent.t) :
  Forall2 same_but_consumption hs hs.
Proof.
  induction hs as [|h hs IH]; constructor; [|exact IH]. destruct h. reflexivity.
Qed.

(** Every shock takes worlds that differ in the unemployment rate and
    the consumptions to worlds that differ in these only. *)
Lemma apply_shock_same_but_pandemic_effects (s : ShockManager.Shock)
    (w w' : ShockManager.World) :
  same_but_pandemic_effects w w' ->
  same_but_pandemic_effects (ShockManager._apply_shock s w)
                            (ShockManager._apply_shock s w').
Proof.
  destruct w as [[e hs] fs], w' as [[e' hs'] fs'].
  intros (He & Hh & Hf). cbn [fst snd] in *. subst fs'.
  unfold same_but_unemployment in He.
  set (u := EconomicState.unemployment e') in He. clearbody u. subst e'.
  unfold ShockManager._apply_shock.
  repeat match goal with
         | |- context [if ?b then _ else _] => destruct b
         end;
    (split; [reflexivity|split; [|reflexivity]]); cbn [fst snd];
    try exact Hh;
    (apply same_but_consumption_map; [intros h c; reflexivity|exact Hh]).
Qed.

(** A pandemic changes the unemployment rate and the consumptions
    only. *)
Lemma apply_pandemic (s : ShockManager.Shock) (w : ShockManager.World) :
  ShockManager.type s = "pandemic" ->
  same_but_pandemic_effects w (ShockManager._apply_shock s w).
Proof.
  intros Hty. destruct w as [[e hs] fs]. unfold ShockManager._apply_shock.
  rewrite Hty. cbn [String.eqb Ascii.eqb Bool.eqb andb].
  split; [reflexivity|split; [|reflexivity]]. cbn [fst snd].
  induction hs as [|h hs IH]; simpl; constructor; [reflexivity|exact IH].
Qed.

Lemma apply_active_same_but_pandemic_effects (l : list ShockManager.Shock)
    (w w' : ShockManager.World) :
  same_but_pandemic_effects w w' ->
  fst (ShockManager.apply_active l w) = fst (ShockManager.apply_active l w')
  /\ same_but_pandemic_effects (snd (ShockManager.apply_active l w))
                               (snd (ShockManager.apply_active l w')).
Proof.
  revert w w'. induction l as [|s l IH]; intros w w' H; simpl; [split; auto|].
  specialize (IH _ _ (apply_shock_same_but_pandemic_effects s w w' H)).
  destruct (ShockManager.apply_active l (ShockManager._apply_shock s w)) as [al w1].
  destruct (ShockManager.apply_active l (ShockManager._apply_shock s w')) as [al' w1'].
  cbn [fst snd] in *. destruct IH as [-> IH]. split; [reflexivity|exact IH].
Qed.

Lemma apply_active_app (l1 l2 : list ShockManager.Shock) (w : ShockManager.World) :
  ShockManager.apply_active (l1 ++ l2) w
  = (fst (ShockManager.apply_active l1 w)
     ++ fst (ShockManager.apply_active l2 (snd (ShockManager.apply_active l1 w))),
     snd (ShockManager.apply_active l2 (snd (ShockManager.apply_active l1 w)))).
Proof.
  revert w. induction l1 as [|s l1 IH]; intros w; simpl.
  - destruct (ShockManager.apply_active l2 w). reflexivity.
  - rewrite IH.
    destruct (ShockManager.apply_active l1 (ShockManager._apply_shock s w)) as [a1 w1].
    cbn [fst snd]. destruct (0 <? _)%Z; reflexivity.
Qed.

(** The random triggers append to the active shocks, whatever these
    are. *)
Lemma trigger_appends (probs : list (string * Q)) (random : nat -> Q) :
  forall k, exists new,
    forall m, ShockManager.trigger probs random k m
              = ShockManager.mk (ShockManager.active_shocks m ++ new)
                                (ShockManager.shock_probs m).
Proof.
  induction probs as [|[ty p] rest IH]; intros k.
  - exists []. intros [l ps]. simpl. rewrite app_nil_r. reflexivity.
  - destruct (IH (S k)) as [new Hnew]. simpl.
    destruct (Qlt_le_dec (random k) p).
    + eexists. intros m. rewrite Hnew. unfold ShockManager.add_shock.
      cbn [ShockManager.active_shocks ShockManager.shock_probs].
      rewrite <- app_assoc. reflexivity.
    + exists new. intros m. apply Hnew.
Qed.

Lemma maybe_trigger_world (random : nat -> Q) (m : ShockManager.t)
    (w : ShockManager.World) :
  snd (ShockManager.maybe_trigger random m w)
  = snd (ShockManager.apply_active
           (ShockManager.active_shocks
              (ShockManager.trigger (ShockManager.shock_probs m) random 0 m)) w).
Proof.
  unfold ShockManager.maybe_trigger.
  destruct (ShockManager.apply_active _ w). reflexivity.
Qed.

Lemma maybe_trigger_with_pandemic (random : nat -> Q) (m : ShockManager.t)
    (w : ShockManager.World) (sev : Q) :
  same_but_pandemic_effects
    (snd (ShockManager.maybe_trigger random m w))
    (snd (ShockManager.maybe_trigger random (ShockManager.add_shock "pandemic" sev m) w)).
Proof.
  rewrite !maybe_trigger_world.
  destruct (trigger_appends (ShockManager.shock_probs m) random 0) as [new Hnew].
  change (ShockManager.shock_probs (ShockManager.add_shock "pandemic" sev m))
    with (ShockManager.shock_probs m).
  rewrite !Hnew. cbn [ShockManager.active_shocks ShockManager.shock_probs
                      ShockManager.add_shock].
  set (p := ShockManager.mkShock "pandemic" sev _ 0).
  rewrite <- (app_assoc (ShockManager.active_shocks m) [p] new).
  rewrite !(apply_active_app (ShockManager.active_shocks m)). cbn [fst snd].
  set (w1 := snd (ShockManager.apply_active (ShockManager.active_shocks m) w)).
  rewrite (apply_active_app [p] new). cbn [fst snd].
  assert (Hp : snd (ShockManager.apply_active [p] w1) = ShockManager._apply_shock p w1).
  { reflexivity. }
  rewrite Hp.
  apply apply_active_same_but_pandemic_effects, apply_pandemic. reflexivity.
Qed.

(** The rule-based household does not read its consumption, and of the
    economy only the average unrest. *)
Lemma households_act_same (econ econ' : EconomicState.t)
    (hs hs' : list HouseholdAgent.t) :
  EconomicState.avg_unrest econ' = EconomicState.avg_unrest econ ->
  Forall2 same_but_consumption hs hs' ->
  BlackSwanEnv.households_act econ' hs' = BlackSwanEnv.households_act econ hs.
Proof.
  intros HU H. unfold BlackSwanEnv.households_act.
  induction H as [|h h' hs hs' Hh _ IH]; [reflexivity|].
  cbn [map]. f_equal; [|exact IH]. unfold same_but_consumption in Hh. rewrite Hh.
  unfold HouseholdAgent.act, BlackSwanEnv._household_obs.
  cbn [fst HouseholdAgent.o_social_unrest]. rewrite HU. reflexivity.
Qed.

(** [_update_macros] overwrites the unemployment rate it finds. *)
Lemma update_macros_ignores_unemployment (u z x : Q) (hs : list HouseholdAgent.t)
    (fs : list FirmAgent.t) (a : EconomicState.Action) (econ econ7 : EconomicState.t) :
  BlackSwanEnv._update_macros u z hs fs (EconomicState.apply_policy a econ)
  = (econ7, inr tt) ->
  BlackSwanEnv._update_macros u z hs fs
    (EconomicState.apply_policy a (EconomicState.set_unemployment x econ))
  = (econ7, inr tt).
Proof.
  unfold BlackSwanEnv._update_macros.
  destruct (BlackSwanEnv.revenues fs) as [e|rs]; [discriminate|].
  intros H. exact H.
Qed.

(** The converse of [step_inv]: a step whose phases return returns. *)
Lemma step_returns (tanh : Q -> Q) (d : BlackSwanEnv.Draws) (a : EconomicState.Action)
    (env : BlackSwanEnv.t) sh econ0 hs0 fs0 fs1 upd hs2 hs3 fs2 wage unemp rate fs5 fs6
    econ7 gov8 rew :
  ShockManager.maybe_trigger (BlackSwanEnv.random d) (BlackSwanEnv.shocks env)
    (GlobalState.economics (BlackSwanEnv.state env),
     BlackSwanEnv.households env, BlackSwanEnv.firms env) = (sh, (econ0, hs0, fs0)) ->
  Py.for_each (FirmAgent.step
                 (BlackSwanEnv.conditions env (EconomicState.apply_policy a econ0)))
    fs0 = (fs1, inr tt) ->
  SocialGraph.spread_influence (BlackSwanEnv.social_graph env)
    (BlackSwanEnv.household_states
       (BlackSwanEnv.households_act (EconomicState.apply_policy a econ0) hs0))
    (BlackSwanEnv.normal d) = inr upd ->
  Py.for_each (BlackSwanEnv.take_unrest upd)
    (BlackSwanEnv.households_act (EconomicState.apply_policy a econ0) hs0)
  = (hs2, inr tt) ->
  MarketMechanism.clear_labor_market tanh (BlackSwanEnv.market env)
    (BlackSwanEnv.interval d) hs2 fs1 = ((hs3, fs2), inr (wage, unemp)) ->
  MarketMechanism.clear_credit_market (BlackSwanEnv.market env)
    (fst (MarketMechanism.clear_goods_market tanh (BlackSwanEnv.market env) hs3
            (map (fun f => fst (FirmAgent.produce f)) fs2)))
    (GovernmentAgent.mk (GovernmentAgent.prev_gdp (BlackSwanEnv.government env))
       (Some (EconomicState.interest_rate (EconomicState.apply_policy a econ0))))
  = (fs5, inr rate) ->
  Py.for_each FirmAgent.post_market_step fs5 = (fs6, inr tt) ->
  BlackSwanEnv._update_macros unemp (BlackSwanEnv.randn d) hs3 fs6
    (EconomicState.apply_policy a econ0) = (econ7, inr tt) ->
  GovernmentAgent.compute_reward
    (GlobalState.set_economics econ7 (BlackSwanEnv.state env))
    (GovernmentAgent.mk (GovernmentAgent.prev_gdp (BlackSwanEnv.government env))
       (Some (EconomicState.interest_rate (EconomicState.apply_policy a econ0))))
  = (gov8, inr rew) ->
  BlackSwanEnv.step tanh d a env
  = (BlackSwanEnv.set_world env (BlackSwanEnv.timestep env + 1)
       (fst (BlackSwanEnv._check_collapse econ7)) gov8 hs3 fs6 sh,
     inr (BlackSwanEnv.mkResult
            (BlackSwanEnv._get_obs
               (BlackSwanEnv.set_world env (BlackSwanEnv.timestep env + 1)
                  (fst (BlackSwanEnv._check_collapse econ7)) gov8 hs3 fs6 sh))
            rew (snd (BlackSwanEnv._check_collapse econ7))
            (BlackSwanEnv.max_steps env <=? BlackSwanEnv.timestep env + 1)%Z)).
Proof.
  intros E1 E3 E5 E5' E6 E6' E6'' E7 E8. unfold BlackSwanEnv.step.
  rewrite E1, E3, E5, E5', E6, E6', E6'', E7, E8.
  destruct (BlackSwanEnv._check_collapse econ7). reflexivity.
Qed.

(** X24: a pandemic shock changes nothing in a step that returns.  Its
    increment of the unemployment rate is overwritten by the labor
    market's rate and its cut of the consumptions by the households' own
    decision, before either is read: the step of the environment with a
    pandemic of any severity added returns the same observation, reward
    and flags, and leaves the same state, agents and government; only the
    list of active shocks differs. *)
Theorem pandemic_changes_no_returning_step
    (tanh : Q -> Q) (d : BlackSwanEnv.Draws) (a : EconomicState.Action)
    (env env' : BlackSwanEnv.t) (r : BlackSwanEnv.StepResult) (sev : Q) :
  BlackSwanEnv.step tanh d a env = (env', inr r) ->
  exists env2,
    BlackSwanEnv.step tanh d a (BlackSwanEnv.add_shock "pandemic" sev env)
    = (env2, inr r)
    /\ same_but_shocks env' env2.
Proof.
  intros Hstep.
  destruct (step_inv _ _ _ _ _ _ Hstep)
    as (sh & econ0 & hs0 & fs0 & econ & gov & fs1 & hs1 & upd & hs2 & hs3 & fs2
        & wage & unemp & fs4 & rate & fs5 & fs6 & econ7 & gov8
        & E1 & -> & -> & E3 & -> & E5 & E5' & E6 & -> & E6' & E6'' & E7 & E8
        & -> & Hterm & Htrunc & Hobs).
  clear Hstep.
  pose proof (maybe_trigger_with_pandemic (BlackSwanEnv.random d)
                (BlackSwanEnv.shocks env)
                (GlobalState.economics (BlackSwanEnv.state env),
                 BlackSwanEnv.households env, BlackSwanEnv.firms env) sev) as Hrel.
  rewrite E1 in Hrel.
  destruct (ShockManager.maybe_trigger (BlackSwanEnv.random d)
              (ShockManager.add_shock "pandemic" sev (BlackSwanEnv.shocks env))
              (GlobalState.economics (BlackSwanEnv.state env),
               BlackSwanEnv.households env, BlackSwanEnv.firms env))
    as [sh2 [[econ0' hs0'] fs0']] eqn:E1'.
  destruct Hrel as (He & Hh & Hf). cbn [fst snd] in He, Hh, Hf. subst fs0'.
  unfold same_but_unemployment in He.
  set (u := EconomicState.unemployment econ0') in He. clearbody u. subst econ0'.
  set (envp := BlackSwanEnv.add_shock "pandemic" sev env).
  assert (Hact : BlackSwanEnv.households_act
                   (EconomicState.apply_policy a (EconomicState.set_unemployment u econ0))
                   hs0'
                 = BlackSwanEnv.households_act (EconomicState.apply_policy a econ0) hs0)
    by (apply households_act_same; [reflexivity|exact Hh]).
  pose proof (step_returns tanh d a envp sh2 (EconomicState.set_unemployment u econ0)
                hs0' fs0 fs1 upd hs2 hs3 fs2 wage unemp rate fs5 fs6 econ7 gov8
                (BlackSwanEnv.reward r)) as Hret.
  rewrite Hact in Hret.
  specialize (Hret E1' E3 E5 E5' E6 E6' E6''
                (update_macros_ignores_unemployment _ _ _ _ _ _ _ _ E7) E8).
  eexists. split.
  - rewrite Hret. f_equal. f_equal.
    destruct r as [o rw te tr]. cbn [BlackSwanEnv.obs BlackSwanEnv.reward
      BlackSwanEnv.terminated BlackSwanEnv.truncated] in *. subst. reflexivity.
  - unfold same_but_shocks. repeat split.
Qed.

Lemma pandemic_changes_no_returning_step_witness :
  exists env2,
    BlackSwanEnv.step Demo.tanh_approx Demo.calm Demo.action
      (BlackSwanEnv.add_shock "pandemic" (5 # 10) Demo.env)
    = (env2, inr (Demo.result_of Demo.after_calm_step))
    /\ same_but_shocks (fst Demo.after_calm_step) env2.
Proof.
  apply (pandemic_changes_no_returning_step Demo.tanh_approx Demo.calm Demo.action
           Demo.env).
  vm_compute. reflexivity.
Defined.

(** ** Who is paid and who is billed *)

Lemma sum_wealth_hired (wage : Q) (l : list HouseholdAgent.t) :
  Py.sum (map HouseholdAgent.wealth (map (hired wage) l))
  == Py.sum (map HouseholdAgent.wealth l) + inject_Z (Z.of_nat (length l)) * wage.
Proof.
  induction l as [|h l IH].
  - change (0 == 0 + 0 * wage). ring.
  - cbn [map length]. rewrite !sum_cons, IH.
    rewrite Nat2Z.inj_succ, <- Z.add_1_r, inject_Z_plus. change (inject_Z 1) with 1.
    cbn [hired HouseholdAgent.wealth]. ring.
Qed.

Lemma sum_wealth_dismissed (l : list HouseholdAgent.t) :
  Py.sum (map HouseholdAgent.wealth (map dismissed l))
  == Py.sum (map HouseholdAgent.wealth l).
Proof.
  induction l as [|h l IH]; [reflexivity|].
  cbn [map]. rewrite !sum_cons, IH. reflexivity.
Qed.

(** X25: when the total labor demand is not negative, the labor market
    pays the households min(supply, demand) wages in total: their summed
    wealth rises by exactly that many times the wage, while each firm is
    billed its own employees times the wage. *)
Theorem labor_market_pays_one_wage_per_employed_household
    (tanh : Q -> Q) (m : MarketMechanism.t) (interval : nat -> nat)
    (hs hs' : list HouseholdAgent.t) (fs fs' : list FirmAgent.t)
    (ds : list Z) (wage u : Q) :
  MarketMechanism.clear_labor_market tanh m interval hs fs = ((hs', fs'), inr (wage, u)) ->
  MarketMechanism.desired_labors fs = inr ds ->
  (0 <= Py.sumZ ds)%Z ->
  Py.sum (map HouseholdAgent.wealth hs')
  == Py.sum (map HouseholdAgent.wealth hs)
     + inject_Z (Z.min (Z.of_nat (length hs)) (Py.sumZ ds)) * wage
  /\ Forall (fun f' => FirmAgent.wage_bill f'
                       = Some (inject_Z (FirmAgent.employees f') * wage)) fs'.
Proof.
  intros H Hds HD.
  destruct (clear_labor_market_inv _ _ _ _ _ _ _ _ _ H)
    as (ds' & Hds' & Hne & _ & _ & Hhs & Hstaff).
  rewrite Hds in Hds'. injection Hds' as <-.
  set (e := Z.min (Z.of_nat (length hs)) (Py.sumZ ds)) in *.
  assert (He : (0 <= e <= Z.of_nat (length hs))%Z) by (unfold e; lia).
  assert (Hk : Py.slice_len (length hs) e = Z.to_nat e).
  { unfold Py.slice_len. destruct (0 <=? e)%Z eqn:E; [lia|]. apply Z.leb_gt in E. lia. }
  rewrite Hk in Hhs.
  pose proof (shuffle_Permutation interval hs) as Hperm.
  split.
  - rewrite Hhs, List.map_app, sum_app, sum_wealth_hired, sum_wealth_dismissed.
    rewrite length_take, (Permutation_length Hperm).
    replace (Z.of_nat (Z.to_nat e `min` length hs)) with e by lia.
    rewrite <- (sum_Permutation _ _ (Permutation_map HouseholdAgent.wealth Hperm)).
    rewrite <- (take_drop (Z.to_nat e) (Py.shuffle interval hs)) at 3.
    rewrite List.map_app, sum_app. ring.
  - apply for_each_ok in Hstaff as [-> Hok]. apply List.Forall_map.
    eapply Forall_impl; [exact Hok|]. intros f Hf. cbv beta in Hf.
    unfold MarketMechanism.staff in *.
    destruct (FirmAgent.getattr "desired_labor" (FirmAgent.desired_labor f));
      [discriminate|reflexivity].
Qed.

Lemma labor_market_pays_one_wage_per_employed_household_witness :
  Py.sum (map HouseholdAgent.wealth (fst (fst FullStaffing.cleared)))
  == Py.sum (map HouseholdAgent.wealth Bankruptcy.households)
     + inject_Z (Z.min (Z.of_nat (length Bankruptcy.households)) (Py.sumZ [20%Z]))
       * fst FullStaffing.outcome
  /\ Forall (fun f' => FirmAgent.wage_bill f'
                       = Some (inject_Z (FirmAgent.employees f')
                               * fst FullStaffing.outcome))
            (snd (fst FullStaffing.cleared)).
Proof.
  apply (labor_market_pays_one_wage_per_employed_household Demo.tanh_approx
           MarketMechanism.default (fun i => i) Bankruptcy.households _
           [FullStaffing.firm] _ [20%Z] _ (snd FullStaffing.outcome)).
  - vm_compute. reflexivity.
  - reflexivity.
  - simpl. lia.
Defined.

(** ** The population *)

Lemma map_key_map {A K} (key : A -> K) (g : A -> A) (l : list A) :
  (forall x, key (g x) = key x) -> map key (map g l) = map key l.
Proof.
  intros Hg. rewrite List.map_map. apply List.map_ext. exact Hg.
Qed.

Lemma apply_shock_keys (s : ShockManager.Shock) (w : ShockManager.World) :
  map household_key (snd (fst (ShockManager._apply_shock s w)))
  = map household_key (snd (fst w))
  /\ map firm_key (snd (ShockManager._apply_shock s w)) = map firm_key (snd w).
Proof.
  destruct w as [[econ hs] fs]. unfold ShockManager._apply_shock.
  repeat match goal with
         | |- context [if ?b then _ else _] => destruct b
         end; cbn [fst snd];
    split; try reflexivity; apply map_key_map; intros; reflexivity.
Qed.

Lemma maybe_trigger_keys (random : nat -> Q) (m : ShockManager.t)
    (w : ShockManager.World) :
  map household_key (snd (fst (snd (ShockManager.maybe_trigger random m w))))
  = map household_key (snd (fst w))
  /\ map firm_key (snd (snd (ShockManager.maybe_trigger random m w)))
     = map firm_key (snd w).
Proof.
  rewrite maybe_trigger_world.
  generalize (ShockManager.active_shocks
                (ShockManager.trigger (ShockManager.shock_probs m) random 0 m)).
  intros l. revert w. induction l as [|s l IH]; intros w; simpl; [split; reflexivity|].
  specialize (IH (ShockManager._apply_shock s w)).
  destruct (ShockManager.apply_active l (ShockManager._apply_shock s w)) as [al w'].
  cbn [fst snd] in *. destruct (apply_shock_keys s w) as [H1 H2].
  destruct IH as [IH1 IH2]. split; congruence.
Qed.

Lemma for_each_keys {A K} (key : A -> K) (body : Py.M A unit) (l l' : list A) :
  (forall x, key (fst (body x)) = key x) ->
  Py.for_each body l = (l', inr tt) -> map key l' = map key l.
Proof.
  intros Hb H. apply for_each_ok in H as [-> _]. apply map_key_map. exact Hb.
Qed.

Lemma step_firm_key (mc : FirmAgent.MarketConditions) (f : FirmAgent.t) :
  firm_key (fst (FirmAgent.step mc f)) = firm_key f.
Proof.
  unfold FirmAgent.step. destruct (negb (FirmAgent.alive f)); [reflexivity|].
  destruct (FirmAgent.labor_required mc f); reflexivity.
Qed.

Lemma staff_firm_key (e d : Z) (w : Q) (f : FirmAgent.t) :
  firm_key (fst (MarketMechanism.staff e d w f)) = firm_key f.
Proof.
  unfold MarketMechanism.staff. destruct (FirmAgent.getattr _ _); reflexivity.
Qed.

Lemma lend_firm_key (m : MarketMechanism.t) (r : Q) (f : FirmAgent.t) :
  firm_key (fst (MarketMechanism.lend m r f)) = firm_key f.
Proof.
  unfold MarketMechanism.lend. destruct (Qlt_le_dec _ 0); [|reflexivity].
  cbv zeta. destruct (FirmAgent.getattr _ _); reflexivity.
Qed.

Lemma post_market_step_firm_key (f : FirmAgent.t) :
  firm_key (fst (FirmAgent.post_market_step f)) = firm_key f.
Proof.
  unfold FirmAgent.post_market_step. destruct (negb (FirmAgent.alive f)); [reflexivity|].
  destruct (FirmAgent.getattr "revenue" _); [reflexivity|].
  destruct (FirmAgent.getattr "wage_bill" _); [reflexivity|].
  cbv zeta. destruct (Qlt_le_dec _ 0); reflexivity.
Qed.

Lemma goods_market_firm_key (tanh : Q -> Q) (m : MarketMechanism.t)
    (hs : list HouseholdAgent.t) (fs : list FirmAgent.t) :
  map firm_key (fst (MarketMechanism.clear_goods_market tanh m hs fs)) = map firm_key fs.
Proof.
  unfold MarketMechanism.clear_goods_market. cbn [fst].
  destruct (Qlt_le_dec 0 _); rewrite !map_key_map; try reflexivity; intros; reflexivity.
Qed.

(** X26: a step that returns neither creates nor removes an agent: the
    firms keep their places, ids and archetypes, and the households their
    ids and classes, but not their places in the list, which the labor
    market shuffles. *)
Theorem step_keeps_the_population
    (tanh : Q -> Q) (d : BlackSwanEnv.Draws) (a : EconomicState.Action)
    (env env' : BlackSwanEnv.t) (r : BlackSwanEnv.StepResult) :
  BlackSwanEnv.step tanh d a env = (env', inr r) ->
  map firm_key (BlackSwanEnv.firms env') = map firm_key (BlackSwanEnv.firms env)
  /\ map household_key (BlackSwanEnv.households env')
     ≡ₚ map household_key (BlackSwanEnv.households env).
Proof.
  intros Hstep.
  destruct (step_inv _ _ _ _ _ _ Hstep)
    as (sh & econ0 & hs0 & fs0 & econ & gov & fs1 & hs1 & upd & hs2 & hs3 & fs2
        & wage & unemp & fs4 & rate & fs5 & fs6 & econ7 & gov8
        & E1 & -> & -> & E3 & -> & E5 & E5' & E6 & -> & E6' & E6'' & E7 & E8
        & -> & _).
  clear Hstep.
  destruct (maybe_trigger_keys (BlackSwanEnv.random d) (BlackSwanEnv.shocks env)
              (GlobalState.economics (BlackSwanEnv.state env),
               BlackSwanEnv.households env, BlackSwanEnv.firms env)) as [Hh0 Hf0].
  rewrite E1 in Hh0, Hf0. cbn [fst snd] in Hh0, Hf0.
  cbn [BlackSwanEnv.firms BlackSwanEnv.households BlackSwanEnv.set_world].
  destruct (clear_labor_market_inv _ _ _ _ _ _ _ _ _ E6)
    as (ds & _ & _ & _ & _ & Hhs3 & Hstaff).
  split.
  - rewrite (for_each_keys firm_key _ _ _ post_market_step_firm_key E6'').
    unfold MarketMechanism.clear_credit_market in E6'.
    cbn [GovernmentAgent.current_interest_rate] in E6'.
    destruct (Py.for_each (MarketMechanism.lend _ _) _) as [fs5' [e|[]]] eqn:Elend;
      [discriminate|].
    injection E6' as <- _.
    rewrite (for_each_keys firm_key _ _ _ (lend_firm_key _ _) Elend).
    rewrite goods_market_firm_key.
    rewrite (map_key_map firm_key) by (intros; reflexivity).
    rewrite (for_each_keys firm_key _ _ _ (staff_firm_key _ _ _) Hstaff).
    rewrite (for_each_keys firm_key _ _ _ (step_firm_key _) E3).
    exact Hf0.
  - rewrite <- Hh0.
    assert (H1 : map household_key
                   (BlackSwanEnv.households_act (EconomicState.apply_policy a econ0) hs0)
                 = map household_key hs0).
    { unfold BlackSwanEnv.households_act. apply map_key_map. intros h. reflexivity. }
    assert (H2 : map household_key hs2
                 = map household_key
                     (BlackSwanEnv.households_act (EconomicState.apply_policy a econ0) hs0)).
    { eapply for_each_keys; [|exact E5']. intros h. unfold BlackSwanEnv.take_unrest.
      destruct (upd !! HouseholdAgent.id h); reflexivity. }
    rewrite <- H1, <- H2, Hhs3, List.map_app.
    rewrite !(map_key_map household_key) by (intros; reflexivity).
    rewrite <- List.map_app, take_drop.
    apply Permutation_map, shuffle_Permutation.
Qed.

Lemma step_keeps_the_population_witness :
  map firm_key (BlackSwanEnv.firms (fst Demo.after_calm_step))
  = map firm_key (BlackSwanEnv.firms Demo.env)
  /\ map household_key (BlackSwanEnv.households (fst Demo.after_calm_step))
     ≡ₚ map household_key (BlackSwanEnv.households Demo.env).
Proof.
  apply (step_keeps_the_population Demo.tanh_approx Demo.calm Demo.action Demo.env _
           (Demo.result_of Demo.after_calm_step)).
  vm_compute. reflexivity.
Defined.

(** ** The household's reward *)

(** X27: for a logarithm that is monotone on the positive numbers and
    non-negative weights, the household reward never falls when
    consumption rises and inflation, unemployment risk and unrest
    exposure fall; and every consumption below the floor 1e-6, negative
    ones included, earns the reward of 1e-6: the logarithm is never taken
    of a non-positive number. *)
Theorem household_reward_monotone
    (log : Q -> Q) (c c' i i' u u' x x' alpha beta gamma : Q) :
  (forall p q, 0 < p -> p <= q -> log p <= log q) ->
  0 <= alpha -> 0 <= beta -> 0 <= gamma ->
  c <= c' -> i' <= i -> u' <= u -> x' <= x ->
  RewardFunctions.household_reward log c i u x alpha beta gamma
  <= RewardFunctions.household_reward log c' i' u' x' alpha beta gamma
  /\ (c < 1 # 1000000 ->
      RewardFunctions.household_reward log c i u x alpha beta gamma
      = RewardFunctions.household_reward log (1 # 1000000) i u x alpha beta gamma).
Proof.
  intros Hlog Ha Hb Hg Hc Hi Hu Hx. unfold RewardFunctions.household_reward. split.
  - apply clip_mono; [lra|].
    assert (Hmax : 0 < Py.max c (1 # 1000000)
                   /\ Py.max c (1 # 1000000) <= Py.max c' (1 # 1000000)).
    { unfold Py.max. destruct (Qlt_le_dec c _), (Qlt_le_dec c' _); split; lra. }
    destruct Hmax as [Hpos Hle].
    pose proof (Hlog _ _ Hpos Hle) as Hl.
    pose proof (clip_mono i' i 0 1 ltac:(lra) Hi) as Mi.
    pose proof (clip_mono u' u 0 1 ltac:(lra) Hu) as Mu.
    pose proof (clip_unit_square_mono x' x Hx) as Mx.
    set (ci := Py.clip i 0 1) in *. set (ci' := Py.clip i' 0 1) in *.
    set (cu := Py.clip u 0 1) in *. set (cu' := Py.clip u' 0 1) in *.
    set (cx := Py.clip x 0 1) in *. set (cx' := Py.clip x' 0 1) in *.
    assert (H1 : alpha * ci' <= alpha * ci)
      by (rewrite !(Qmult_comm alpha); apply Qmult_le_compat_r; assumption).
    assert (H2 : beta * cu' <= beta * cu)
      by (rewrite !(Qmult_comm beta); apply Qmult_le_compat_r; assumption).
    assert (H3 : gamma * (cx' * cx') <= gamma * (cx * cx))
      by (rewrite !(Qmult_comm gamma); apply Qmult_le_compat_r; assumption).
    lra.
  - intros Hfloor.
    assert (Hmax : Py.max c (1 # 1000000) = Py.max (1 # 1000000) (1 # 1000000)).
    { unfold Py.max at 1. destruct (Qlt_le_dec c _); [reflexivity|lra]. }
    rewrite Hmax. reflexivity.
Qed.

Lemma household_reward_monotone_witness :
  RewardFunctions.household_reward (fun q => q - 1) (-3) (1 # 2) (1 # 2) (1 # 2)
    1 (12 # 10) (15 # 10)
  <= RewardFunctions.household_reward (fun q => q - 1) 2 (1 # 10) (1 # 10) (1 # 10)
       1 (12 # 10) (15 # 10)
  /\ (-3 < 1 # 1000000 ->
      RewardFunctions.household_reward (fun q => q - 1) (-3) (1 # 2) (1 # 2) (1 # 2)
        1 (12 # 10) (15 # 10)
      = RewardFunctions.household_reward (fun q => q - 1) (1 # 1000000)
          (1 # 2) (1 # 2) (1 # 2) 1 (12 # 10) (15 # 10)).
Proof.
  apply household_reward_monotone; try (vm_compute; discriminate).
  intros p q _ Hpq. lra.
Defined.
